(** * Flatmap viewer: the [UserInteractions] controller

    A shallow embedding of the two versions of [UserInteractions] found in
    the repository:

    - the annotation-oriented controller of [src/interactions.js]
      (module [Annotator] below), and
    - the general-viewer controller (module [Viewer] below).

    Methods whose text is the same in both files ([selectFeature_],
    [unselectFeatures_], [unhighlightFeatures_], [activeFeaturesAtEvent_],
    [smallestAnnotatedPolygonFeature_], [queryData_], the touch handlers, the
    getter [selectedFeatureLayerName] and the helper [expandBounds]) are
    embedded once, ahead of the two modules.

    Numbers.  JavaScript numbers are IEEE doubles.  The code only compares
    them and takes minima and maxima, and on finite doubles these operations
    are exact, so numbers are modelled as rationals [Q] with [Qeq] as numeric
    equality; NaN and the infinities are left out.  [Date.now()] is a whole
    number of milliseconds, modelled as [Z] and handed to the handlers that
    read the clock. *)

From Stdlib Require Import ZArith QArith Qminmax Lia Lqa Ascii String.
From stdpp Require Import base gmap strings list.

Close Scope Q_scope.
Local Open Scope string_scope.
Local Open Scope list_scope.

(* ===================================================================== *)
(** ** JavaScript string helpers *)
(* ===================================================================== *)

(** [s.includes(sub)]: [sub] occurs in [s] at some position. *)
Fixpoint includes (sub s : string) : bool :=
  String.prefix sub s
  || match s with
     | EmptyString => false
     | String _ s' => includes sub s'
     end.

(** [s.split(c)] for a one-character separator [c]. *)
Fixpoint split (c : ascii) (s : string) : list string :=
  match s with
  | EmptyString => [EmptyString]
  | String a s' =>
      if Ascii.eqb a c then EmptyString :: split c s'
      else match split c s' with
           | [] => [String a EmptyString]
           | seg :: segs => String a seg :: segs
           end
  end.

(** [l.join(sep)]. *)
Fixpoint join (sep : string) (l : list string) : string :=
  match l with
  | [] => EmptyString
  | [x] => x
  | x :: rest => x +:+ sep +:+ join sep rest
  end.

(** [l.slice(0, -1)]: everything but the last element. *)
Definition slice_0_m1 {A : Type} (l : list A) : list A := removelast l.

(** JavaScript truthiness of a string: the empty string is falsy. *)
Definition truthy (s : string) : bool :=
  match s with EmptyString => false | _ => true end.

(** [l.indexOf(x) >= 0]. *)
Definition indexOf_ge0 (l : list string) (x : string) : bool :=
  bool_decide (x ∈ l).

(* ===================================================================== *)
(** ** Geometry utilities *)
(* ===================================================================== *)

(** A bounding box, the array [[minX, minY, maxX, maxY]]. *)
Record BBox : Type := mkBBox { bb0 : Q; bb1 : Q; bb2 : Q; bb3 : Q }.

(** Numeric equality of two boxes, entry by entry. *)
Definition BBox_eq (a b : BBox) : Prop :=
  (bb0 a == bb0 b)%Q /\ (bb1 a == bb1 b)%Q /\
  (bb2 a == bb2 b)%Q /\ (bb3 a == bb3 b)%Q.

(** [expandBounds(bbox1, bbox2)] (the spec's [mergeBounds]). *)
Definition expandBounds (bbox1 bbox2 : BBox) : BBox :=
  mkBBox (Qmin (bb0 bbox1) (bb0 bbox2)) (Qmin (bb1 bbox1) (bb1 bbox2))
         (Qmax (bb2 bbox1) (bb2 bbox2)) (Qmax (bb3 bbox1) (bb3 bbox2)).

(* ===================================================================== *)
(** ** Data model *)
(* ===================================================================== *)

Definition LngLat : Type := Q * Q.
Definition Point : Type := Z * Z.

(** Two numbers written the same way are told to be the same. *)
#[global] Instance Q_eq_dec : EqDecision Q.
Proof. solve_decision. Defined.

Record Geometry : Type := mkGeometry {
  gtype : string;                       (* geometry.type *)
  coordinates : list (list LngLat)      (* geometry.coordinates *)
}.

(** The entries of [feature.properties] the controller reads; [None] is an
    absent key. *)
Record Properties : Type := mkProperties {
  p_id : option string;
  p_bounds : option string;
  p_bbox : option string;
  p_label : option string;
  p_area : option Q
}.

Record Layer : Type := mkLayer { layer_id : string; layer_type : string }.

(** A feature reference as returned by [queryRenderedFeatures]. *)
Record Feature : Type := mkFeature {
  source : string;
  sourceLayer : string;
  fid : string;                         (* feature.id *)
  layer : Layer;                        (* feature.layer *)
  geometry : Geometry;
  properties : Properties
}.

(** The identity under which the map engine files a feature's state. *)
Definition FeatureKey : Type := string * string * string.

Definition featureKey (f : Feature) : FeatureKey :=
  (source f, sourceLayer f, fid f).

(** The map engine's feature-state store: per feature, the set of flags
    currently held with value [true] (the code never stores another value). *)
Abbreviation Store := (gmap FeatureKey (gset string)).

(** [map.getFeatureState(feature)]. *)
Definition getFeatureState (f : Feature) (st : Store) : gset string :=
  default ∅ (st !! featureKey f).

(** [map.getFeatureState(feature)[flag]], as a truth value. *)
Definition hasFlag (k : FeatureKey) (flag : string) (st : Store) : bool :=
  bool_decide (flag ∈ default ∅ (st !! k)).

(** [map.setFeatureState(feature, { flag: true })]: merged into the state the
    feature already has. *)
Definition setFeatureState (f : Feature) (flag : string) (st : Store) : Store :=
  <[featureKey f := {[flag]} ∪ getFeatureState f st]> st.

(** [map.removeFeatureState(feature, flag)]. *)
Definition removeFeatureState (f : Feature) (flag : string) (st : Store) : Store :=
  <[featureKey f := getFeatureState f st ∖ {[flag]}]> st.

(** An annotation record, as returned by [flatmap.getAnnotation(id)]. *)
Record Annotation : Type := mkAnnotation {
  ann_featureId : string;
  ann_label : option string;
  ann_models : list string;
  ann_text : string;
  ann_layer : string;
  ann_url : option string;
  ann_error : option string
}.

(** The record returned by [flatmap.annotation(featureId)] (general viewer).
    A record need not carry [bounds]: reading the property of one without
    gives [undefined] ([None]). *)
Record AnnotationProps : Type := mkAnnotationProps {
  ap_layer : string;
  ap_bounds : option BBox;
  ap_centroid : LngLat
}.

(** A map event: pixel position and map coordinate. *)
Record MapEvent : Type := mkMapEvent { point : Point; lngLat : LngLat }.

(** The bound functions stored as a menu item's [action]. *)
Inductive Action : Type :=
| QueryAction (kind : string)           (* this.query_.bind(this, kind) *)
| ZoomToAction (feature : Feature).     (* this.zoomTo_.bind(this, feature) *)

(** An entry of the list handed to [ContextMenu.show]. *)
Inductive MenuEntry : Type :=
| Separator                             (* '-' *)
| Item (id : option string) (prompt : string) (action : Action).
    (* [id] is [feature.properties.id]; [None] is [undefined] *)

(** A value placed in a tooltip line. *)
Inductive JsValue : Type :=
| JsString (s : string)
| JsBool (b : bool)
| JsUndefined.

(** What a variable meant for a box holds: [null], [undefined] or a box. *)
Inductive JsBBox : Type :=
| BBoxNull
| BBoxUndefined
| BBoxOf (bbox : BBox).

(** One call [map.fitBounds(bbox, { padding, animate })]. *)
Record FitCall : Type := mkFitCall {
  fit_bbox : JsBBox;
  fit_padding : Q;
  fit_animate : bool
}.

(** One call [queryInterface.query(type, url, models)]. *)
Record QueryCall : Type := mkQueryCall {
  q_type : string;
  q_url : option string;
  q_models : list string
}.

Variant InfoControl : Type := TheInfoControl.
Variant LayerSwitcher : Type := TheLayerSwitcher.

(** What the controller consumes from the host flatmap, the map engine, the
    layer manager and the geometry library.  None of it is under [src/]. *)
Record Flatmap : Type := mkFlatmap {
  queryRenderedFeatures : Point -> list Feature;
  queryRenderedFeaturesIn : list string -> list Feature;
      (* queryRenderedFeatures(null, {filter: ['in', 'id', ...ids]}) *)
  activeLayerNames : list string;       (* layerManager.activeLayerNames *)
  layerQueryable : string -> bool;      (* layerManager.layerQueryable *)
  annotations : list (string * Annotation);
  getAnnotation : string -> option Annotation;
  annotation : string -> option AnnotationProps;
  modelsForFeature : string -> list string;
  mapFeature : string -> string -> Feature;       (* utils.mapFeature *)
  turfArea : Geometry -> Q;
  turfBBox : Geometry -> BBox;
  parseBBox : string -> option BBox;
      (* JSON.parse of a bounds string; [None]: the string is no JSON text
         and JSON.parse raises SyntaxError *)
  featureInformation : list Feature -> string;    (* infoControl *)
  opt_searchable : bool;
  opt_featureInfo : bool;
  opt_tooltips : bool
}.

(** [bounds(feature)]: the declared bounding box when the feature has one,
    else the box of the geometry at hand.  The result is [None] when
    [JSON.parse] raises on the declared string: [bounds] then raises
    [SyntaxError] and returns nothing.  A string that parses is taken to hold
    a box, which is what the map's tiles serialise there.  (In
    [src/interactions.js] the lines of this function are interleaved with
    those of [tooltip(valuesList)]; it is read there as in the viewer's file,
    where it stands alone.) *)
Definition bounds (fm : Flatmap) (feature : Feature) : option BBox :=
  let b := match p_bounds (properties feature) with
           | Some s => Some s           (* 'bounds' in feature.properties *)
           | None => p_bbox (properties feature)
           end in
  match b with
  | Some s => if truthy s then parseBBox fm s
              else Some (turfBBox fm (geometry feature))
  | None => Some (turfBBox fm (geometry feature))
  end.

(* ===================================================================== *)
(** ** The controller object *)
(* ===================================================================== *)

(** The fields of a [UserInteractions] object together with the state of the
    collaborators its methods write to (feature-state store, canvas cursor,
    camera, context menu, tooltip, query interface, host callback).  The two
    versions of the class are embedded over this one record; a field that a
    version never assigns keeps the value [undefined] ([None], or [false]
    where only its truth value is read). *)
Record Controller : Type := mkController {
  featureState : Store;   (* the map engine's feature-state store *)
  cursor : string;   (* map.getCanvas().style.cursor *)
  fitBoundsCalls : list FitCall;   (* calls of map.fitBounds, latest first *)
  contextMenu : option (LngLat * list MenuEntry);   (* what the ContextMenu shows, if open *)
  tooltipShown : option (LngLat * list JsValue);   (* annotator: what its ToolTip shows *)
  queryCalls : list QueryCall;   (* annotator: calls of queryInterface.query, latest first *)
  hostCallbacks : list (list string);   (* flatmap.callback('query-data', models), latest first *)
  _selectedFeature : option Feature;
  _highlightedFeatures : list Feature;
  _activeFeature : option Feature;   (* viewer only *)
  _tooltip : option (LngLat * string);   (* viewer only: the popup used as tooltip *)
  _infoControl : option InfoControl;   (* viewer only *)
  _layerSwitcher : option LayerSwitcher;   (* annotator: read by clickEvent_ *)
  annotating : bool;   (* annotator: read by showTooltip_ and mouseMoveEvent_ *)
  _inQuery : bool;
  _modal : bool;
  _lastContextTime : Z;
  _lastTouchTime : Z
}.

(** Field updates ([this.x = v]). *)
Definition set_featureState (v : Store) (c : Controller) : Controller :=
  mkController
    v (cursor c) (fitBoundsCalls c) (contextMenu c) (tooltipShown c)
    (queryCalls c) (hostCallbacks c) (_selectedFeature c)
    (_highlightedFeatures c) (_activeFeature c) (_tooltip c)
    (_infoControl c) (_layerSwitcher c) (annotating c) (_inQuery c)
    (_modal c) (_lastContextTime c) (_lastTouchTime c).
Definition set_cursor (v : string) (c : Controller) : Controller :=
  mkController
    (featureState c) v (fitBoundsCalls c) (contextMenu c) (tooltipShown c)
    (queryCalls c) (hostCallbacks c) (_selectedFeature c)
    (_highlightedFeatures c) (_activeFeature c) (_tooltip c)
    (_infoControl c) (_layerSwitcher c) (annotating c) (_inQuery c)
    (_modal c) (_lastContextTime c) (_lastTouchTime c).
Definition set_fitBoundsCalls (v : list FitCall) (c : Controller) : Controller :=
  mkController
    (featureState c) (cursor c) v (contextMenu c) (tooltipShown c)
    (queryCalls c) (hostCallbacks c) (_selectedFeature c)
    (_highlightedFeatures c) (_activeFeature c) (_tooltip c)
    (_infoControl c) (_layerSwitcher c) (annotating c) (_inQuery c)
    (_modal c) (_lastContextTime c) (_lastTouchTime c).
Definition set_contextMenu (v : option (LngLat * list MenuEntry)) (c : Controller) : Controller :=
  mkController
    (featureState c) (cursor c) (fitBoundsCalls c) v (tooltipShown c)
    (queryCalls c) (hostCallbacks c) (_selectedFeature c)
    (_highlightedFeatures c) (_activeFeature c) (_tooltip c)
    (_infoControl c) (_layerSwitcher c) (annotating c) (_inQuery c)
    (_modal c) (_lastContextTime c) (_lastTouchTime c).
Definition set_tooltipShown (v : option (LngLat * list JsValue)) (c : Controller) : Controller :=
  mkController
    (featureState c) (cursor c) (fitBoundsCalls c) (contextMenu c) v
    (queryCalls c) (hostCallbacks c) (_selectedFeature c)
    (_highlightedFeatures c) (_activeFeature c) (_tooltip c)
    (_infoControl c) (_layerSwitcher c) (annotating c) (_inQuery c)
    (_modal c) (_lastContextTime c) (_lastTouchTime c).
Definition set_queryCalls (v : list QueryCall) (c : Controller) : Controller :=
  mkController
    (featureState c) (cursor c) (fitBoundsCalls c) (contextMenu c)
    (tooltipShown c) v (hostCallbacks c) (_selectedFeature c)
    (_highlightedFeatures c) (_activeFeature c) (_tooltip c)
    (_infoControl c) (_layerSwitcher c) (annotating c) (_inQuery c)
    (_modal c) (_lastContextTime c) (_lastTouchTime c).
Definition set_hostCallbacks (v : list (list string)) (c : Controller) : Controller :=
  mkController
    (featureState c) (cursor c) (fitBoundsCalls c) (contextMenu c)
    (tooltipShown c) (queryCalls c) v (_selectedFeature c)
    (_highlightedFeatures c) (_activeFeature c) (_tooltip c)
    (_infoControl c) (_layerSwitcher c) (annotating c) (_inQuery c)
    (_modal c) (_lastContextTime c) (_lastTouchTime c).
Definition set_selectedFeature (v : option Feature) (c : Controller) : Controller :=
  mkController
    (featureState c) (cursor c) (fitBoundsCalls c) (contextMenu c)
    (tooltipShown c) (queryCalls c) (hostCallbacks c) v
    (_highlightedFeatures c) (_activeFeature c) (_tooltip c)
    (_infoControl c) (_layerSwitcher c) (annotating c) (_inQuery c)
    (_modal c) (_lastContextTime c) (_lastTouchTime c).
Definition set_highlightedFeatures (v : list Feature) (c : Controller) : Controller :=
  mkController
    (featureState c) (cursor c) (fitBoundsCalls c) (contextMenu c)
    (tooltipShown c) (queryCalls c) (hostCallbacks c) (_selectedFeature c) v
    (_activeFeature c) (_tooltip c) (_infoControl c) (_layerSwitcher c)
    (annotating c) (_inQuery c) (_modal c) (_lastContextTime c)
    (_lastTouchTime c).
Definition set_activeFeature (v : option Feature) (c : Controller) : Controller :=
  mkController
    (featureState c) (cursor c) (fitBoundsCalls c) (contextMenu c)
    (tooltipShown c) (queryCalls c) (hostCallbacks c) (_selectedFeature c)
    (_highlightedFeatures c) v (_tooltip c) (_infoControl c)
    (_layerSwitcher c) (annotating c) (_inQuery c) (_modal c)
    (_lastContextTime c) (_lastTouchTime c).
Definition set_tooltip (v : option (LngLat * string)) (c : Controller) : Controller :=
  mkController
    (featureState c) (cursor c) (fitBoundsCalls c) (contextMenu c)
    (tooltipShown c) (queryCalls c) (hostCallbacks c) (_selectedFeature c)
    (_highlightedFeatures c) (_activeFeature c) v (_infoControl c)
    (_layerSwitcher c) (annotating c) (_inQuery c) (_modal c)
    (_lastContextTime c) (_lastTouchTime c).
Definition set_infoControl (v : option InfoControl) (c : Controller) : Controller :=
  mkController
    (featureState c) (cursor c) (fitBoundsCalls c) (contextMenu c)
    (tooltipShown c) (queryCalls c) (hostCallbacks c) (_selectedFeature c)
    (_highlightedFeatures c) (_activeFeature c) (_tooltip c) v
    (_layerSwitcher c) (annotating c) (_inQuery c) (_modal c)
    (_lastContextTime c) (_lastTouchTime c).
Definition set_layerSwitcher (v : option LayerSwitcher) (c : Controller) : Controller :=
  mkController
    (featureState c) (cursor c) (fitBoundsCalls c) (contextMenu c)
    (tooltipShown c) (queryCalls c) (hostCallbacks c) (_selectedFeature c)
    (_highlightedFeatures c) (_activeFeature c) (_tooltip c)
    (_infoControl c) v (annotating c) (_inQuery c) (_modal c)
    (_lastContextTime c) (_lastTouchTime c).
Definition set_annotating (v : bool) (c : Controller) : Controller :=
  mkController
    (featureState c) (cursor c) (fitBoundsCalls c) (contextMenu c)
    (tooltipShown c) (queryCalls c) (hostCallbacks c) (_selectedFeature c)
    (_highlightedFeatures c) (_activeFeature c) (_tooltip c)
    (_infoControl c) (_layerSwitcher c) v (_inQuery c) (_modal c)
    (_lastContextTime c) (_lastTouchTime c).
Definition set_inQuery (v : bool) (c : Controller) : Controller :=
  mkController
    (featureState c) (cursor c) (fitBoundsCalls c) (contextMenu c)
    (tooltipShown c) (queryCalls c) (hostCallbacks c) (_selectedFeature c)
    (_highlightedFeatures c) (_activeFeature c) (_tooltip c)
    (_infoControl c) (_layerSwitcher c) (annotating c) v (_modal c)
    (_lastContextTime c) (_lastTouchTime c).
Definition set_modal (v : bool) (c : Controller) : Controller :=
  mkController
    (featureState c) (cursor c) (fitBoundsCalls c) (contextMenu c)
    (tooltipShown c) (queryCalls c) (hostCallbacks c) (_selectedFeature c)
    (_highlightedFeatures c) (_activeFeature c) (_tooltip c)
    (_infoControl c) (_layerSwitcher c) (annotating c) (_inQuery c) v
    (_lastContextTime c) (_lastTouchTime c).
Definition set_lastContextTime (v : Z) (c : Controller) : Controller :=
  mkController
    (featureState c) (cursor c) (fitBoundsCalls c) (contextMenu c)
    (tooltipShown c) (queryCalls c) (hostCallbacks c) (_selectedFeature c)
    (_highlightedFeatures c) (_activeFeature c) (_tooltip c)
    (_infoControl c) (_layerSwitcher c) (annotating c) (_inQuery c)
    (_modal c) v (_lastTouchTime c).
Definition set_lastTouchTime (v : Z) (c : Controller) : Controller :=
  mkController
    (featureState c) (cursor c) (fitBoundsCalls c) (contextMenu c)
    (tooltipShown c) (queryCalls c) (hostCallbacks c) (_selectedFeature c)
    (_highlightedFeatures c) (_activeFeature c) (_tooltip c)
    (_infoControl c) (_layerSwitcher c) (annotating c) (_inQuery c)
    (_modal c) (_lastContextTime c) v.

(** How a handler finishes: it returns, or an exception leaves it.  Either
    way the controller is in the state the executed statements built. *)
Variant JsError : Type :=
| TypeError (msg : string)
| SyntaxError (msg : string).

Inductive Outcome : Type :=
| Returns (c : Controller)
| Throws (e : JsError) (c : Controller).

(** A loop over the controller and a variable [bbox] that an exception may
    leave: still going, or left with the controller as it was at the raise. *)
Inductive ZoomLoop (A : Type) : Type :=
| Going (c : Controller) (bbox : A)
| Raised (e : JsError) (c : Controller).
Arguments Going {A} c bbox.
Arguments Raised {A} e c.

(* ===================================================================== *)
(** ** Methods common to both versions *)
(* ===================================================================== *)

(** [unselectFeatures_(reset=true)] *)
Definition unselectFeatures_ (reset : bool) (c : Controller) : Controller :=
  match _selectedFeature c with
  | Some f =>
      let c := set_featureState
                 (removeFeatureState f "selected" (featureState c)) c in
      if reset then set_selectedFeature None c else c
  | None => c
  end.

(** [selectFeature_(feature)] *)
Definition selectFeature_ (feature : Feature) (c : Controller) : Controller :=
  let c := unselectFeatures_ false c in
  let c := set_featureState
             (setFeatureState feature "selected" (featureState c)) c in
  set_selectedFeature (Some feature) c.

(** [get selectedFeatureLayerName()]; [None] is [null]. *)
Definition selectedFeatureLayerName (c : Controller) : option string :=
  match _selectedFeature c with
  | Some f =>
      let layerId := layer_id (layer f) in
      if includes "-" layerId
      then Some (join "-" (slice_0_m1 (split "-"%char layerId)))
      else Some layerId
  | None => None
  end.

(** [unhighlightFeatures_()] *)
Definition unhighlightFeatures_ (c : Controller) : Controller :=
  let st := fold_left (fun st feature => removeFeatureState feature "highlighted" st)
                      (_highlightedFeatures c) (featureState c) in
  set_highlightedFeatures [] (set_featureState st c).

(** [activeFeaturesAtEvent_(event)] *)
Definition activeFeaturesAtEvent_ (fm : Flatmap) (event : MapEvent) : list Feature :=
  List.filter
    (fun f => indexOf_ge0 (activeLayerNames fm) (sourceLayer f)
              && bool_decide (is_Some (p_id (properties f))))
    (queryRenderedFeatures fm (point event)).

(** The test guarding the loop body of [smallestAnnotatedPolygonFeature_]. *)
Definition annotatedPolygon (c : Controller) (feature : Feature) : bool :=
  includes "Polygon" (gtype (geometry feature))
  && bool_decide ("annotated" ∈ getFeatureState feature (featureState c)).

(** One turn of the loop of [smallestAnnotatedPolygonFeature_], on the pair
    [(smallestArea, smallestFeature)]. *)
Definition smallestStep (fm : Flatmap) (c : Controller)
    (acc : Q * option Feature) (feature : Feature) : Q * option Feature :=
  if annotatedPolygon c feature then
    let area := turfArea fm (geometry feature) in
    match snd acc with
    | None => (area, Some feature)
    | Some _ =>
        if negb (Qle_bool (fst acc) area)          (* smallestArea > area *)
        then (area, Some feature)
        else acc
    end
  else acc.

(** [smallestAnnotatedPolygonFeature_(features)] *)
Definition smallestAnnotatedPolygonFeature_ (fm : Flatmap) (c : Controller)
    (features : list Feature) : option Feature :=
  snd (fold_left (smallestStep fm c) features (0%Q, None)).

(** [flatmap.getAnnotation(id)] for an [id] read from [feature.properties],
    where it may be [undefined] ([None]); no annotation is filed under
    [undefined]. *)
Definition getAnnotationOf (fm : Flatmap) (id : option string) : option Annotation :=
  id ≫= getAnnotation fm.

(** The item list built by [contextMenuEvent_] (from [const items = []] to
    the push of the zoom item); the text is the same in both versions. *)
Definition menuItems (fm : Flatmap) (feature : Feature) : list MenuEntry :=
  let id := p_id (properties feature) in
  let ann := getAnnotationOf fm id in
  let items := [] in
  let items :=
    match ann with
    | Some ann =>
        let items :=
          if (0 <? length (ann_models ann))%nat
          then items ++ [Item id "Search for knowledge about node" (QueryAction "data")]
          else items in
        if layerQueryable fm (ann_layer ann)
        then (items ++ [Item id "Find edges connected to node" (QueryAction "edges")])
               ++ [Item id "Find nodes and edges connected to node" (QueryAction "nodes")]
        else items
    | None => items
    end in
  let items := if (0 <? length items)%nat then items ++ [Separator] else items in
  items ++ [Item id "Zoom to..." (ZoomToAction feature)].

(** The last block of [contextMenuEvent_]:
    [if (items.length) { this._modal = true; this._contextMenu.show(...) }]. *)
Definition showMenu (position : LngLat) (items : list MenuEntry)
    (c : Controller) : Controller :=
  if (0 <? length items)%nat
  then set_contextMenu (Some (position, items)) (set_modal true c)
  else c.

(** [contextMenuClosed_(event)] *)
Definition contextMenuClosed_ (c : Controller) : Controller :=
  set_modal false c.

(** Modelled from the spec: [this._contextMenu.hide()], of the class
    [ContextMenu], which is not under [src/].  Section 4.4: the menu is
    closed and, on close (user dismiss or programmatic hide), the
    controller's registered close callback, [contextMenuClosed_], fires
    exactly once per show/close cycle.  So hiding an open menu closes it and
    runs the callback; with no menu open there is nothing to close and the
    callback is not run. *)
Definition contextMenu_hide (c : Controller) : Controller :=
  match contextMenu c with
  | Some _ => contextMenuClosed_ (set_contextMenu None c)
  | None => c
  end.

(** [this._map.fitBounds(bbox, { padding, animate })] *)
Definition map_fitBounds (bbox : JsBBox) (padding : Q) (animate : bool)
    (c : Controller) : Controller :=
  set_fitBoundsCalls (mkFitCall bbox padding animate :: fitBoundsCalls c) c.

(** [queryData_(modelList)] *)
Definition queryData_ (modelList : list string) (c : Controller) : Controller :=
  if (0 <? length modelList)%nat
  then set_hostCallbacks (modelList :: hostCallbacks c) c
  else c.

(** The [touchstart] handler: [this._lastTouchTime = Date.now()]. *)
Definition touchStart (now : Z) (c : Controller) : Controller :=
  set_lastTouchTime now c.

(** The test of the [touchend] handler:
    [Date.now() > (this._lastTouchTime + 500)]. *)
Definition longTouch (now : Z) (c : Controller) : bool :=
  (_lastTouchTime c + 500 <? now)%Z.

(** The [touchend] handler, over the version's [contextMenuEvent_]. *)
Definition touchEnd (contextMenuEvent_ : MapEvent -> Z -> Controller -> Controller)
    (e : MapEvent) (now : Z) (c : Controller) : Controller :=
  if longTouch now c then contextMenuEvent_ e now c else c.

(** The feature-state store after the constructor's walk over
    [flatmap.annotations]. *)
Definition flagAnnotations (fm : Flatmap) (st : Store) : Store :=
  fold_left
    (fun st (entry : string * Annotation) =>
       let feature := mapFeature fm (ann_layer (snd entry)) (fst entry) in
       let st := setFeatureState feature "annotated" st in
       match ann_error (snd entry) with
       | Some _ => setFeatureState feature "annotation-error" st
       | None => st
       end)
    (annotations fm) st.

(* ===================================================================== *)
(** ** The annotation-oriented controller ([src/interactions.js]) *)
(* ===================================================================== *)

Module Annotator.

(** The constructor's assignments.  [_layerSwitcher] and [annotating] are
    read by the methods below but assigned nowhere in the class, so they
    stay [undefined].  The map starts with an empty feature-state store. *)
Definition constructor (fm : Flatmap) : Controller :=
  {| featureState := flagAnnotations fm ∅;
     cursor := "";
     fitBoundsCalls := [];
     contextMenu := None;
     tooltipShown := None;
     queryCalls := [];
     hostCallbacks := [];
     _selectedFeature := None;
     _highlightedFeatures := [];
     _activeFeature := None;
     _tooltip := None;
     _infoControl := None;
     _layerSwitcher := None;
     annotating := false;
     _inQuery := false;
     _modal := false;
     _lastContextTime := 0;
     _lastTouchTime := 0 |}.

(** [this._tooltip.show(position, tooltip(valuesList))] *)
Definition tooltip_show (position : LngLat) (valuesList : list JsValue)
    (c : Controller) : Controller :=
  set_tooltipShown (Some (position, valuesList)) c.

(** [this._tooltip.hide()] *)
Definition tooltip_hide (c : Controller) : Controller :=
  set_tooltipShown None c.

Definition isWhitespace (a : ascii) : bool :=
  match nat_of_ascii a with
  | 9 | 10 | 11 | 12 | 13 | 32 => true
  | _ => false
  end.

(** [s.split(/\s+/)]; [afterSpace] tells that the previous character was
    white space. *)
Fixpoint splitWhitespace (afterSpace : bool) (s : string) : list string :=
  match s with
  | EmptyString => [EmptyString]
  | String a s' =>
      if isWhitespace a then
        if afterSpace then splitWhitespace true s'
        else EmptyString :: splitWhitespace true s'
      else match splitWhitespace false s' with
           | [] => [String a EmptyString]
           | seg :: segs => String a seg :: segs
           end
  end.

Definition jsOfOption (o : option string) : JsValue :=
  match o with Some s => JsString s | None => JsUndefined end.

(** [showTooltip_(position, feature)]: the result and the new state. *)
Definition showTooltip_ (fm : Flatmap) (position : LngLat) (feature : Feature)
    (c : Controller) : bool * Controller :=
  let id := p_id (properties feature) in
  let ann := getAnnotationOf fm id in
  let c := selectFeature_ feature c in
  let rc :=
    if annotating c then
      match ann with
      | Some ann =>
          let error := default "" (ann_error ann) in
          (true, tooltip_show position
                   ([JsString (ann_featureId ann); jsOfOption (ann_label ann)]
                      ++ map JsString (splitWhitespace false (ann_text ann))
                      ++ [JsString error]) c)
      | None =>
          (true, tooltip_show position
                   [jsOfOption id;
                    if bool_decide ("annotated" ∈ getFeatureState feature (featureState c))
                    then JsBool true else JsUndefined] c)
      end
    else
      match ann with
      | Some ann =>
          match ann_models ann with
          | m0 :: _ =>
              let text := match ann_label ann with
                          | Some l => if truthy l then l else m0
                          | None => m0
                          end in
              (true, tooltip_show position [JsString text] c)
          | [] =>
              if layerQueryable fm (ann_layer ann) then (true, c) else (false, c)
          end
      | None => (false, c)
      end in
  let c := snd rc in
  let c := if fst rc && negb (_inQuery c) then set_cursor "pointer" c else c in
  (fst rc, c).

(** [mouseMoveEvent_(event)] *)
Definition mouseMoveEvent_ (fm : Flatmap) (event : MapEvent)
    (c : Controller) : Controller :=
  if _modal c then c
  else
    let features := activeFeaturesAtEvent_ fm event in
    let feature := smallestAnnotatedPolygonFeature_ fm c features in
    let feature :=
      match feature with
      | None => if annotating c then head features else None
      | Some _ => feature
      end in
    let clear (c : Controller) : Controller :=
      let c := if negb (_inQuery c) then set_cursor "" c else c in
      let c := tooltip_hide c in
      unselectFeatures_ true c in
    match feature with
    | None => clear c
    | Some feature =>
        let rc := showTooltip_ fm (lngLat event) feature c in
        if fst rc then snd rc else clear (snd rc)
    end.

(** [contextMenuEvent_(event)]; [now] is [Date.now()]. *)
Definition contextMenuEvent_ (fm : Flatmap) (event : MapEvent) (now : Z)
    (c : Controller) : Controller :=
  if (now <? _lastContextTime c + 100)%Z then c
  else
    let c := set_lastContextTime now c in
    let features := activeFeaturesAtEvent_ fm event in
    match smallestAnnotatedPolygonFeature_ fm c features with
    | Some feature =>
        let c := selectFeature_ feature c in
        let c := tooltip_hide c in
        showMenu (lngLat event) (menuItems fm feature) c
    | None => c
    end.

(** [zoomTo_(feature)].  The argument [bounds(feature)] is evaluated before
    [fitBounds] is called: when it raises, the menu is hidden and the camera
    is not touched. *)
Definition zoomTo_ (fm : Flatmap) (feature : Feature) (c : Controller) : Outcome :=
  let c := contextMenu_hide c in
  match bounds fm feature with
  | Some bbox => Returns (map_fitBounds (BBoxOf bbox) 100 false c)
  | None => Throws (SyntaxError "JSON.parse") c
  end.

(** One turn of the loop of [zoomToFeatures], on the controller and [bbox]
    ([None]: [null]).  The feature is highlighted before its box is asked
    for. *)
Definition zoomStep (fm : Flatmap) (acc : ZoomLoop (option BBox))
    (feature : Feature) : ZoomLoop (option BBox) :=
  match acc with
  | Going c bbox =>
      let c := set_featureState
                 (setFeatureState feature "highlighted" (featureState c)) c in
      let c := set_highlightedFeatures (_highlightedFeatures c ++ [feature]) c in
      match bounds fm feature with
      | Some b =>
          Going c (match bbox with
                   | None => Some b
                   | Some bbox => Some (expandBounds bbox b)
                   end)
      | None => Raised (SyntaxError "JSON.parse") c
      end
  | Raised e c => Raised e c
  end.

(** [zoomToFeatures(featureIds)] *)
Definition zoomToFeatures (fm : Flatmap) (featureIds : list string)
    (c : Controller) : Outcome :=
  let c := unhighlightFeatures_ c in
  if (0 <? length featureIds)%nat then
    let features := queryRenderedFeaturesIn fm featureIds in
    if (0 <? length features)%nat then
      match fold_left (zoomStep fm) features (Going c None) with
      | Going c bbox =>
          Returns (map_fitBounds match bbox with
                                 | Some b => BBoxOf b
                                 | None => BBoxNull
                                 end 100 false c)
      | Raised e c => Throws e c
      end
    else Returns c
  else Returns c.

(** [query_(type, event)]; [featureId] is [event.target.getAttribute('id')].
    Reading [ann.url] of a missing annotation raises. *)
Definition query_ (fm : Flatmap) (type : string) (featureId : string)
    (c : Controller) : Outcome :=
  let c := unhighlightFeatures_ c in
  let c := contextMenu_hide c in
  if String.eqb type "data" then
    let c := queryData_ (modelsForFeature fm featureId) c in
    Returns (set_modal false c)
  else
    match getAnnotation fm featureId with
    | None => Throws (TypeError "ann is undefined") c
    | Some ann =>
        let c := set_queryCalls
                   (mkQueryCall type (ann_url ann) (ann_models ann) :: queryCalls c) c in
        let c := set_cursor "progress" c in
        let c := set_inQuery true c in
        Returns (set_modal false c)
    end.

(** [smallestAnnotatedPolygonAtEvent_(event)] *)
Definition smallestAnnotatedPolygonAtEvent_ (fm : Flatmap) (event : MapEvent)
    (c : Controller) : option Feature :=
  smallestAnnotatedPolygonFeature_ fm c (activeFeaturesAtEvent_ fm event).

(** [clickEvent_(event)].  The first statement calls [close()] on
    [this._layerSwitcher]; on [undefined] that raises. *)
Definition clickEvent_ (fm : Flatmap) (event : MapEvent) (c : Controller) : Outcome :=
  match _layerSwitcher c with
  | None => Throws (TypeError "this._layerSwitcher is undefined") c
  | Some _ =>
      let c :=
        match smallestAnnotatedPolygonAtEvent_ fm event c with
        | Some feature =>
            let featureId := p_id (properties feature) in
            let c := selectFeature_ feature c in
            queryData_ (default [] (modelsForFeature fm <$> featureId)) c
        | None => c
        end in
      Returns (unhighlightFeatures_ c)
  end.

(** The handlers wired by the constructor for [touchstart] and [touchend]. *)
Definition touchStartEvent (now : Z) (c : Controller) : Controller :=
  touchStart now c.

Definition touchEndEvent (fm : Flatmap) (e : MapEvent) (now : Z)
    (c : Controller) : Controller :=
  touchEnd (contextMenuEvent_ fm) e now c.

End Annotator.

(* ===================================================================== *)
(** ** The general-viewer controller *)
(* ===================================================================== *)

Module Viewer.

(** The constructor's assignments.  The query interface is commented out in
    this version, so [queryCalls] is never written. *)
Definition constructor (fm : Flatmap) : Controller :=
  {| featureState := flagAnnotations fm ∅;
     cursor := "";
     fitBoundsCalls := [];
     contextMenu := None;
     tooltipShown := None;
     queryCalls := [];
     hostCallbacks := [];
     _selectedFeature := None;
     _highlightedFeatures := [];
     _activeFeature := None;
     _tooltip := None;
     _infoControl := if opt_featureInfo fm || opt_searchable fm
                     then Some TheInfoControl else None;
     _layerSwitcher := None;
     annotating := false;
     _inQuery := false;
     _modal := false;
     _lastContextTime := 0;
     _lastTouchTime := 0 |}.

(** [highlightFeature_(feature)] *)
Definition highlightFeature_ (feature : Feature) (c : Controller) : Controller :=
  let c := set_featureState
             (setFeatureState feature "highlighted" (featureState c)) c in
  set_highlightedFeatures (_highlightedFeatures c ++ [feature]) c.

(** [contextMenuEvent_(event)]; [now] is [Date.now()]. *)
Definition contextMenuEvent_ (fm : Flatmap) (event : MapEvent) (now : Z)
    (c : Controller) : Controller :=
  if (now <? _lastContextTime c + 100)%Z then c
  else
    let c := set_lastContextTime now c in
    let features := activeFeaturesAtEvent_ fm event in
    match smallestAnnotatedPolygonFeature_ fm c features with
    | Some feature =>
        let c := selectFeature_ feature c in
        showMenu (lngLat event) (menuItems fm feature) c
    | None => c
    end.

(** [zoomTo_(feature)].  The argument [bounds(feature)] is evaluated before
    [fitBounds] is called: when it raises, the feature is highlighted and the
    camera is not touched. *)
Definition zoomTo_ (fm : Flatmap) (feature : Feature) (c : Controller) : Outcome :=
  let c := contextMenu_hide c in
  let c := unhighlightFeatures_ c in
  let c := highlightFeature_ feature c in
  match bounds fm feature with
  | Some bbox => Returns (map_fitBounds (BBoxOf bbox) 100 false c)
  | None => Throws (SyntaxError "JSON.parse") c
  end.

(** One turn of the loop of [zoomToFeatures], on the controller and [bbox].
    [expandBounds(bbox, bounds)] reads [bbox[0]] and [bounds[0]] and raises
    when either is [undefined]; the first test, [bbox === null], lets an
    [undefined] box of the first record through. *)
Definition zoomStep (fm : Flatmap) (acc : ZoomLoop JsBBox)
    (featureId : string) : ZoomLoop JsBBox :=
  match acc with
  | Going c bbox =>
      match annotation fm featureId with
      | Some properties =>
          let c := highlightFeature_ (mapFeature fm (ap_layer properties) featureId)
                                     c in
          let bounds := ap_bounds properties in
          match bbox with
          | BBoxNull =>
              Going c match bounds with
                      | Some b => BBoxOf b
                      | None => BBoxUndefined
                      end
          | BBoxUndefined => Raised (TypeError "bbox1 is undefined") c
          | BBoxOf bbox =>
              match bounds with
              | Some b => Going c (BBoxOf (expandBounds bbox b))
              | None => Raised (TypeError "bbox2 is undefined") c
              end
          end
      | None => acc
      end
  | Raised e c => Raised e c
  end.

(** [zoomToFeatures(featureIds, padding=100)] *)
Definition zoomToFeatures (fm : Flatmap) (featureIds : list string) (padding : Q)
    (c : Controller) : Outcome :=
  let c := unhighlightFeatures_ c in
  if (0 <? length featureIds)%nat then
    match fold_left (zoomStep fm) featureIds (Going c BBoxNull) with
    | Going c bbox => Returns (map_fitBounds bbox padding false c)
    | Raised e c => Throws e c
    end
  else Returns c.

(** The value a call without the second argument gives [padding]. *)
Definition defaultPadding : Q := 100.

(** [query_(type, event)]; [featureId] is [event.target.getAttribute('id')].
    The call of the query interface is commented out; [ann] is fetched and
    not used. *)
Definition query_ (fm : Flatmap) (type : string) (featureId : string)
    (c : Controller) : Controller :=
  let c := unhighlightFeatures_ c in
  let c := contextMenu_hide c in
  let c :=
    if String.eqb type "data" then
      queryData_ (modelsForFeature fm featureId) c
    else
      let c := set_cursor "progress" c in
      set_inQuery true c in
  set_modal false c.

(** [removeTooltip_()] *)
Definition removeTooltip_ (c : Controller) : Controller :=
  match _tooltip c with
  | Some _ => set_tooltip None c
  | None => c
  end.

(** The comparator [(a, b) => (a.properties.area - b.properties.area)] is
    positive: both areas are present and [a]'s is the larger.  (With an area
    missing the difference is NaN, which [sort] reads as 0.) *)
Definition areaAfter (a b : Feature) : bool :=
  match p_area (properties a), p_area (properties b) with
  | Some x, Some y => negb (Qle_bool x y)
  | _, _ => false
  end.

(** [Array.prototype.sort] is stable; it is embedded as insertion into the
    sorted rest, an element staying ahead of those it does not exceed. *)
Fixpoint insertByArea (x : Feature) (l : list Feature) : list Feature :=
  match l with
  | [] => [x]
  | y :: l' => if areaAfter x y then y :: insertByArea x l' else x :: l
  end.

Definition sortByArea (l : list Feature) : list Feature :=
  foldr insertByArea [] l.

(** [mouseMoveEvent_(event)] *)
Definition mouseMoveEvent_ (fm : Flatmap) (event : MapEvent)
    (c : Controller) : Controller :=
  let c := removeTooltip_ c in
  let c := set_cursor "default" c in
  let c :=
    match _activeFeature c with
    | Some f =>
        let c := set_featureState
                   (removeFeatureState f "active" (featureState c)) c in
        set_activeFeature None c
    | None => c
    end in
  let features := queryRenderedFeatures fm (point event) in
  match features with
  | [] => c
  | _ :: _ =>
      let html :=
        match _infoControl c with
        | Some _ => featureInformation fm features
        | None => ""
        end in
      let hc :=
        if String.eqb html "" then
          let labelledFeatures :=
            sortByArea
              (List.filter (fun feature => bool_decide (is_Some (p_label (properties feature))))
                           features) in
          match labelledFeatures with
          | feature :: _ =>
              let c := set_activeFeature (Some feature) c in
              let c := set_featureState
                         (setFeatureState feature "active" (featureState c)) c in
              if String.eqb (layer_type (layer feature)) "symbol"
              then (html, set_cursor "pointer" c)
              else if opt_tooltips fm
              then ("<div class='flatmap-feature-label'>"
                      +:+ default "undefined" (p_label (properties feature))
                      +:+ "</div>", c)
              else (html, c)
          | [] => (html, c)
          end
        else (html, c) in
      if negb (String.eqb (fst hc) "")
      then set_tooltip (Some (lngLat event, fst hc)) (snd hc)
      else snd hc
  end.

(** The handlers wired by the constructor for [touchstart] and [touchend]. *)
Definition touchStartEvent (now : Z) (c : Controller) : Controller :=
  touchStart now c.

Definition touchEndEvent (fm : Flatmap) (e : MapEvent) (now : Z)
    (c : Controller) : Controller :=
  touchEnd (contextMenuEvent_ fm) e now c.

(** *** The popups and the click handler

    [showPopup] and [clickEvent_] use two fields more,
    [_lastClickedLocation] and [_currentPopup], and write to the map's
    popups, to its camera ([panTo]) and to the host's [featureEvent];
    [mouseMoveEvent_] puts the popup it uses as tooltip on the map as well.
    The viewer's object with these is a [State] around the controller
    record. *)

(** The [content] argument of [showPopup], by [typeof content]. *)
Inductive JsContent : Type :=
| ContentObject (node : string)         (* typeof content === 'object' *)
| ContentOther (text : string).

(** What a popup displays: set by [setDOMContent] or by [setText]. *)
Inductive PopupBody : Type :=
| DOMContent (node : string)
| Text (text : string).

(** A [mapboxgl.Popup]; [popup_id] tells one popup object from another. *)
Record Popup : Type := mkPopup {
  popup_id : nat;
  popup_options : string;
  popup_lngLat : LngLat;
  popup_body : PopupBody
}.

(** A popup on the map: one made by [showPopup], or the popup that
    [mouseMoveEvent_] uses as tooltip.  The tooltip's popup is the value of
    the field [_tooltip], which records its place and its HTML; two tooltip
    popups with the same place and HTML are not told apart. *)
Inductive MapPopup : Type :=
| ShownPopup (p : Popup)
| TooltipPopup (tooltip : LngLat * string).

Record State : Type := mkState {
  controller : Controller;
  _lastClickedLocation : option LngLat;
  _currentPopup : option Popup;
  popupsOnMap : list MapPopup;          (* popups added to the map and not removed *)
  popupsCreated : nat;                  (* the number of popups [showPopup] made so far *)
  panToCalls : list LngLat;             (* calls of map.panTo, latest first *)
  featureEvents : list (string * Feature)
                                        (* calls of flatmap.featureEvent, latest first *)
}.

(** A method of the controller record, run on the viewer's object. *)
Definition onController (f : Controller -> Controller) (s : State) : State :=
  mkState (f (controller s)) (_lastClickedLocation s) (_currentPopup s)
          (popupsOnMap s) (popupsCreated s) (panToCalls s) (featureEvents s).

(** The viewer as its constructor leaves it. *)
Definition construct (fm : Flatmap) : State :=
  mkState (constructor fm) None None [] 0 [] [].

(** [this._flatmap.featureEvent(name, feature)] *)
Definition flatmap_featureEvent (name : string) (feature : Feature) (s : State) : State :=
  mkState (controller s) (_lastClickedLocation s) (_currentPopup s)
          (popupsOnMap s) (popupsCreated s) (panToCalls s)
          ((name, feature) :: featureEvents s).

(** [clickEvent_(event)] *)
Definition clickEvent_ (fm : Flatmap) (event : MapEvent) (s : State) : State :=
  let symbolFeatures :=
    List.filter (fun f => String.eqb (layer_type (layer f)) "symbol")
                (queryRenderedFeatures fm (point event)) in
  if (0 <? length symbolFeatures)%nat then
    let s := mkState (controller s) (Some (lngLat event)) (_currentPopup s)
                     (popupsOnMap s) (popupsCreated s) (panToCalls s)
                     (featureEvents s) in
    fold_left (fun s feature => flatmap_featureEvent "click" feature s)
              symbolFeatures s
  else s.

(** [popup.remove()]: the popup object leaves the map. *)
Definition popup_remove (p : Popup) (s : State) : State :=
  mkState (controller s) (_lastClickedLocation s) (_currentPopup s)
          (List.filter (fun q => match q with
                                 | ShownPopup q => negb (Nat.eqb (popup_id q) (popup_id p))
                                 | TooltipPopup _ => true
                                 end)
                       (popupsOnMap s))
          (popupsCreated s) (panToCalls s) (featureEvents s).

(** [this._tooltip.remove()] on the map's popups: one popup with the
    tooltip's place and HTML leaves the map. *)
Fixpoint tooltip_remove (tooltip : LngLat * string) (onMap : list MapPopup)
  : list MapPopup :=
  match onMap with
  | [] => []
  | TooltipPopup t :: rest =>
      if bool_decide (t = tooltip) then rest
      else TooltipPopup t :: tooltip_remove tooltip rest
  | ShownPopup p :: rest => ShownPopup p :: tooltip_remove tooltip rest
  end.

(** [mouseMoveEvent_(event)] on the viewer's whole object: the controller
    record as [mouseMoveEvent_] above leaves it, and the map's popups.
    [removeTooltip_] takes the popup of a non-null [_tooltip] off the map
    ([this._tooltip.remove()]); the popup made at the end, which is then the
    value of [_tooltip], is added to it ([.addTo(this._map)]). *)
Definition mouseMoveEvent (fm : Flatmap) (event : MapEvent) (s : State) : State :=
  let onMap := match _tooltip (controller s) with
               | Some tooltip => tooltip_remove tooltip (popupsOnMap s)
               | None => popupsOnMap s
               end in
  let c := mouseMoveEvent_ fm event (controller s) in
  let onMap := match _tooltip c with
               | Some tooltip => TooltipPopup tooltip :: onMap
               | None => onMap
               end in
  mkState c (_lastClickedLocation s) (_currentPopup s) onMap
          (popupsCreated s) (panToCalls s) (featureEvents s).

(** [this._map.panTo(location)] *)
Definition map_panTo (location : LngLat) (s : State) : State :=
  mkState (controller s) (_lastClickedLocation s) (_currentPopup s)
          (popupsOnMap s) (popupsCreated s) (location :: panToCalls s)
          (featureEvents s).

(** [showPopup(featureId, content, options)]; [inView] is
    [this._map.getBounds().contains] at the time of the call. *)
Definition showPopup (fm : Flatmap) (inView : LngLat -> bool)
    (featureId : string) (content : JsContent) (options : string)
    (s : State) : State :=
  match annotation fm featureId with
  | Some properties =>
      let s := match _currentPopup s with
               | Some p => popup_remove p s
               | None => s
               end in
      let s := onController unhighlightFeatures_ s in
      let s := onController
                 (highlightFeature_ (mapFeature fm (ap_layer properties) featureId)) s in
      let location := match _lastClickedLocation s with
                      | None => ap_centroid properties
                      | Some l => l
                      end in
      let s := if negb (inView location) then map_panTo location s else s in
      let popup :=
        mkPopup (popupsCreated s) options location
                match content with
                | ContentObject node => DOMContent node
                | ContentOther text => Text text
                end in
      mkState (controller s) (_lastClickedLocation s) (Some popup)
              (ShownPopup popup :: popupsOnMap s) (S (popupsCreated s)) (panToCalls s)
              (featureEvents s)
  | None => s
  end.

End Viewer.

(* ===================================================================== *)
(** ** The constructor's layer registration and load callback *)
(* ===================================================================== *)

(** A descriptor of [flatmap.layers]: its [id] and its [background_for]
    ([None]: the key is absent). *)
Record LayerDesc : Type := mkLayerDesc {
  ld_id : string;
  ld_background_for : option string
}.

(** [layer.background_for] as the condition of the second loop: the layer
    named, when the value is truthy. *)
Definition backgroundFor (l : LayerDesc) : option string :=
  match ld_background_for l with
  | Some b => if truthy b then Some b else None
  | None => None
  end.

(** The layers with their positions in [flatmap.layers]; a position stands
    for the layer object, which the loops share and mutate. *)
Definition positioned (layers : list LayerDesc) : list (nat * LayerDesc) :=
  imap pair layers.

(** First loop: [layersById].  [Map.set] replaces an earlier entry of the
    same id. *)
Definition layersById (layers : list LayerDesc) : gmap string nat :=
  fold_left (fun m il => <[ld_id (snd il) := fst il]> m) (positioned layers) ∅.

(** One turn of the second loop, on [backgroundLayers] (per layer object)
    and [layerBackgroundIds]; [None] once [l.backgroundLayers] was read on an
    [undefined] [l], which raises. *)
Definition attachBackground (byId : gmap string nat)
    (acc : option (gmap nat (list nat) * list string))
    (il : nat * LayerDesc) : option (gmap nat (list nat) * list string) :=
  match acc with
  | None => None
  | Some (backgroundLayers, layerBackgroundIds) =>
      match backgroundFor (snd il) with
      | Some b =>
          match byId !! b with
          | Some l =>
              Some (<[l := default [] (backgroundLayers !! l) ++ [fst il]]>
                      backgroundLayers,
                    layerBackgroundIds ++ [ld_id (snd il)])
          | None => None
          end
      | None => acc
      end
  end.

(** What the three loops leave: the layers handed to
    [layerManager.addLayer], in call order, and the [backgroundLayers] of
    every layer object that got any. *)
Record Registration : Type := mkRegistration {
  addLayerCalls : list (nat * LayerDesc);
  backgroundLayers : gmap nat (list nat)
}.

(** The three loops over [flatmap.layers]; [None] when the second raised. *)
Definition registerLayers (layers : list LayerDesc) : option Registration :=
  let byId := layersById layers in
  match fold_left (attachBackground byId) (positioned layers) (Some (∅, [])) with
  | None => None
  | Some (backgroundLayers, layerBackgroundIds) =>
      Some (mkRegistration
              (List.filter
                 (fun il => negb (indexOf_ge0 layerBackgroundIds (ld_id (snd il))))
                 (positioned layers))
              backgroundLayers)
  end.

(** The field [_userInterfaceLoadedCallback] ([None]: [null]) and the calls
    made of the callback, latest first.  The callback is taken not to call
    back into the controller. *)
Record LoadNotice : Type := mkLoadNotice {
  _userInterfaceLoadedCallback : option string;
  callbackCalls : list string
}.

(** The block [if (this._userInterfaceLoadedCallback !== null) { ... }] that
    ends the constructor and makes up [layerSwitcherActiveCallback_]. *)
Definition notifyLoaded (n : LoadNotice) : LoadNotice :=
  match _userInterfaceLoadedCallback n with
  | Some callback => mkLoadNotice None (callback :: callbackCalls n)
  | None => n
  end.

(** The constructor, as far as the callback goes. *)
Definition constructor_notice (userInterfaceLoadedCallback : option string) : LoadNotice :=
  notifyLoaded (mkLoadNotice userInterfaceLoadedCallback []).

(** [layerSwitcherActiveCallback_(layerSwitcher)] *)
Definition layerSwitcherActiveCallback_ (n : LoadNotice) : LoadNotice :=
  notifyLoaded n.

(* ===================================================================== *)
(** ** Saving and restoring the view *)
(* ===================================================================== *)

(** A saved state object; [None] is an absent key. *)
Record SavedState : Type := mkSavedState {
  state_center : option LngLat;
  state_zoom : option Q;
  state_layers : option (list string)
}.

(** The [options] object built by [setState]. *)
Record JumpOptions : Type := mkJumpOptions {
  jump_center : option LngLat;
  jump_zoom : option Q;
  jump_around : option LngLat
}.

(** The map's camera as [getState] reads it, and the calls of [map.jumpTo],
    latest first. *)
Record Camera : Type := mkCamera {
  camera_center : LngLat;
  camera_zoom : Q;
  jumpToCalls : list JumpOptions
}.

(** [getState()] *)
Definition getState (fm : Flatmap) (cam : Camera) : SavedState :=
  mkSavedState (Some (camera_center cam)) (Some (camera_zoom cam))
               (Some (activeLayerNames fm)).

(** [setState(state)] *)
Definition setState (state : SavedState) (cam : Camera) : Camera :=
  let options := mkJumpOptions None None None in
  let options :=
    match state_center state with
    | Some center => mkJumpOptions (Some center) (jump_zoom options) (jump_around options)
    | None => options
    end in
  let options :=
    match state_zoom state with
    | Some zoom => mkJumpOptions (jump_center options) (Some zoom) (Some (0, 0)%Q)
    | None => options
    end in
  let present {A : Type} (o : option A) : nat :=
    match o with Some _ => 1 | None => 0 end in
  let keys := present (jump_center options) + present (jump_zoom options)
              + present (jump_around options) in
  if (0 <? keys)%nat
  then mkCamera (camera_center cam) (camera_zoom cam) (options :: jumpToCalls cam)
  else cam.


(* ===================================================================== *)
(** ** Call sequences on the selection *)
(* ===================================================================== *)

(** A call of one of the two selection methods. *)
Inductive SelectionCall : Type :=
| CallSelect (feature : Feature)        (* selectFeature_(feature) *)
| CallUnselect (reset : bool).          (* unselectFeatures_(reset) *)

Definition runCall (c : Controller) (call : SelectionCall) : Controller :=
  match call with
  | CallSelect feature => selectFeature_ feature c
  | CallUnselect reset => unselectFeatures_ reset c
  end.

Definition runCalls (calls : list SelectionCall) (c : Controller) : Controller :=
  fold_left runCall calls c.

(** The argument of the most recent [selectFeature_] call of a sequence. *)
Definition lastSelect (calls : list SelectionCall) : option Feature :=
  fold_left (fun acc call =>
               match call with
               | CallSelect feature => Some feature
               | CallUnselect _ => acc
               end) calls None.

(* ===================================================================== *)
(** ** A small map used in the examples *)
(* ===================================================================== *)

Module Examples.

Definition fillLayer : Layer := mkLayer "organs-fill" "fill".
Definition symbolLayer : Layer := mkLayer "organs-symbol" "symbol".

(** A rectangle with a corner at the origin. *)
Definition rectangle (w h : Q) : Geometry :=
  mkGeometry "Polygon" [[(0, 0); (w, 0); (w, h); (0, h); (0, 0)]%Q].

(** Area and bounding box of such a rectangle. *)
Definition rectangleArea (g : Geometry) : Q :=
  match coordinates g with
  | [[_; _; (w, h); _; _]] => (w * h)%Q
  | _ => 0%Q
  end.

Definition rectangleBBox (g : Geometry) : BBox :=
  match coordinates g with
  | [[_; _; (w, h); _; _]] => mkBBox 0 0 w h
  | _ => mkBBox 0 0 0 0
  end.

(** Two nested annotated regions, [A] of area 100 and [B] of area 40, and a
    marker. *)
Definition featureA : Feature :=
  mkFeature "features" "organs" "A" fillLayer (rectangle 10 10)
            (mkProperties (Some "A") None None (Some "Heart") (Some 100%Q)).

Definition featureB : Feature :=
  mkFeature "features" "organs" "B" fillLayer (rectangle 8 5)
            (mkProperties (Some "B") None None (Some "Left ventricle") (Some 40%Q)).

Definition featureS : Feature :=
  mkFeature "features" "organs" "S" symbolLayer (mkGeometry "Point" [])
            (mkProperties (Some "S") None None (Some "Marker") (Some 1%Q)).

(** A feature that declares its box, and one whose declaration is no JSON
    text. *)
Definition featureC : Feature :=
  mkFeature "features" "organs" "C" fillLayer (rectangle 9 9)
            (mkProperties (Some "C") (Some "[2, 2, 6, 6]") None None None).

Definition featureD : Feature :=
  mkFeature "features" "organs" "D" fillLayer (rectangle 9 9)
            (mkProperties (Some "D") (Some "2, 2, 6, 6]") None None None).

Definition annA : Annotation :=
  mkAnnotation "A" (Some "Heart") ["UBERON:0000948"] "the heart" "organs"
               (Some "https://example.org/heart") None.

(** An annotation without models; its layer is not queryable. *)
Definition annB : Annotation :=
  mkAnnotation "B" (Some "Left ventricle") [] "left ventricle" "organs" None None.

Definition handle (layerName id : string) : Feature :=
  mkFeature "features" layerName id (mkLayer "" "") (mkGeometry "" [])
            (mkProperties None None None None None).

Definition rendered : list Feature := [featureA; featureB; featureS].

Definition flatmap : Flatmap :=
  {| queryRenderedFeatures := fun p =>
       if bool_decide (p = (1, 1)%Z) then [featureA; featureB]
       else if bool_decide (p = (9, 9)%Z) then [featureS]
       else [];
     queryRenderedFeaturesIn := fun ids =>
       List.filter (fun f => bool_decide (default "" (p_id (properties f)) ∈ ids))
                   rendered;
     activeLayerNames := ["organs"];
     layerQueryable := fun _ => false;
     annotations := [("A", annA); ("B", annB)];
     getAnnotation := fun id =>
       if String.eqb id "A" then Some annA
       else if String.eqb id "B" then Some annB else None;
     annotation := fun id =>
       if String.eqb id "f1"
       then Some (mkAnnotationProps "organs" (Some (mkBBox 0 0 10 10)) (5, 5)%Q)
       else if String.eqb id "f3"
       then Some (mkAnnotationProps "organs" (Some (mkBBox 5 5 20 20)) (12, 12)%Q)
       else if String.eqb id "f5"
       then Some (mkAnnotationProps "organs" None (30, 30)%Q)
       else None;
     modelsForFeature := fun id =>
       if String.eqb id "A" then ann_models annA else [];
     mapFeature := handle;
     turfArea := rectangleArea;
     turfBBox := rectangleBBox;
     parseBBox := fun s =>
       if String.eqb s "[2, 2, 6, 6]" then Some (mkBBox 2 2 6 6) else None;
     featureInformation := fun _ => "";
     opt_searchable := false;
     opt_featureInfo := false;
     opt_tooltips := true |}.

(** A pointer event over [A] and [B], and one over the marker. *)
Definition overRegions : MapEvent := mkMapEvent (1, 1)%Z (1, 1)%Q.
Definition overMarker : MapEvent := mkMapEvent (9, 9)%Z (9, 9)%Q.

End Examples.

(* ===================================================================== *)
(** ** Vocabulary of the statements *)
(* ===================================================================== *)

(** The flags in the store and the recorded reference agree: only the
    recorded feature can hold [selected]. *)
Definition selectionConsistent (c : Controller) : Prop :=
  forall k, hasFlag k "selected" (featureState c) = true ->
            exists f, _selectedFeature c = Some f /\ featureKey f = k.

(** The item list in closed form: the query-data item when the annotation
    has models, the two edge/node items when its layer is queryable, a
    separator when either is there, and the zoom item. *)
Definition expectedItems (fm : Flatmap) (feature : Feature) : list MenuEntry :=
  let id := p_id (properties feature) in
  let ann := getAnnotationOf fm id in
  let hasModels := match ann with
                   | Some a => bool_decide (ann_models a ≠ [])
                   | None => false
                   end in
  let queryable := match ann with
                   | Some a => layerQueryable fm (ann_layer a)
                   | None => false
                   end in
  (if hasModels
   then [Item id "Search for knowledge about node" (QueryAction "data")]
   else [])
  ++ (if queryable
      then [Item id "Find edges connected to node" (QueryAction "edges");
            Item id "Find nodes and edges connected to node" (QueryAction "nodes")]
      else [])
  ++ (if hasModels || queryable then [Separator] else [])
  ++ [Item id "Zoom to..." (ZoomToAction feature)].

(** What every completed [query_] leaves behind: the menu hidden, the
    highlight list empty with the flags of its former members cleared, and
    the modal flag down. *)
Definition dispatched (c c' : Controller) : Prop :=
  contextMenu c' = None
  /\ _highlightedFeatures c' = []
  /\ (forall f, f ∈ _highlightedFeatures c ->
                hasFlag (featureKey f) "highlighted" (featureState c') = false)
  /\ _modal c' = false.

(** The ids of a list that have an annotation record, with the record. *)
Definition resolved (fm : Flatmap) (featureIds : list string)
  : list (string * AnnotationProps) :=
  omap (fun id => (fun p => (id, p)) <$> annotation fm id) featureIds.

(** The state-store handle of a resolved id. *)
Definition handleOf (fm : Flatmap) (r : string * AnnotationProps) : Feature :=
  mapFeature fm (ap_layer (snd r)) (fst r).

(** Highlighting the features of a list in turn. *)
Definition highlightAll (features : list Feature) (c : Controller) : Controller :=
  fold_left (fun c feature => Viewer.highlightFeature_ feature c) features c.

(** The value of a variable [bbox] that is [null] ([None]) or holds a box. *)
Definition boxValue (bbox : option BBox) : JsBBox :=
  match bbox with
  | Some b => BBoxOf b
  | None => BBoxNull
  end.

(** The controller in a loop, still going or left by an exception. *)
Definition loopState {A : Type} (l : ZoomLoop A) : Controller :=
  match l with Going c _ | Raised _ c => c end.

(** Merging more boxes into what has been merged so far ([None]: nothing). *)
Definition mergeInto (bbox : option BBox) (boxes : list BBox) : option BBox :=
  fold_left (fun acc b => Some (match acc with
                                | None => b
                                | Some a => expandBounds a b
                                end)) boxes bbox.

(** What [zoomToFeatures] leaves in the highlight list and the store, given
    the features it highlighted: the list is exactly these, they hold the
    flag, and a feature highlighted before that is not among them lost it. *)
Definition rehighlighted (features : list Feature) (c c' : Controller) : Prop :=
  _highlightedFeatures c' = features
  /\ (forall h, h ∈ features ->
                hasFlag (featureKey h) "highlighted" (featureState c') = true)
  /\ (forall g, g ∈ _highlightedFeatures c ->
                (forall h, h ∈ features -> featureKey h <> featureKey g) ->
                hasFlag (featureKey g) "highlighted" (featureState c') = false).

(** The camera after a zoom: no new [fitBounds] call when there was nothing
    to fit; otherwise one call, on the merge of the boxes in list order, with
    the given padding and no animation. *)
Definition fitted (boxes : list BBox) (padding : Q) (c c' : Controller) : Prop :=
  match boxes with
  | [] => fitBoundsCalls c' = fitBoundsCalls c
  | b :: bs =>
      fitBoundsCalls c'
      = mkFitCall (BBoxOf (fold_left expandBounds bs b)) padding false
          :: fitBoundsCalls c
  end.

(** The calls that reach an annotator: the handlers the constructor wires,
    the actions of the context menu and the public methods that write to the
    controller.  A handler that raised leaves the state it had built.  The
    last call is the user dismissing the menu: it closes as on [hide()] and
    runs its close callback. *)
Inductive AnnotatorCall : Type :=
| MouseMove (e : MapEvent)
| ContextMenu (e : MapEvent) (now : Z)
| ContextMenuClosed
| TouchStart (now : Z)
| TouchEnd (e : MapEvent) (now : Z)
| Click (e : MapEvent)
| MenuQuery (kind featureId : string)
| MenuZoomTo (feature : Feature)
| ZoomToFeatures (featureIds : list string)
| ClearResults
| MenuDismissed.

(** The controller as a finished handler leaves it. *)
Definition afterOutcome (o : Outcome) : Controller :=
  match o with Returns c | Throws _ c => c end.

(** One call on an annotator. *)
Definition annotatorCall (fm : Flatmap) (c : Controller)
    (call : AnnotatorCall) : Controller :=
  match call with
  | MouseMove e => Annotator.mouseMoveEvent_ fm e c
  | ContextMenu e now => Annotator.contextMenuEvent_ fm e now c
  | ContextMenuClosed => contextMenuClosed_ c
  | TouchStart now => Annotator.touchStartEvent now c
  | TouchEnd e now => Annotator.touchEndEvent fm e now c
  | Click e => afterOutcome (Annotator.clickEvent_ fm e c)
  | MenuQuery kind featureId => afterOutcome (Annotator.query_ fm kind featureId c)
  | MenuZoomTo feature => afterOutcome (Annotator.zoomTo_ fm feature c)
  | ZoomToFeatures featureIds =>
      afterOutcome (Annotator.zoomToFeatures fm featureIds c)
  | ClearResults => unhighlightFeatures_ c
  | MenuDismissed => contextMenu_hide c
  end.

(** An annotator after construction and a sequence of calls. *)
Definition annotatorRun (fm : Flatmap) (calls : list AnnotatorCall) : Controller :=
  fold_left (annotatorCall fm) calls (Annotator.constructor fm).

(** The calls that reach a viewer: the handlers its constructor wires, the
    actions of the context menu and the public methods that write to it.
    The last two come from outside.  The map closes a popup made by
    [showPopup], on its close button or on a click on the map, and the
    controller is not told.  The user dismisses the menu: it closes as on
    [hide()] and runs its close callback. *)
Inductive ViewerCall : Type :=
| VMouseMove (e : MapEvent)
| VContextMenu (e : MapEvent) (now : Z)
| VContextMenuClosed
| VTouchStart (now : Z)
| VTouchEnd (e : MapEvent) (now : Z)
| VClick (e : MapEvent)
| VMenuQuery (kind featureId : string)
| VMenuZoomTo (feature : Feature)
| VZoomToFeatures (featureIds : list string) (padding : Q)
| VClearResults
| VShowPopup (inView : LngLat -> bool) (featureId : string)
             (content : Viewer.JsContent) (options : string)
| VPopupClosed (popup : Viewer.Popup)
| VMenuDismissed.

(** One call on a viewer. *)
Definition viewerCall (fm : Flatmap) (s : Viewer.State)
    (call : ViewerCall) : Viewer.State :=
  match call with
  | VMouseMove e => Viewer.mouseMoveEvent fm e s
  | VContextMenu e now => Viewer.onController (Viewer.contextMenuEvent_ fm e now) s
  | VContextMenuClosed => Viewer.onController contextMenuClosed_ s
  | VTouchStart now => Viewer.onController (Viewer.touchStartEvent now) s
  | VTouchEnd e now => Viewer.onController (Viewer.touchEndEvent fm e now) s
  | VClick e => Viewer.clickEvent_ fm e s
  | VMenuQuery kind featureId => Viewer.onController (Viewer.query_ fm kind featureId) s
  | VMenuZoomTo feature =>
      Viewer.onController (fun c => afterOutcome (Viewer.zoomTo_ fm feature c)) s
  | VZoomToFeatures featureIds padding =>
      Viewer.onController
        (fun c => afterOutcome (Viewer.zoomToFeatures fm featureIds padding c)) s
  | VClearResults => Viewer.onController unhighlightFeatures_ s
  | VShowPopup inView featureId content options =>
      Viewer.showPopup fm inView featureId content options s
  | VPopupClosed popup => Viewer.popup_remove popup s
  | VMenuDismissed => Viewer.onController contextMenu_hide s
  end.

(** A viewer after construction and a sequence of calls. *)
Definition viewerRun (fm : Flatmap) (calls : list ViewerCall) : Viewer.State :=
  fold_left (viewerCall fm) calls (Viewer.construct fm).

(** Two controllers agree on who holds a flag. *)
Definition flagsAgree (flag : string) (c c' : Controller) : Prop :=
  forall k, hasFlag k flag (featureState c') = hasFlag k flag (featureState c).

(** The features holding [selected] are exactly the recorded selection. *)
Definition selectionExact (c : Controller) : Prop :=
  forall k, hasFlag k "selected" (featureState c) = true
            <-> exists f, _selectedFeature c = Some f /\ featureKey f = k.

(** The features holding [highlighted] are exactly the tracked ones. *)
Definition highlightExact (c : Controller) : Prop :=
  forall k, hasFlag k "highlighted" (featureState c) = true
            <-> exists f, f ∈ _highlightedFeatures c /\ featureKey f = k.

(** The features holding [active] are exactly the recorded active feature. *)
Definition activeExact (c : Controller) : Prop :=
  forall k, hasFlag k "active" (featureState c) = true
            <-> exists f, _activeFeature c = Some f /\ featureKey f = k.

(** The three flags the controller sets and clears are held by exactly the
    features it records for them. *)
Definition flagsExact (c : Controller) : Prop :=
  selectionExact c /\ highlightExact c /\ activeExact c.

(** A query is outstanding and the cursor shows it. *)
Definition busy (c : Controller) : Prop :=
  _inQuery c = true /\ cursor c = "progress".

(** The [area] property of a feature that has one. *)
Definition declaredArea (f : Feature) : Q := default 0%Q (p_area (properties f)).

(** The features of a list that carry a [label] property. *)
Definition labelled (features : list Feature) : list Feature :=
  List.filter (fun feature => bool_decide (is_Some (p_label (properties feature))))
              features.

(** The line the annotator's tooltip shows for an annotation outside
    annotation mode: the label, or the first model when there is no label;
    nothing without models. *)
Definition hoverText (ann : Annotation) : option string :=
  match ann_models ann with
  | m0 :: _ => Some match ann_label ann with
                    | Some l => if truthy l then l else m0
                    | None => m0
                    end
  | [] => None
  end.

(** Outside annotation mode a feature answers to the pointer when its
    annotation has models or lies in a queryable layer. *)
Definition hoverable (fm : Flatmap) (f : Feature) : bool :=
  match getAnnotationOf fm (p_id (properties f)) with
  | Some ann => bool_decide (ann_models ann <> []) || layerQueryable fm (ann_layer ann)
  | None => false
  end.




(** The layer is a background layer: its [background_for] is truthy. *)
Definition isBackground (l : LayerDesc) : bool :=
  match backgroundFor l with Some _ => true | None => false end.

(** The ids the second loop of the constructor collects in
    [layerBackgroundIds]. *)
Definition backgroundIds (layers : list LayerDesc) : list string :=
  map ld_id (List.filter isBackground layers).

(** The feature the annotator's [mouseMoveEvent_] goes on with: the
    smallest annotated polygon, or in annotation mode the first active
    feature. *)
Definition hoverTarget (fm : Flatmap) (e : MapEvent) (c : Controller) : option Feature :=
  match smallestAnnotatedPolygonFeature_ fm c (activeFeaturesAtEvent_ fm e) with
  | None => if annotating c then head (activeFeaturesAtEvent_ fm e) else None
  | Some f => Some f
  end.

(** What [showTooltip_] decides for a feature once it is selected: its
    result, and the lines of the tooltip it shows, if it shows one. *)
Definition tooltipFor (fm : Flatmap) (f : Feature) (c1 : Controller)
  : bool * option (list JsValue) :=
  let id := p_id (properties f) in
  if annotating c1 then
    match getAnnotationOf fm id with
    | Some ann =>
        (true, Some ([JsString (ann_featureId ann); Annotator.jsOfOption (ann_label ann)]
                       ++ map JsString (Annotator.splitWhitespace false (ann_text ann))
                       ++ [JsString (default "" (ann_error ann))]))
    | None =>
        (true, Some [Annotator.jsOfOption id;
                     if hasFlag (featureKey f) "annotated" (featureState c1)
                     then JsBool true else JsUndefined])
    end
  else
    match getAnnotationOf fm id with
    | Some ann =>
        match hoverText ann with
        | Some text => (true, Some [JsString text])
        | None => (layerQueryable fm (ann_layer ann), None)
        end
    | None => (false, None)
    end.

(** The annotator's [mouseMoveEvent_] with nothing to show: the local
    [clear] of the model, i.e. the cursor reset unless a query is outstanding,
    [_tooltip.hide()] and [unselectFeatures_()]. *)
Definition hoverClear (c : Controller) : Controller :=
  unselectFeatures_ true
    (Annotator.tooltip_hide (if negb (_inQuery c) then set_cursor "" c else c)).

(** Two controllers in which a mouse move takes the same decisions. *)
Definition sameMode (c c' : Controller) : Prop :=
  _modal c' = _modal c /\ annotating c' = annotating c
  /\ _inQuery c' = _inQuery c /\ flagsAgree "annotated" c c'.

(** [outer] encloses [inner]. *)
Definition encloses (outer inner : BBox) : Prop :=
  (bb0 outer <= bb0 inner)%Q /\ (bb1 outer <= bb1 inner)%Q
  /\ (bb2 inner <= bb2 outer)%Q /\ (bb3 inner <= bb3 outer)%Q.

(* ===================================================================== *)
(** * Properties *)
(* ===================================================================== *)

(** ** Equality of controller states *)

Lemma controller_ext (c1 c2 : Controller) :
  featureState c1 = featureState c2 -> cursor c1 = cursor c2 ->
  fitBoundsCalls c1 = fitBoundsCalls c2 -> contextMenu c1 = contextMenu c2 ->
  tooltipShown c1 = tooltipShown c2 -> queryCalls c1 = queryCalls c2 ->
  hostCallbacks c1 = hostCallbacks c2 ->
  _selectedFeature c1 = _selectedFeature c2 ->
  _highlightedFeatures c1 = _highlightedFeatures c2 ->
  _activeFeature c1 = _activeFeature c2 -> _tooltip c1 = _tooltip c2 ->
  _infoControl c1 = _infoControl c2 -> _layerSwitcher c1 = _layerSwitcher c2 ->
  annotating c1 = annotating c2 -> _inQuery c1 = _inQuery c2 ->
  _modal c1 = _modal c2 -> _lastContextTime c1 = _lastContextTime c2 ->
  _lastTouchTime c1 = _lastTouchTime c2 -> c1 = c2.
Proof. destruct c1, c2; simpl; intros; subst; reflexivity. Qed.

(** Hiding the menu, as field updates: the menu is gone, and the modal flag
    is lowered when there was a menu to close. *)
Lemma contextMenu_hide_eq (c : Controller) :
  contextMenu_hide c
  = set_modal match contextMenu c with
              | Some _ => false
              | None => _modal c
              end (set_contextMenu None c).
Proof.
  unfold contextMenu_hide, contextMenuClosed_.
  destruct (contextMenu c) eqn:E; apply controller_ext; simpl; congruence.
Qed.

(** ** The feature-state store *)

Lemma hasFlag_set_same (f : Feature) (flag : string) (st : Store) :
  hasFlag (featureKey f) flag (setFeatureState f flag st) = true.
Proof.
  unfold hasFlag, setFeatureState. rewrite lookup_insert_eq. simpl.
  apply bool_decide_eq_true. set_solver.
Qed.

Lemma hasFlag_set_other_flag (f : Feature) (flag flag' : string) (k : FeatureKey) (st : Store) :
  flag' ≠ flag ->
  hasFlag k flag' (setFeatureState f flag st) = hasFlag k flag' st.
Proof.
  intros Hne. unfold hasFlag, setFeatureState, getFeatureState.
  destruct (decide (featureKey f = k)) as [->|Hk].
  - rewrite lookup_insert_eq. simpl. apply bool_decide_ext. set_solver.
  - by rewrite lookup_insert_ne.
Qed.

Lemma hasFlag_set_other_key (f : Feature) (flag flag' : string) (k : FeatureKey) (st : Store) :
  k ≠ featureKey f ->
  hasFlag k flag' (setFeatureState f flag st) = hasFlag k flag' st.
Proof.
  intros Hne. unfold hasFlag, setFeatureState.
  by rewrite lookup_insert_ne.
Qed.

Lemma hasFlag_remove_same (f : Feature) (flag : string) (st : Store) :
  hasFlag (featureKey f) flag (removeFeatureState f flag st) = false.
Proof.
  unfold hasFlag, removeFeatureState. rewrite lookup_insert_eq. simpl.
  apply bool_decide_eq_false. set_solver.
Qed.

Lemma hasFlag_remove_other_flag (f : Feature) (flag flag' : string) (k : FeatureKey) (st : Store) :
  flag' ≠ flag ->
  hasFlag k flag' (removeFeatureState f flag st) = hasFlag k flag' st.
Proof.
  intros Hne. unfold hasFlag, removeFeatureState, getFeatureState.
  destruct (decide (featureKey f = k)) as [->|Hk].
  - rewrite lookup_insert_eq. simpl. apply bool_decide_ext. set_solver.
  - by rewrite lookup_insert_ne.
Qed.

Lemma hasFlag_remove_other_key (f : Feature) (flag flag' : string) (k : FeatureKey) (st : Store) :
  k ≠ featureKey f ->
  hasFlag k flag' (removeFeatureState f flag st) = hasFlag k flag' st.
Proof.
  intros Hne. unfold hasFlag, removeFeatureState.
  by rewrite lookup_insert_ne.
Qed.

(** Removing a flag never sets one. *)
Lemma hasFlag_remove_le (f : Feature) (flag flag' : string) (k : FeatureKey) (st : Store) :
  hasFlag k flag' (removeFeatureState f flag st) = true ->
  hasFlag k flag' st = true.
Proof.
  unfold hasFlag, removeFeatureState, getFeatureState.
  destruct (decide (featureKey f = k)) as [->|Hk].
  - rewrite lookup_insert_eq. simpl. rewrite !bool_decide_eq_true. set_solver.
  - by rewrite lookup_insert_ne.
Qed.

Lemma hasFlag_empty (k : FeatureKey) (flag : string) : hasFlag k flag (∅ : Store) = false.
Proof. unfold hasFlag. rewrite lookup_empty. simpl. apply bool_decide_eq_false. set_solver. Qed.

(** The constructor sets no flag but [annotated] and [annotation-error]. *)
Lemma flagAnnotations_other (fm : Flatmap) (flag : string) (k : FeatureKey) (st : Store) :
  flag ≠ "annotated" -> flag ≠ "annotation-error" ->
  hasFlag k flag (flagAnnotations fm st) = hasFlag k flag st.
Proof.
  intros H1 H2. unfold flagAnnotations.
  revert st. induction (annotations fm) as [|[id ann] l IH]; intros st; simpl; [done|].
  rewrite IH. destruct (ann_error ann).
  - by rewrite !hasFlag_set_other_flag.
  - by rewrite hasFlag_set_other_flag.
Qed.

(** ** Bounds merge *)

(** C9.  [expandBounds] (the spec's [mergeBounds]) takes the smaller of the
    two lower corners and the larger of the two upper corners entry by entry;
    it is commutative, associative and idempotent up to numeric equality of
    the entries. *)
Theorem expandBounds_algebra (a b c : BBox) :
  expandBounds a b =
    mkBBox (Qmin (bb0 a) (bb0 b)) (Qmin (bb1 a) (bb1 b))
           (Qmax (bb2 a) (bb2 b)) (Qmax (bb3 a) (bb3 b))
  /\ BBox_eq (expandBounds a b) (expandBounds b a)
  /\ BBox_eq (expandBounds (expandBounds a b) c) (expandBounds a (expandBounds b c))
  /\ BBox_eq (expandBounds a a) a.
Proof.
  split; [reflexivity|].
  unfold BBox_eq, expandBounds; simpl.
  repeat split;
    first [ apply Q.min_comm | apply Q.max_comm
          | symmetry; apply Q.min_assoc | symmetry; apply Q.max_assoc
          | apply Q.min_id | apply Q.max_id ].
Qed.

(** ** The selected feature's layer name *)

Lemma includes_dash_cons (a : ascii) (s : string) :
  includes "-" (String a s) = Ascii.eqb a "-" || includes "-" s.
Proof.
  change (includes "-" (String a s))
    with ((if ascii_dec "-" a then String.prefix "" s else false)
          || includes "-" s).
  destruct (ascii_dec "-" a) as [<-|Hne].
  - by destruct s.
  - destruct (Ascii.eqb_spec a "-") as [->|_]; [done|reflexivity].
Qed.

Lemma split_nonempty (c : ascii) (s : string) : split c s ≠ [].
Proof.
  destruct s as [|a s]; simpl; [done|].
  destruct (Ascii.eqb a c); [done|]. by destruct (split c s).
Qed.

(** A string without the separator is its own single segment. *)
Lemma split_no_dash (s : string) :
  includes "-" s = false -> split "-" s = [s].
Proof.
  induction s as [|a s IH]; [done|].
  rewrite includes_dash_cons. intros [Ha Hs]%orb_false_elim.
  simpl. rewrite Ha, (IH Hs). done.
Qed.

(** Splitting [r-t], where [t] has no separator, gives the segments of [r]
    followed by [t]. *)
Lemma split_app_last (r t : string) :
  includes "-" t = false ->
  split "-" (r +:+ "-" +:+ t) = split "-" r ++ [t].
Proof.
  intros Ht. change ("-" +:+ t) with (String "-" t).
  induction r as [|a r IH]; simpl.
  - by rewrite (split_no_dash t Ht).
  - rewrite IH. destruct (Ascii.eqb a "-"); [done|].
    pose proof (split_nonempty "-" r) as Hne.
    by destruct (split "-" r).
Qed.

(** [join] undoes [split]. *)
Lemma join_split (s : string) : join "-" (split "-" s) = s.
Proof.
  induction s as [|a s IH]; [done|].
  pose proof (split_nonempty "-" s) as Hne.
  simpl. destruct (Ascii.eqb_spec a "-") as [->|_].
  - destruct (split "-" s) as [|seg segs] eqn:E; [done|].
    change (join "-" (EmptyString :: seg :: segs))
      with ("-" +:+ join "-" (seg :: segs)).
    by rewrite IH.
  - destruct (split "-" s) as [|seg segs] eqn:E; [done|].
    destruct segs as [|seg' segs]; simpl in *; by rewrite <- IH.
Qed.

(** A string with a separator ends in a last separator followed by a
    separator-free segment. *)
Lemma last_dash (s : string) :
  includes "-" s = true ->
  exists r t, s = r +:+ "-" +:+ t /\ includes "-" t = false.
Proof.
  induction s as [|a s IH]; [done|].
  rewrite includes_dash_cons. intros H.
  destruct (includes "-" s) eqn:Hs.
  - destruct (IH eq_refl) as (r & t & -> & Ht).
    by exists (String a r), t.
  - rewrite orb_false_r in H. apply Ascii.eqb_eq in H as ->.
    by exists EmptyString, s.
Qed.

(** The last separator of a string is where it is: two decompositions with
    separator-free tails agree. *)
Lemma last_dash_unique (r r' t t' : string) :
  includes "-" t = false -> includes "-" t' = false ->
  r +:+ "-" +:+ t = r' +:+ "-" +:+ t' -> r = r' /\ t = t'.
Proof.
  intros Ht Ht' E.
  assert (Hs : split "-" r ++ [t] = split "-" r' ++ [t']).
  { rewrite <- !split_app_last by done. by rewrite E. }
  apply app_inj_tail in Hs as [Hs ->]. split; [|done].
  by rewrite <- (join_split r), <- (join_split r'), Hs.
Qed.

Lemma drop_last_segment (r t : string) :
  includes "-" t = false ->
  join "-" (slice_0_m1 (split "-" (r +:+ "-" +:+ t))) = r.
Proof.
  intros Ht. rewrite split_app_last by done.
  unfold slice_0_m1. rewrite removelast_last. apply join_split.
Qed.

(** C10.  [selectedFeatureLayerName] is [null] when no feature is selected;
    for a selected feature whose layer id contains a ['-'] it is the layer id
    up to, and without, its last ['-'] (the last segment dropped); otherwise it
    is the layer id itself. *)
Theorem selectedFeatureLayerName_spec (c : Controller) :
  match _selectedFeature c with
  | None => selectedFeatureLayerName c = None
  | Some f =>
      let layerId := layer_id (layer f) in
      if includes "-" layerId
      then exists name lastSegment,
             selectedFeatureLayerName c = Some name
             /\ layerId = name +:+ "-" +:+ lastSegment
             /\ includes "-" lastSegment = false
      else selectedFeatureLayerName c = Some layerId
  end.
Proof.
  unfold selectedFeatureLayerName.
  destruct (_selectedFeature c) as [f|]; [|done].
  simpl. destruct (includes "-" (layer_id (layer f))) eqn:Hd; [|done].
  destruct (last_dash _ Hd) as (r & t & E & Ht).
  exists r, t. rewrite E at 1. by rewrite drop_last_segment.
Qed.

(** ** The smallest annotated polygon *)

Section Smallest.

Variable fm : Flatmap.
Variable c : Controller.

Let area (f : Feature) : Q := turfArea fm (geometry f).

(** What the loop has found once it holds a candidate [g]: either [g]
    survives, nothing later being strictly smaller, or the result sits
    later in the list, strictly below [g], strictly below every candidate
    before it and not above any candidate after it. *)
Lemma smallest_from_candidate (features : list Feature) (g : Feature) :
  exists f,
    fold_left (smallestStep fm c) features (area g, Some g) = (area f, Some f)
    /\ ((f = g /\ forall h, h ∈ features -> annotatedPolygon c h = true ->
                            (area g <= area h)%Q)
        \/ (exists l1 l2,
              features = l1 ++ f :: l2
              /\ annotatedPolygon c f = true
              /\ (area f < area g)%Q
              /\ (forall h, h ∈ l1 -> annotatedPolygon c h = true ->
                            (area f < area h)%Q)
              /\ (forall h, h ∈ l2 -> annotatedPolygon c h = true ->
                            (area f <= area h)%Q))).
Proof.
  revert g. induction features as [|x xs IH]; intros g.
  - exists g. split; [done|]. left. split; [done|]. intros h Hh. inversion Hh.
  - simpl. unfold smallestStep at 2. simpl.
    destruct (annotatedPolygon c x) eqn:Hx.
    + fold (area x). destruct (Qle_bool (area g) (area x)) eqn:Hle; simpl.
      * apply Qle_bool_iff in Hle.
        destruct (IH g) as (f & Hf & [[-> Hall]|(l1 & l2 & -> & He & Hlt & H1 & H2)]).
        -- exists g. split; [done|]. left. split; [done|].
           intros h [->|Hh]%elem_of_cons Hh'; [done|by apply Hall].
        -- exists f. split; [done|]. right. exists (x :: l1), l2.
           repeat split; try done.
           intros h [->|Hh]%elem_of_cons Hh'; [lra|by apply H1].
      * assert (Hgt : (area x < area g)%Q).
        { apply Qnot_le_lt. intros H%Qle_bool_iff. congruence. }
        destruct (IH x) as (f & Hf & [[-> Hall]|(l1 & l2 & -> & He & Hlt & H1 & H2)]).
        -- exists x. split; [done|]. right. exists [], xs.
           repeat split; try done. intros h Hh. inversion Hh.
        -- exists f. split; [done|]. right. exists (x :: l1), l2.
           repeat split; try done; [lra|].
           intros h [->|Hh]%elem_of_cons Hh'; [lra|by apply H1].
    + destruct (IH g) as (f & Hf & [[-> Hall]|(l1 & l2 & -> & He & Hlt & H1 & H2)]).
      * exists g. split; [done|]. left. split; [done|].
        intros h [->|Hh]%elem_of_cons Hh'; [congruence|by apply Hall].
      * exists f. split; [done|]. right. exists (x :: l1), l2.
        repeat split; try done.
        intros h [->|Hh]%elem_of_cons Hh'; [congruence|by apply H1].
Qed.

(** C2.  [smallestAnnotatedPolygonFeature_] returns [null] exactly when no
    feature of the list is a polygon flagged [annotated]; otherwise it
    returns such a feature of the list whose area no other candidate
    undercuts, and every candidate listed before it has a strictly larger
    area: of several candidates of the least area the first one is returned.
    Being a function of the list, the result is the same on a repeated
    call. *)
Theorem smallestAnnotatedPolygon_spec (features : list Feature) :
  match smallestAnnotatedPolygonFeature_ fm c features with
  | None => forall h, h ∈ features -> annotatedPolygon c h = false
  | Some f =>
      exists l1 l2,
        features = l1 ++ f :: l2
        /\ annotatedPolygon c f = true
        /\ (forall h, h ∈ l1 -> annotatedPolygon c h = true ->
                      (turfArea fm (geometry f) < turfArea fm (geometry h))%Q)
        /\ (forall h, h ∈ l2 -> annotatedPolygon c h = true ->
                      (turfArea fm (geometry f) <= turfArea fm (geometry h))%Q)
  end.
Proof.
  unfold smallestAnnotatedPolygonFeature_.
  induction features as [|x xs IH].
  - simpl. intros h Hh. inversion Hh.
  - simpl. unfold smallestStep at 2. simpl.
    destruct (annotatedPolygon c x) eqn:Hx.
    + destruct (smallest_from_candidate xs x)
        as (f & Hf & [[-> Hall]|(l1 & l2 & -> & He & Hlt & H1 & H2)]).
      * fold (area x). rewrite Hf. simpl. exists [], xs.
        repeat split; try done. intros h Hh. inversion Hh.
      * fold (area x). rewrite Hf. simpl. exists (x :: l1), l2.
        repeat split; try done.
        intros h [->|Hh]%elem_of_cons Hh'; [done|by apply H1].
    + destruct (snd (fold_left (smallestStep fm c) xs (0%Q, None))) as [f|].
      * destruct IH as (l1 & l2 & -> & He & H1 & H2).
        exists (x :: l1), l2. repeat split; try done.
        intros h [->|Hh]%elem_of_cons Hh'; [congruence|by apply H1].
      * intros h [->|Hh]%elem_of_cons; [done|by apply IH].
Qed.

End Smallest.

(** ** Selection *)

Lemma unselect_consistent (reset : bool) (c : Controller) :
  selectionConsistent c -> selectionConsistent (unselectFeatures_ reset c).
Proof.
  intros Hc k. unfold unselectFeatures_.
  destruct (_selectedFeature c) as [g|] eqn:Hg;
    [|intros Hk; destruct (Hc k Hk) as (f & Hf & _); exfalso; congruence].
  assert (Hno : hasFlag k "selected"
                  (removeFeatureState g "selected" (featureState c)) = false).
  { destruct (decide (k = featureKey g)) as [->|Hk].
    - apply hasFlag_remove_same.
    - rewrite hasFlag_remove_other_key by done.
      destruct (hasFlag k "selected" (featureState c)) eqn:E; [|done].
      destruct (Hc k E) as (f & Hf & Hkf). congruence. }
  destruct reset; simpl; congruence.
Qed.

(** After the soft unselect no feature holds the flag. *)
Lemma unselect_clears (reset : bool) (c : Controller) (k : FeatureKey) :
  selectionConsistent c ->
  hasFlag k "selected" (featureState (unselectFeatures_ reset c)) = false.
Proof.
  intros Hc. unfold unselectFeatures_.
  destruct (_selectedFeature c) as [g|] eqn:Hg.
  - assert (Hno : hasFlag k "selected"
                    (removeFeatureState g "selected" (featureState c)) = false).
    { destruct (decide (k = featureKey g)) as [->|Hk].
      - apply hasFlag_remove_same.
      - rewrite hasFlag_remove_other_key by done.
        destruct (hasFlag k "selected" (featureState c)) eqn:E; [|done].
        destruct (Hc k E) as (f & Hf & Hkf). congruence. }
    by destruct reset.
  - destruct (hasFlag k "selected" (featureState c)) eqn:E; [|done].
    destruct (Hc k E) as (f & Hf & _). congruence.
Qed.

Lemma select_flags (feature : Feature) (c : Controller) (k : FeatureKey) :
  selectionConsistent c ->
  hasFlag k "selected" (featureState (selectFeature_ feature c))
  = bool_decide (k = featureKey feature).
Proof.
  intros Hc. unfold selectFeature_. simpl.
  destruct (decide (k = featureKey feature)) as [->|Hk].
  - rewrite hasFlag_set_same. symmetry. by apply bool_decide_eq_true.
  - rewrite hasFlag_set_other_key by done.
    rewrite unselect_clears by done. symmetry. by apply bool_decide_eq_false.
Qed.

Lemma select_consistent (feature : Feature) (c : Controller) :
  selectionConsistent c -> selectionConsistent (selectFeature_ feature c).
Proof.
  intros Hc k. rewrite select_flags by done.
  intros ->%bool_decide_eq_true. by exists feature.
Qed.

Lemma select_reference (feature : Feature) (c : Controller) :
  _selectedFeature (selectFeature_ feature c) = Some feature.
Proof. reflexivity. Qed.

Lemma unselect_reference (reset : bool) (c : Controller) :
  _selectedFeature (unselectFeatures_ reset c)
  = if reset then None else _selectedFeature c.
Proof.
  unfold unselectFeatures_.
  destruct (_selectedFeature c) eqn:E; destruct reset; simpl; congruence.
Qed.

Lemma runCalls_snoc (calls : list SelectionCall) (call : SelectionCall)
    (c : Controller) :
  runCalls (calls ++ [call]) c = runCall (runCalls calls c) call.
Proof. unfold runCalls. by rewrite fold_left_app. Qed.

Lemma lastSelect_snoc (calls : list SelectionCall) (call : SelectionCall) :
  lastSelect (calls ++ [call])
  = match call with
    | CallSelect feature => Some feature
    | CallUnselect _ => lastSelect calls
    end.
Proof. unfold lastSelect. by rewrite fold_left_app. Qed.

(** Along any call sequence the store and the reference stay consistent,
    and the reference, when set, is the argument of the latest select. *)
Lemma runCalls_invariant (calls : list SelectionCall) (c0 : Controller) :
  selectionConsistent c0 -> _selectedFeature c0 = None ->
  selectionConsistent (runCalls calls c0)
  /\ (forall f, _selectedFeature (runCalls calls c0) = Some f ->
                lastSelect calls = Some f).
Proof.
  intros H0 Hn. induction calls as [|call calls [IHc IHr]] using rev_ind.
  - split; [done|]. simpl. congruence.
  - rewrite runCalls_snoc, lastSelect_snoc.
    destruct call as [g|reset]; cbn [runCall].
    + split; [by apply select_consistent|].
      intros f. rewrite select_reference. congruence.
    + split; [by apply unselect_consistent|].
      intros f. rewrite unselect_reference. destruct reset; [done|apply IHr].
Qed.

Lemma constructor_consistent (fm : Flatmap) (c0 : Controller) :
  c0 = Annotator.constructor fm \/ c0 = Viewer.constructor fm ->
  selectionConsistent c0 /\ _selectedFeature c0 = None.
Proof.
  intros [-> | ->]; (split; [|done]); intros k; simpl;
    rewrite flagAnnotations_other by done; by rewrite hasFlag_empty.
Qed.

(** C1.  Start from a freshly constructed controller of either version and
    make any sequence of [selectFeature_] and [unselectFeatures_] calls.  A
    feature that then holds the [selected] flag is the argument of the most
    recent [selectFeature_] call, and it is the recorded selection; so at
    most one feature holds the flag.  A further [selectFeature_] consists of
    the soft unselect, after which no feature holds the flag, followed by
    setting the flag of the new feature, which then is the only holder. *)
Theorem selection_exclusive (fm : Flatmap) (c0 : Controller)
    (calls : list SelectionCall) (k : FeatureKey) (next : Feature) :
  c0 = Annotator.constructor fm \/ c0 = Viewer.constructor fm ->
  let c := runCalls calls c0 in
  (hasFlag k "selected" (featureState c) = true ->
   exists f, lastSelect calls = Some f /\ featureKey f = k
             /\ _selectedFeature c = Some f)
  /\ hasFlag k "selected" (featureState (unselectFeatures_ false c)) = false
  /\ selectFeature_ next c
     = set_selectedFeature (Some next)
         (set_featureState
            (setFeatureState next "selected"
               (featureState (unselectFeatures_ false c)))
            (unselectFeatures_ false c))
  /\ hasFlag k "selected" (featureState (selectFeature_ next c))
     = bool_decide (k = featureKey next).
Proof.
  intros H0 c.
  destruct (constructor_consistent fm c0 H0) as [Hc0 Hn0].
  destruct (runCalls_invariant calls c0 Hc0 Hn0) as [Hc Hr]. fold c in Hc, Hr.
  repeat split.
  - intros Hk. destruct (Hc k Hk) as (f & Hf & Hkf). exists f. auto.
  - by apply unselect_clears.
  - by apply select_flags.
Qed.

Lemma selection_exclusive_witness :
  let calls := [CallSelect Examples.featureA; CallSelect Examples.featureB] in
  let c := runCalls calls (Annotator.constructor Examples.flatmap) in
  hasFlag (featureKey Examples.featureB) "selected" (featureState c) = true
  /\ (exists f, lastSelect calls = Some f
                /\ featureKey f = featureKey Examples.featureB
                /\ _selectedFeature c = Some f)
  /\ hasFlag (featureKey Examples.featureA) "selected" (featureState c) = false.
Proof.
  intros calls c.
  pose proof (selection_exclusive Examples.flatmap
                (Annotator.constructor Examples.flatmap) calls
                (featureKey Examples.featureB) Examples.featureA
                (or_introl eq_refl)) as (H & _).
  assert (Hflag : hasFlag (featureKey Examples.featureB) "selected"
                    (featureState c) = true) by (vm_compute; reflexivity).
  split; [exact Hflag|]. split; [exact (H Hflag)|].
  vm_compute; reflexivity.
Defined.

(** ** Context menu *)

(** The loop of [smallestAnnotatedPolygonFeature_] reads the controller only
    through the feature-state store. *)
Lemma smallest_store (fm : Flatmap) (c c' : Controller) (features : list Feature) :
  featureState c' = featureState c ->
  smallestAnnotatedPolygonFeature_ fm c' features
  = smallestAnnotatedPolygonFeature_ fm c features.
Proof.
  intros E. unfold smallestAnnotatedPolygonFeature_. f_equal.
  assert (Hstep : forall acc x, smallestStep fm c' acc x = smallestStep fm c acc x).
  { intros acc x. unfold smallestStep, annotatedPolygon. by rewrite E. }
  generalize (0%Q, @None Feature).
  induction features as [|x xs IH]; intros acc; [done|].
  simpl. by rewrite IH, Hstep.
Qed.

Lemma menuItems_closed_form (fm : Flatmap) (feature : Feature) :
  menuItems fm feature = expectedItems fm feature.
Proof.
  unfold menuItems, expectedItems.
  destruct (getAnnotationOf fm (p_id (properties feature))) as [ann|]; [|done].
  destruct (ann_models ann) as [|m ms]; destruct (layerQueryable fm (ann_layer ann)); done.
Qed.

Lemma menuItems_nonempty (fm : Flatmap) (feature : Feature) :
  (0 <? length (menuItems fm feature))%nat = true.
Proof.
  unfold menuItems. rewrite length_app. simpl. apply Nat.ltb_lt. lia.
Qed.

(** C5.  A [contextmenu] event that is not a duplicate (at least 100 ms after
    the previous one) and resolves a smallest annotated polygon shows, at the
    event's coordinate, the list made of the query-data item exactly when the
    annotation has models, the edge and node items exactly when its layer is
    queryable, a separator exactly when one of these precedes it, and last the
    zoom item; the modal flag is set and the feature selected.  Without models
    and on a layer that is not queryable the list is the zoom item alone, and
    it is still shown.  The block that shows a list shows nothing, and leaves
    the modal flag, for an empty list.  Both versions. *)
Theorem contextMenu_construction (fm : Flatmap) (event : MapEvent) (now : Z)
    (c c' : Controller) (feature : Feature) :
  (_lastContextTime c + 100 <= now)%Z ->
  smallestAnnotatedPolygonFeature_ fm c (activeFeaturesAtEvent_ fm event)
    = Some feature ->
  c' = Annotator.contextMenuEvent_ fm event now c
  \/ c' = Viewer.contextMenuEvent_ fm event now c ->
  contextMenu c' = Some (lngLat event, expectedItems fm feature)
  /\ _modal c' = true
  /\ _selectedFeature c' = Some feature
  /\ ((forall ann, getAnnotationOf fm (p_id (properties feature)) = Some ann ->
                   ann_models ann = [] /\ layerQueryable fm (ann_layer ann) = false) ->
      expectedItems fm feature
      = [Item (p_id (properties feature)) "Zoom to..." (ZoomToAction feature)])
  /\ (forall position c0, showMenu position [] c0 = c0).
Proof.
  intros Hnow Hsmall Hc'.
  assert (Hdeb : (now <? _lastContextTime c + 100)%Z = false)
    by (apply Z.ltb_ge; lia).
  assert (Hs : smallestAnnotatedPolygonFeature_ fm (set_lastContextTime now c)
                 (activeFeaturesAtEvent_ fm event) = Some feature)
    by (rewrite (smallest_store fm c) by done; done).
  assert (Hshow : forall c1, showMenu (lngLat event) (menuItems fm feature) c1
                  = set_contextMenu (Some (lngLat event, expectedItems fm feature))
                                    (set_modal true c1)).
  { intros c1. unfold showMenu. rewrite menuItems_nonempty.
    by rewrite menuItems_closed_form. }
  repeat split.
  - destruct Hc' as [-> | ->];
      unfold Annotator.contextMenuEvent_, Viewer.contextMenuEvent_;
      rewrite Hdeb; cbv zeta; rewrite Hs, Hshow; reflexivity.
  - destruct Hc' as [-> | ->];
      unfold Annotator.contextMenuEvent_, Viewer.contextMenuEvent_;
      rewrite Hdeb; cbv zeta; rewrite Hs, Hshow; reflexivity.
  - destruct Hc' as [-> | ->];
      unfold Annotator.contextMenuEvent_, Viewer.contextMenuEvent_;
      rewrite Hdeb; cbv zeta; rewrite Hs, Hshow; reflexivity.
  - intros Hann. unfold expectedItems.
    destruct (getAnnotationOf fm (p_id (properties feature))) as [ann|]; [|done].
    destruct (Hann ann eq_refl) as [-> ->]. done.
Qed.

Lemma contextMenu_construction_witness :
  let c := Annotator.constructor Examples.flatmap in
  let c' := Annotator.contextMenuEvent_ Examples.flatmap Examples.overRegions 1000 c in
  (_lastContextTime c + 100 <= 1000)%Z
  /\ smallestAnnotatedPolygonFeature_ Examples.flatmap c
       (activeFeaturesAtEvent_ Examples.flatmap Examples.overRegions)
     = Some Examples.featureB
  /\ contextMenu c'
     = Some (lngLat Examples.overRegions,
             [Item (Some "B") "Zoom to..." (ZoomToAction Examples.featureB)])
  /\ _modal c' = true.
Proof.
  intros c c'.
  assert (H1 : (_lastContextTime c + 100 <= 1000)%Z) by (vm_compute; discriminate).
  assert (H2 : smallestAnnotatedPolygonFeature_ Examples.flatmap c
                 (activeFeaturesAtEvent_ Examples.flatmap Examples.overRegions)
               = Some Examples.featureB) by (vm_compute; reflexivity).
  destruct (contextMenu_construction Examples.flatmap Examples.overRegions 1000
              c c' Examples.featureB H1 H2 (or_introl eq_refl))
    as (Hmenu & Hmodal & _ & Hzoom & _).
  split; [exact H1|]. split; [exact H2|]. split; [|exact Hmodal].
  rewrite Hmenu. rewrite Hzoom; [reflexivity|].
  intros ann Hann. vm_compute in Hann. injection Hann as <-. split; reflexivity.
Defined.

(** ** Long press *)

(** C8 (as amended).  A [touchend] more than 500 ms after the [touchstart]
    of the gesture runs [contextMenuEvent_] on the event; a [touchend] 500 ms
    after it, or sooner, does nothing.  Both versions. *)
Theorem longPress_threshold (fm : Flatmap) (e : MapEvent) (t0 t1 : Z)
    (c : Controller) :
  ((500 < t1 - t0)%Z ->
   Annotator.touchEndEvent fm e t1 (Annotator.touchStartEvent t0 c)
   = Annotator.contextMenuEvent_ fm e t1 (Annotator.touchStartEvent t0 c)
   /\ Viewer.touchEndEvent fm e t1 (Viewer.touchStartEvent t0 c)
      = Viewer.contextMenuEvent_ fm e t1 (Viewer.touchStartEvent t0 c))
  /\ ((t1 - t0 <= 500)%Z ->
      Annotator.touchEndEvent fm e t1 (Annotator.touchStartEvent t0 c)
      = Annotator.touchStartEvent t0 c
      /\ Viewer.touchEndEvent fm e t1 (Viewer.touchStartEvent t0 c)
         = Viewer.touchStartEvent t0 c).
Proof.
  unfold Annotator.touchEndEvent, Viewer.touchEndEvent,
    Annotator.touchStartEvent, Viewer.touchStartEvent, touchEnd, longTouch.
  simpl. split; intros H.
  - assert (E : (t0 + 500 <? t1)%Z = true) by (apply Z.ltb_lt; lia).
    by rewrite E.
  - assert (E : (t0 + 500 <? t1)%Z = false) by (apply Z.ltb_ge; lia).
    by rewrite E.
Qed.

Lemma longPress_threshold_witness :
  let c := Annotator.constructor Examples.flatmap in
  ((500 < 1501 - 1000)%Z
   /\ Annotator.touchEndEvent Examples.flatmap Examples.overRegions 1501
        (Annotator.touchStartEvent 1000 c)
      = Annotator.contextMenuEvent_ Examples.flatmap Examples.overRegions 1501
          (Annotator.touchStartEvent 1000 c))
  /\ ((1500 - 1000 <= 500)%Z
      /\ Annotator.touchEndEvent Examples.flatmap Examples.overRegions 1500
           (Annotator.touchStartEvent 1000 c)
         = Annotator.touchStartEvent 1000 c).
Proof.
  intros c. split.
  - assert (H : (500 < 1501 - 1000)%Z) by lia.
    split; [exact H|].
    exact (proj1 (proj1 (longPress_threshold Examples.flatmap
                           Examples.overRegions 1000 1501 c) H)).
  - assert (H : (1500 - 1000 <= 500)%Z) by lia.
    split; [exact H|].
    exact (proj1 (proj2 (longPress_threshold Examples.flatmap
                           Examples.overRegions 1000 1500 c) H)).
Defined.

(** A gesture of exactly 500 ms: the claim's threshold is met, the handler
    does nothing, and [contextMenuEvent_] on the same event would have opened
    the menu. *)
Lemma longPress_at_500_counterexample :
  let c := Annotator.touchStartEvent 1000 (Annotator.constructor Examples.flatmap) in
  (1500 - 1000 >= 500)%Z
  /\ Annotator.touchEndEvent Examples.flatmap Examples.overRegions 1500 c = c
  /\ contextMenu c = None
  /\ _modal c = false
  /\ contextMenu
       (Annotator.contextMenuEvent_ Examples.flatmap Examples.overRegions 1500 c)
     = Some (lngLat Examples.overRegions,
             [Item (Some "B") "Zoom to..." (ZoomToAction Examples.featureB)])
  /\ Annotator.touchEndEvent Examples.flatmap Examples.overRegions 1500 c
     <> Annotator.contextMenuEvent_ Examples.flatmap Examples.overRegions 1500 c.
Proof.
  intros c. split; [lia|]. split; [reflexivity|]. split; [reflexivity|].
  split; [reflexivity|]. split; [vm_compute; reflexivity|].
  intros E. apply (f_equal _modal) in E. vm_compute in E. discriminate E.
Qed.

(** ** Highlights *)

Lemma unhighlight_fold_le (l : list Feature) (st : Store) (k : FeatureKey) :
  hasFlag k "highlighted"
    (fold_left (fun st feature => removeFeatureState feature "highlighted" st) l st)
  = true ->
  hasFlag k "highlighted" st = true.
Proof.
  revert st. induction l as [|x xs IH]; intros st; simpl; [done|].
  intros H. apply IH in H. by apply hasFlag_remove_le in H.
Qed.

Lemma unhighlight_fold_clears (l : list Feature) (st : Store) (f : Feature) :
  f ∈ l ->
  hasFlag (featureKey f) "highlighted"
    (fold_left (fun st feature => removeFeatureState feature "highlighted" st) l st)
  = false.
Proof.
  revert st. induction l as [|x xs IH]; intros st Hf; [inversion Hf|].
  simpl. apply elem_of_cons in Hf as [->|Hf]; [|by apply IH].
  destruct (hasFlag _ _ (fold_left _ xs _)) eqn:E; [|done].
  apply unhighlight_fold_le in E. by rewrite hasFlag_remove_same in E.
Qed.

(** After [unhighlightFeatures_] the tracked list is empty and no feature of
    the former list holds the [highlighted] flag. *)
Lemma unhighlightFeatures_clears (c : Controller) :
  _highlightedFeatures (unhighlightFeatures_ c) = []
  /\ forall f, f ∈ _highlightedFeatures c ->
               hasFlag (featureKey f) "highlighted"
                 (featureState (unhighlightFeatures_ c)) = false.
Proof.
  split; [done|]. intros f Hf. simpl. by apply unhighlight_fold_clears.
Qed.

(** ** Query dispatch *)

Lemma queryData_fields (models : list string) (c : Controller) :
  featureState (queryData_ models c) = featureState c
  /\ _highlightedFeatures (queryData_ models c) = _highlightedFeatures c
  /\ contextMenu (queryData_ models c) = contextMenu c.
Proof. unfold queryData_. by destruct (0 <? length models)%nat. Qed.

(** C6 (as amended).  For an action of kind ['edges'] or ['nodes'] on a
    feature that has an annotation, the annotator's [query_] passes the kind
    with the annotation's URL and models to the query interface, sets the
    cursor to ['progress'] and the in-query flag; the viewer's [query_] sets
    the cursor and the flag and passes nothing on.  After these, and after an
    action of kind ['data'], in both versions the menu is hidden, the
    highlight list is empty with the flags cleared, and the modal flag is
    down. *)
Theorem query_dispatch (fm : Flatmap) (kind featureId : string)
    (ann : Annotation) (c : Controller) :
  getAnnotation fm featureId = Some ann ->
  kind = "edges" \/ kind = "nodes" ->
  (exists c', Annotator.query_ fm kind featureId c = Returns c'
              /\ queryCalls c'
                 = mkQueryCall kind (ann_url ann) (ann_models ann) :: queryCalls c
              /\ cursor c' = "progress" /\ _inQuery c' = true
              /\ dispatched c c')
  /\ (let c' := Viewer.query_ fm kind featureId c in
      queryCalls c' = queryCalls c
      /\ cursor c' = "progress" /\ _inQuery c' = true
      /\ dispatched c c')
  /\ (exists c', Annotator.query_ fm "data" featureId c = Returns c'
                 /\ dispatched c c')
  /\ dispatched c (Viewer.query_ fm "data" featureId c).
Proof.
  intros Hann Hkind.
  assert (Hk : String.eqb kind "data" = false) by (destruct Hkind as [-> | ->]; done).
  destruct (unhighlightFeatures_clears c) as [_ Hflags].
  split; [|split; [|split]].
  - unfold Annotator.query_. rewrite Hk, Hann, contextMenu_hide_eq.
    eexists. split; [reflexivity|].
    unfold dispatched. simpl. repeat split; try done; try (by apply Hflags).
  - unfold Viewer.query_. rewrite Hk, contextMenu_hide_eq. unfold dispatched. simpl.
    repeat split; try done; try (by apply Hflags).
  - unfold Annotator.query_. simpl String.eqb. cbv iota zeta.
    rewrite contextMenu_hide_eq. eexists. split; [reflexivity|].
    match goal with
    | |- context [queryData_ ?m ?x] =>
        destruct (queryData_fields m x) as (Hs & Hh & Hm)
    end.
    simpl in Hs, Hh, Hm. unfold dispatched. simpl.
    repeat split; try done;
      try (intros f Hf; rewrite Hs; by apply Hflags).
  - unfold Viewer.query_. simpl String.eqb. cbv iota zeta.
    rewrite contextMenu_hide_eq.
    match goal with
    | |- context [queryData_ ?m ?x] =>
        destruct (queryData_fields m x) as (Hs & Hh & Hm)
    end.
    simpl in Hs, Hh, Hm. unfold dispatched. simpl.
    repeat split; try done;
      try (intros f Hf; rewrite Hs; by apply Hflags).
Qed.

Lemma query_dispatch_witness :
  let c := Annotator.constructor Examples.flatmap in
  getAnnotation Examples.flatmap "A" = Some Examples.annA
  /\ exists c', Annotator.query_ Examples.flatmap "edges" "A" c = Returns c'
                /\ queryCalls c'
                   = [mkQueryCall "edges" (Some "https://example.org/heart")
                                  ["UBERON:0000948"]]
                /\ cursor c' = "progress" /\ _inQuery c' = true
                /\ dispatched c c'.
Proof.
  intros c.
  assert (H : getAnnotation Examples.flatmap "A" = Some Examples.annA)
    by reflexivity.
  split; [exact H|].
  exact (proj1 (query_dispatch Examples.flatmap "edges" "A" Examples.annA c
                  H (or_introl eq_refl))).
Defined.

(** In the viewer an ['edges'] action on an annotated feature that has a URL
    and models reaches no query interface. *)
Lemma query_forward_counterexample :
  let c := Viewer.constructor Examples.flatmap in
  getAnnotation Examples.flatmap "A" = Some Examples.annA
  /\ ann_url Examples.annA = Some "https://example.org/heart"
  /\ ann_models Examples.annA = ["UBERON:0000948"]
  /\ queryCalls (Viewer.query_ Examples.flatmap "edges" "A" c) = []
  /\ queryCalls (Viewer.query_ Examples.flatmap "nodes" "A" c) = [].
Proof. repeat split. Qed.

(** ** Mouse moves while the menu is open *)

(** The annotator's [mouseMoveEvent_] returns at once when the modal flag is
    up: nothing changes. *)
Lemma annotator_mouseMove_modal (fm : Flatmap) (event : MapEvent) (c : Controller) :
  _modal c = true -> Annotator.mouseMoveEvent_ fm event c = c.
Proof. intros H. unfold Annotator.mouseMoveEvent_. by rewrite H. Qed.

(** C3 (the code at the failing input).  In the viewer, hover over the two
    regions, then open the context menu there: the modal flag is up, [B] is
    the active feature and its label is shown.  A mouse move over the marker
    now removes the tooltip, takes the [active] flag from [B], makes the
    marker the active feature and turns the cursor into a pointer. *)
Theorem viewer_mouseMove_ignores_modal :
  let c0 := Viewer.constructor Examples.flatmap in
  let c1 := Viewer.mouseMoveEvent_ Examples.flatmap Examples.overRegions c0 in
  let c2 := Viewer.contextMenuEvent_ Examples.flatmap Examples.overRegions 1000 c1 in
  let c3 := Viewer.mouseMoveEvent_ Examples.flatmap Examples.overMarker c2 in
  _modal c2 = true /\ _modal c3 = true
  /\ _tooltip c2
     = Some (lngLat Examples.overRegions,
             "<div class='flatmap-feature-label'>Left ventricle</div>")
  /\ _tooltip c3 = None
  /\ cursor c2 = "default" /\ cursor c3 = "pointer"
  /\ _activeFeature c2 = Some Examples.featureB
  /\ _activeFeature c3 = Some Examples.featureS
  /\ hasFlag (featureKey Examples.featureB) "active" (featureState c2) = true
  /\ hasFlag (featureKey Examples.featureB) "active" (featureState c3) = false
  /\ hasFlag (featureKey Examples.featureS) "active" (featureState c3) = true.
Proof. vm_compute. repeat split. Qed.

(** ** Zoom to features *)

Lemma viewer_zoomStep_unresolved (fm : Flatmap) (featureIds : list string)
    (acc : ZoomLoop JsBBox) :
  (forall id, id ∈ featureIds -> annotation fm id = None) ->
  fold_left (Viewer.zoomStep fm) featureIds acc = acc.
Proof.
  revert acc. induction featureIds as [|id ids IH]; intros acc H; [done|].
  simpl. assert (E : Viewer.zoomStep fm acc id = acc).
  { unfold Viewer.zoomStep. destruct acc; [|done].
    by rewrite (H id) by apply list_elem_of_here. }
  rewrite E. apply IH. intros id' Hid'. apply H. by apply list_elem_of_further.
Qed.

(** In the viewer, [zoomToFeatures] on a non-empty list of ids none of which
    has an annotation record highlights nothing and still calls [fitBounds],
    with [null] for the box: the loop is not followed by a test that it found
    anything, as it is in the annotator. *)
Lemma viewer_zoomToFeatures_unresolved (fm : Flatmap) (featureIds : list string)
    (padding : Q) (c : Controller) :
  featureIds <> [] ->
  (forall id, id ∈ featureIds -> annotation fm id = None) ->
  exists c', Viewer.zoomToFeatures fm featureIds padding c = Returns c'
             /\ _highlightedFeatures c' = []
             /\ fitBoundsCalls c' = mkFitCall BBoxNull padding false :: fitBoundsCalls c.
Proof.
  intros Hne Hnone. unfold Viewer.zoomToFeatures.
  destruct featureIds as [|id ids]; [done|].
  change (0 <? length (id :: ids))%nat with true. cbv iota zeta.
  rewrite viewer_zoomStep_unresolved by done. by eexists.
Qed.

Example viewer_zoomToFeatures_unresolved_zz :
  let c := Viewer.constructor Examples.flatmap in
  ["zz"] <> ([] : list string)
  /\ (forall id, id ∈ ["zz"] -> annotation Examples.flatmap id = None)
  /\ exists c', Viewer.zoomToFeatures Examples.flatmap ["zz"] Viewer.defaultPadding c
                = Returns c'
                /\ fitBoundsCalls c' = [mkFitCall BBoxNull 100 false].
Proof.
  intros c.
  assert (H1 : ["zz"] <> ([] : list string)) by discriminate.
  assert (H2 : forall id, id ∈ ["zz"] -> annotation Examples.flatmap id = None).
  { intros id Hid. apply list_elem_of_singleton in Hid as ->. reflexivity. }
  split; [exact H1|]. split; [exact H2|].
  destruct (viewer_zoomToFeatures_unresolved Examples.flatmap ["zz"]
              Viewer.defaultPadding c H1 H2) as (c' & E & _ & Hfit).
  by exists c'.
Qed.

(** The annotator's [zoomTo_] touches no highlight, whether it returns or
    raises: it neither clears the list nor adds the feature. *)
Lemma annotator_zoomTo_highlights (fm : Flatmap) (feature : Feature) (c : Controller) :
  _highlightedFeatures (afterOutcome (Annotator.zoomTo_ fm feature c))
  = _highlightedFeatures c
  /\ featureState (afterOutcome (Annotator.zoomTo_ fm feature c)) = featureState c.
Proof.
  unfold Annotator.zoomTo_. rewrite contextMenu_hide_eq.
  by destruct (bounds fm feature).
Qed.

(** A feature whose declared bounds do not parse: [zoomTo_] raises with the
    camera as it was; the annotator has hidden the menu, the viewer has
    also highlighted the feature. *)
Lemma zoomTo_raises (fm : Flatmap) (feature : Feature) (c : Controller) :
  bounds fm feature = None ->
  (exists msg c', Annotator.zoomTo_ fm feature c = Throws (SyntaxError msg) c'
                  /\ contextMenu c' = None
                  /\ fitBoundsCalls c' = fitBoundsCalls c)
  /\ (exists msg c', Viewer.zoomTo_ fm feature c = Throws (SyntaxError msg) c'
                     /\ contextMenu c' = None
                     /\ _highlightedFeatures c' = [feature]
                     /\ fitBoundsCalls c' = fitBoundsCalls c).
Proof.
  intros H. unfold Annotator.zoomTo_, Viewer.zoomTo_.
  rewrite H, contextMenu_hide_eq. split; by do 2 eexists.
Qed.

(** Both versions' [zoomTo_] close an open menu, and with it lower the modal
    flag, whether they go on to fit the camera or raise. *)
Lemma zoomTo_closes_menu (fm : Flatmap) (feature : Feature) (c : Controller) :
  is_Some (contextMenu c) ->
  (contextMenu (afterOutcome (Annotator.zoomTo_ fm feature c)) = None
   /\ _modal (afterOutcome (Annotator.zoomTo_ fm feature c)) = false)
  /\ (contextMenu (afterOutcome (Viewer.zoomTo_ fm feature c)) = None
      /\ _modal (afterOutcome (Viewer.zoomTo_ fm feature c)) = false).
Proof.
  intros [m Hm]. unfold Annotator.zoomTo_, Viewer.zoomTo_.
  rewrite contextMenu_hide_eq, Hm. by destruct (bounds fm feature).
Qed.

(** A declared box is parsed and used, not the geometry's; a declaration
    that does not parse makes [zoomTo_] raise after the menu is hidden and,
    in the viewer, the feature highlighted, with no call of [fitBounds]. *)
Example zoomTo_declared_bounds :
  let fm := Examples.flatmap in
  bounds fm Examples.featureC = Some (mkBBox 2 2 6 6)
  /\ bounds fm Examples.featureD = None
  /\ (exists c, Viewer.zoomTo_ fm Examples.featureC (Viewer.constructor fm) = Returns c
                /\ fitBoundsCalls c = [mkFitCall (BBoxOf (mkBBox 2 2 6 6)) 100 false])
  /\ (exists msg c,
        Viewer.zoomTo_ fm Examples.featureD (Viewer.constructor fm)
        = Throws (SyntaxError msg) c
        /\ _highlightedFeatures c = [Examples.featureD]
        /\ fitBoundsCalls c = []).
Proof.
  intros fm. split; [reflexivity|]. split; [reflexivity|]. split.
  - eexists. vm_compute. split; reflexivity.
  - do 2 eexists. vm_compute. repeat split; reflexivity.
Qed.

(** The spec's end-to-end example: [zoomToFeatures(['f1','f3'])] with boxes
    [[0,0,10,10]] and [[5,5,20,20]] highlights the two features and fits the
    camera to [[0,0,20,20]] with the default padding. *)
Example viewer_zoomToFeatures_f1_f3 :
  exists c,
    Viewer.zoomToFeatures Examples.flatmap ["f1"; "f3"] Viewer.defaultPadding
      (Viewer.constructor Examples.flatmap) = Returns c
    /\ _highlightedFeatures c
       = [Examples.handle "organs" "f1"; Examples.handle "organs" "f3"]
    /\ fitBoundsCalls c = [mkFitCall (BBoxOf (mkBBox 0 0 20 20)) 100 false].
Proof. eexists. vm_compute. repeat split; reflexivity. Qed.

(** A record without [bounds]: alone, its [undefined] reaches [fitBounds];
    after or before another record, [expandBounds] raises on it and the
    camera is not touched. *)
Example viewer_zoomToFeatures_f5 :
  let c := Viewer.constructor Examples.flatmap in
  (exists c', Viewer.zoomToFeatures Examples.flatmap ["f5"] Viewer.defaultPadding c
              = Returns c'
              /\ fitBoundsCalls c' = [mkFitCall BBoxUndefined 100 false])
  /\ (exists msg c',
        Viewer.zoomToFeatures Examples.flatmap ["f1"; "f5"] Viewer.defaultPadding c
        = Throws (TypeError msg) c'
        /\ fitBoundsCalls c' = [])
  /\ (exists msg c',
        Viewer.zoomToFeatures Examples.flatmap ["f5"; "f1"] Viewer.defaultPadding c
        = Throws (TypeError msg) c'
        /\ fitBoundsCalls c' = []).
Proof.
  intros c. split; [|split].
  - eexists. vm_compute. split; reflexivity.
  - do 2 eexists. vm_compute. split; reflexivity.
  - do 2 eexists. vm_compute. split; reflexivity.
Qed.

(** The spec's example of two overlapping regions: the pointer over [A]
    (area 100) and [B] (area 40) resolves to [B]. *)
Example smallest_of_A_and_B :
  smallestAnnotatedPolygonFeature_ Examples.flatmap
    (Annotator.constructor Examples.flatmap)
    (activeFeaturesAtEvent_ Examples.flatmap Examples.overRegions)
  = Some Examples.featureB.
Proof. vm_compute. reflexivity. Qed.

(** The menu offers an edge or node action only for a feature whose id has an
    annotation: the [featureId] such an action hands to [query_] resolves. *)
Lemma menu_query_items_annotated (fm : Flatmap) (feature : Feature)
    (id : option string) (prompt kind : string) :
  Item id prompt (QueryAction kind) ∈ menuItems fm feature ->
  kind <> "data" ->
  exists i ann, id = Some i /\ getAnnotation fm i = Some ann.
Proof.
  rewrite menuItems_closed_form. unfold expectedItems, getAnnotationOf.
  destruct (p_id (properties feature)) as [i|]; simpl.
  - destruct (getAnnotation fm i) as [ann|] eqn:Hann.
    + intros Hin Hk. exists i, ann. split; [|done].
      destruct (bool_decide (ann_models ann ≠ [])), (layerQueryable fm (ann_layer ann));
        simpl in Hin;
        repeat (apply elem_of_cons in Hin as [Hin|Hin];
                [by (inversion Hin; subst)|]);
        inversion Hin.
    + intros Hin Hk. simpl in Hin.
      apply list_elem_of_singleton in Hin. inversion Hin.
  - intros Hin Hk. apply list_elem_of_singleton in Hin. inversion Hin.
Qed.

(** ** Zoom to a feature, zoom to features: what the two versions do *)

Lemma mergeInto_cons (b : BBox) (boxes : list BBox) :
  mergeInto None (b :: boxes) = Some (fold_left expandBounds boxes b).
Proof.
  unfold mergeInto. simpl. revert b.
  induction boxes as [|b' bs IH]; intros b; [done|]. simpl. apply IH.
Qed.

Lemma highlightAll_list (features : list Feature) (c : Controller) :
  _highlightedFeatures (highlightAll features c)
  = _highlightedFeatures c ++ features.
Proof.
  revert c. induction features as [|f fs IH]; intros c; simpl.
  - by rewrite app_nil_r.
  - unfold highlightAll in *. rewrite IH. simpl. by rewrite <- app_assoc.
Qed.

Lemma highlightAll_fit (features : list Feature) (c : Controller) :
  fitBoundsCalls (highlightAll features c) = fitBoundsCalls c.
Proof.
  revert c. induction features as [|f fs IH]; intros c; [done|].
  unfold highlightAll in *. simpl. by rewrite IH.
Qed.

Lemma highlightAll_flag (features : list Feature) (c : Controller) (k : FeatureKey) :
  hasFlag k "highlighted" (featureState (highlightAll features c))
  = hasFlag k "highlighted" (featureState c)
    || bool_decide (k ∈ map featureKey features).
Proof.
  revert c. induction features as [|f fs IH]; intros c.
  - change (highlightAll [] c) with c.
    rewrite bool_decide_eq_false_2; [by rewrite orb_false_r|].
    intros H. inversion H.
  - change (highlightAll (f :: fs) c)
      with (highlightAll fs (Viewer.highlightFeature_ f c)).
    rewrite IH. unfold Viewer.highlightFeature_. cbn [featureState set_featureState set_highlightedFeatures map].
    destruct (decide (k = featureKey f)) as [->|Hk].
    + rewrite hasFlag_set_same. simpl. symmetry.
      rewrite bool_decide_eq_true_2 by apply list_elem_of_here.
      apply orb_true_r.
    + rewrite hasFlag_set_other_key by done. f_equal.
      apply bool_decide_ext. rewrite elem_of_cons. naive_solver.
Qed.

Lemma highlightAll_app (fs gs : list Feature) (c : Controller) :
  highlightAll (fs ++ gs) c = highlightAll gs (highlightAll fs c).
Proof. unfold highlightAll. apply fold_left_app. Qed.

Lemma resolved_cons (fm : Flatmap) (id : string) (ids : list string) :
  resolved fm (id :: ids)
  = match annotation fm id with
    | Some p => (id, p) :: resolved fm ids
    | None => resolved fm ids
    end.
Proof. unfold resolved. simpl. by destruct (annotation fm id). Qed.

(** When every resolved record carries its box, the viewer's loop runs to its
    end: the handles are highlighted in turn and the boxes merged. *)
Lemma viewer_zoom_loop (fm : Flatmap) (featureIds : list string)
    (boxes : list BBox) (c : Controller) (bbox : option BBox) :
  map (fun r => ap_bounds (snd r)) (resolved fm featureIds) = map Some boxes ->
  fold_left (Viewer.zoomStep fm) featureIds (Going c (boxValue bbox))
  = Going (highlightAll (map (handleOf fm) (resolved fm featureIds)) c)
          (boxValue (mergeInto bbox boxes)).
Proof.
  revert boxes c bbox.
  induction featureIds as [|id ids IH]; intros boxes c bbox H.
  - destruct boxes; [done|discriminate].
  - change (fold_left (Viewer.zoomStep fm) (id :: ids) (Going c (boxValue bbox)))
      with (fold_left (Viewer.zoomStep fm) ids
              (Viewer.zoomStep fm (Going c (boxValue bbox)) id)).
    remember (Viewer.zoomStep fm (Going c (boxValue bbox)) id) as acc eqn:Ea.
    unfold Viewer.zoomStep in Ea. rewrite resolved_cons in H |- *.
    destruct (annotation fm id) as [p|]; cbn [map fst snd] in *.
    + destruct boxes as [|b boxes']; [discriminate|].
      injection H as Hb Hrest. rewrite Hb in Ea.
      destruct bbox as [bb|]; cbn [boxValue] in Ea; subst acc.
      * exact (IH boxes' _ (Some (expandBounds bb b)) Hrest).
      * exact (IH boxes' _ (Some b) Hrest).
    + subst acc. by apply IH.
Qed.

(** When the box of every feature is there, the annotator's loop runs to its
    end likewise. *)
Lemma annotator_zoom_loop (fm : Flatmap) (features : list Feature)
    (boxes : list BBox) (c : Controller) (bbox : option BBox) :
  map (bounds fm) features = map Some boxes ->
  fold_left (Annotator.zoomStep fm) features (Going c bbox)
  = Going (highlightAll features c) (mergeInto bbox boxes).
Proof.
  revert boxes c bbox.
  induction features as [|f fs IH]; intros boxes c bbox H.
  - destruct boxes; [done|discriminate].
  - destruct boxes as [|b boxes']; [discriminate|].
    simpl in H. injection H as Hb Hrest.
    change (fold_left (Annotator.zoomStep fm) (f :: fs) (Going c bbox))
      with (fold_left (Annotator.zoomStep fm) fs
              (Annotator.zoomStep fm (Going c bbox) f)).
    remember (Annotator.zoomStep fm (Going c bbox) f) as acc eqn:Ea.
    unfold Annotator.zoomStep in Ea. rewrite Hb in Ea. subst acc.
    rewrite (IH boxes' _ _ Hrest). by destruct bbox.
Qed.

(** However the loops end, they have highlighted some features and done
    nothing else to the controller. *)
Lemma viewer_zoom_loop_state (fm : Flatmap) (featureIds : list string)
    (acc : ZoomLoop JsBBox) :
  exists fs, loopState (fold_left (Viewer.zoomStep fm) featureIds acc)
             = highlightAll fs (loopState acc).
Proof.
  revert acc. induction featureIds as [|id ids IH]; intros acc.
  - by exists [].
  - simpl. destruct (IH (Viewer.zoomStep fm acc id)) as [fs E]. rewrite E.
    assert (H : exists fs0, loopState (Viewer.zoomStep fm acc id)
                            = highlightAll fs0 (loopState acc)).
    { unfold Viewer.zoomStep. destruct acc as [c bbox|e c]; [|by exists []].
      destruct (annotation fm id) as [p|]; [|by exists []].
      exists [mapFeature fm (ap_layer p) id].
      by destruct bbox, (ap_bounds p). }
    destruct H as [fs0 E0]. rewrite E0. exists (fs0 ++ fs).
    by rewrite highlightAll_app.
Qed.

Lemma annotator_zoom_loop_state (fm : Flatmap) (features : list Feature)
    (acc : ZoomLoop (option BBox)) :
  exists fs, loopState (fold_left (Annotator.zoomStep fm) features acc)
             = highlightAll fs (loopState acc).
Proof.
  revert acc. induction features as [|f fs' IH]; intros acc.
  - by exists [].
  - simpl. destruct (IH (Annotator.zoomStep fm acc f)) as [fs E]. rewrite E.
    assert (H : exists fs0, loopState (Annotator.zoomStep fm acc f)
                            = highlightAll fs0 (loopState acc)).
    { unfold Annotator.zoomStep. destruct acc as [c bbox|e c]; [|by exists []].
      exists [f]. by destruct (bounds fm f). }
    destruct H as [fs0 E0]. rewrite E0. exists (fs0 ++ fs).
    by rewrite highlightAll_app.
Qed.

(** The controller [zoomToFeatures] leaves, returning or raising: the
    highlights cleared, some features highlighted and, when it returns after
    the loop, one call of [fitBounds]. *)
Lemma viewer_zoomToFeatures_state (fm : Flatmap) (featureIds : list string)
    (padding : Q) (c : Controller) :
  exists fs,
    match Viewer.zoomToFeatures fm featureIds padding c with
    | Returns c' =>
        c' = highlightAll fs (unhighlightFeatures_ c)
        \/ exists bbox,
             c' = map_fitBounds bbox padding false
                    (highlightAll fs (unhighlightFeatures_ c))
    | Throws _ c' => c' = highlightAll fs (unhighlightFeatures_ c)
    end.
Proof.
  unfold Viewer.zoomToFeatures.
  destruct (0 <? length featureIds)%nat; [|exists []; by left].
  destruct (viewer_zoom_loop_state fm featureIds
              (Going (unhighlightFeatures_ c) BBoxNull)) as [fs E].
  exists fs. destruct (fold_left _ _ _) as [c' bbox|e c']; simpl in E.
  - right. exists bbox. by rewrite E.
  - done.
Qed.

Lemma annotator_zoomToFeatures_state (fm : Flatmap) (featureIds : list string)
    (c : Controller) :
  exists fs,
    match Annotator.zoomToFeatures fm featureIds c with
    | Returns c' =>
        c' = highlightAll fs (unhighlightFeatures_ c)
        \/ exists bbox,
             c' = map_fitBounds bbox 100 false
                    (highlightAll fs (unhighlightFeatures_ c))
    | Throws _ c' => c' = highlightAll fs (unhighlightFeatures_ c)
    end.
Proof.
  unfold Annotator.zoomToFeatures.
  destruct (0 <? length featureIds)%nat; [|exists []; by left].
  destruct (0 <? length (queryRenderedFeaturesIn fm featureIds))%nat;
    [|exists []; by left].
  destruct (annotator_zoom_loop_state fm (queryRenderedFeaturesIn fm featureIds)
              (Going (unhighlightFeatures_ c) None)) as [fs E].
  exists fs. destruct (fold_left _ _ _) as [c' bbox|e c']; simpl in E.
  - right. eexists. by rewrite E.
  - done.
Qed.

(** After the highlights are cleared and the features of a list highlighted,
    the tracked list is that list, its members hold the flag, and a formerly
    highlighted feature that is not among them has lost it. *)
Lemma rehighlight_spec (features : list Feature) (c : Controller) :
  let c' := highlightAll features (unhighlightFeatures_ c) in
  _highlightedFeatures c' = features
  /\ (forall h, h ∈ features ->
                hasFlag (featureKey h) "highlighted" (featureState c') = true)
  /\ (forall g, g ∈ _highlightedFeatures c ->
                (forall h, h ∈ features -> featureKey h <> featureKey g) ->
                hasFlag (featureKey g) "highlighted" (featureState c') = false).
Proof.
  intros c'. subst c'. split; [by rewrite highlightAll_list|]. split.
  - intros h Hh. rewrite highlightAll_flag.
    rewrite (bool_decide_eq_true_2 (featureKey h ∈ map featureKey features)).
    + apply orb_true_r.
    + apply list_elem_of_fmap. by exists h.
  - intros g Hg Hfresh. rewrite highlightAll_flag.
    destruct (unhighlightFeatures_clears c) as [_ Hcl]. rewrite (Hcl g Hg).
    simpl. apply bool_decide_eq_false.
    intros (h & Hk & Hh)%list_elem_of_fmap. by apply (Hfresh h Hh).
Qed.

(** C4 (as amended).  Viewer: for a feature whose box [bounds] gives,
    [zoomTo_] hides the menu, clears the highlights, highlights the feature
    and fits the camera to the box with padding 100 and no animation; when
    every annotation record an id resolves to carries its box,
    [zoomToFeatures] clears the highlights, highlights the handle of every id
    that has a record and, when at least one id resolves, fits the camera to
    the merge of the records' boxes with the caller's padding and no
    animation; on an empty id list it fits nothing.  Annotator: for a feature
    whose box [bounds] gives, [zoomTo_] hides the menu and fits the camera to
    the box with padding 100 and no animation and leaves the highlights
    alone; when [bounds] gives the box of every rendered feature the id
    filter selects, [zoomToFeatures] clears the highlights, highlights these
    features and fits the camera to the merge of their boxes with padding
    100, or fits nothing when the id list is empty or the filter selects
    nothing. *)
Theorem zoom_to_spec (fm : Flatmap) (feature : Feature)
    (featureIds : list string) (padding : Q) (c : Controller) :
  (forall box, bounds fm feature = Some box ->
     exists c', Viewer.zoomTo_ fm feature c = Returns c'
                /\ contextMenu c' = None
                /\ rehighlighted [feature] c c'
                /\ fitted [box] 100 c c')
  /\ (let rs := resolved fm featureIds in
      forall boxes, map (fun r => ap_bounds (snd r)) rs = map Some boxes ->
        exists c', Viewer.zoomToFeatures fm featureIds padding c = Returns c'
                   /\ rehighlighted (map (handleOf fm) rs) c c'
                   /\ (featureIds = [] -> fitted [] padding c c')
                   /\ (rs <> [] -> fitted boxes padding c c'))
  /\ (forall box, bounds fm feature = Some box ->
        exists c', Annotator.zoomTo_ fm feature c = Returns c'
                   /\ contextMenu c' = None
                   /\ _highlightedFeatures c' = _highlightedFeatures c
                   /\ featureState c' = featureState c
                   /\ fitted [box] 100 c c')
  /\ (let fs := match featureIds with
                | [] => []
                | _ :: _ => queryRenderedFeaturesIn fm featureIds
                end in
      forall boxes, map (bounds fm) fs = map Some boxes ->
        exists c', Annotator.zoomToFeatures fm featureIds c = Returns c'
                   /\ rehighlighted fs c c'
                   /\ fitted boxes 100 c c').
Proof.
  split; [|split; [|split]].
  - intros box Hbox. unfold Viewer.zoomTo_.
    rewrite Hbox, contextMenu_hide_eq. eexists. split; [reflexivity|].
    split; [done|]. split; [|reflexivity].
    exact (rehighlight_spec [feature] (set_modal _ (set_contextMenu None c))).
  - intros rs boxes Hboxes. unfold Viewer.zoomToFeatures.
    destruct featureIds as [|id ids].
    + simpl. eexists. split; [reflexivity|].
      split; [exact (rehighlight_spec [] c)|]. by split.
    + change (0 <? length (id :: ids))%nat with true. cbv iota zeta.
      rewrite (viewer_zoom_loop fm (id :: ids) boxes _ None Hboxes). fold rs.
      eexists. split; [reflexivity|].
      split; [exact (rehighlight_spec (map (handleOf fm) rs) c)|].
      split; [done|]. intros Hrs.
      destruct boxes as [|b bs]; [by destruct rs|].
      unfold fitted, map_fitBounds. cbn [fitBoundsCalls set_fitBoundsCalls].
      rewrite mergeInto_cons, highlightAll_fit. reflexivity.
  - intros box Hbox. unfold Annotator.zoomTo_.
    rewrite Hbox, contextMenu_hide_eq. eexists. split; [reflexivity|].
    repeat split.
  - intros fs boxes Hboxes. unfold Annotator.zoomToFeatures.
    destruct featureIds as [|id ids].
    + simpl. subst fs. destruct boxes; [|discriminate].
      eexists. split; [reflexivity|]. split; [exact (rehighlight_spec [] c)|done].
    + change (0 <? length (id :: ids))%nat with true. cbv iota zeta.
      subst fs. destruct (queryRenderedFeaturesIn fm (id :: ids)) as [|f fs'].
      * simpl. destruct boxes; [|discriminate].
        eexists. split; [reflexivity|].
        split; [exact (rehighlight_spec [] c)|done].
      * change (0 <? length (f :: fs'))%nat with true. cbv iota.
        rewrite (annotator_zoom_loop fm (f :: fs') boxes _ None Hboxes).
        eexists. split; [reflexivity|].
        split; [exact (rehighlight_spec (f :: fs') c)|].
        destruct boxes as [|b bs]; [discriminate|].
        unfold fitted, map_fitBounds. cbn [fitBoundsCalls set_fitBoundsCalls].
        rewrite mergeInto_cons, highlightAll_fit. reflexivity.
Qed.

Lemma zoom_to_spec_witness :
  let fm := Examples.flatmap in
  let c := Viewer.constructor fm in
  map (fun r => ap_bounds (snd r)) (resolved fm ["f1"; "f3"])
  = map Some [mkBBox 0 0 10 10; mkBBox 5 5 20 20]
  /\ resolved fm ["f1"; "f3"] <> []
  /\ exists c', Viewer.zoomToFeatures fm ["f1"; "f3"] Viewer.defaultPadding c
                = Returns c'
                /\ _highlightedFeatures c'
                   = [Examples.handle "organs" "f1"; Examples.handle "organs" "f3"]
                /\ fitBoundsCalls c'
                   = [mkFitCall (BBoxOf (mkBBox 0 0 20 20)) 100 false].
Proof.
  intros fm c.
  assert (Hboxes : map (fun r => ap_bounds (snd r)) (resolved fm ["f1"; "f3"])
                   = map Some [mkBBox 0 0 10 10; mkBBox 5 5 20 20])
    by (vm_compute; reflexivity).
  assert (Hrs : resolved fm ["f1"; "f3"] <> []) by (vm_compute; discriminate).
  destruct (zoom_to_spec fm Examples.featureA ["f1"; "f3"] Viewer.defaultPadding c)
    as (_ & Hv & _).
  destruct (Hv _ Hboxes) as (c' & E & Hhl & _ & Hfit).
  split; [exact Hboxes|]. split; [exact Hrs|].
  exists c'. split; [exact E|]. split.
  - exact (proj1 Hhl).
  - exact (Hfit Hrs).
Defined.

(** Annotator: with [A] highlighted, [zoomTo_] on [B] returns and leaves [A]
    highlighted and [B] not.  Annotator: an id that has an annotation record
    and no rendered feature is neither highlighted nor fitted.  Viewer: for
    an id without annotation record [fitBounds] is called all the same, on
    [null]. *)
Lemma zoom_to_counterexample :
  let fm := Examples.flatmap in
  let c := afterOutcome (Annotator.zoomToFeatures fm ["A"] (Annotator.constructor fm)) in
  let c' := afterOutcome (Annotator.zoomTo_ fm Examples.featureB c) in
  _highlightedFeatures c = [Examples.featureA]
  /\ Annotator.zoomTo_ fm Examples.featureB c = Returns c'
  /\ _highlightedFeatures c' = [Examples.featureA]
  /\ hasFlag (featureKey Examples.featureA) "highlighted" (featureState c') = true
  /\ hasFlag (featureKey Examples.featureB) "highlighted" (featureState c') = false
  /\ (is_Some (annotation fm "f1")
      /\ Annotator.zoomToFeatures fm ["f1"] c'
         = Returns (afterOutcome (Annotator.zoomToFeatures fm ["f1"] c'))
      /\ _highlightedFeatures (afterOutcome (Annotator.zoomToFeatures fm ["f1"] c')) = []
      /\ fitBoundsCalls (afterOutcome (Annotator.zoomToFeatures fm ["f1"] c'))
         = fitBoundsCalls c')
  /\ (annotation fm "zz" = None
      /\ Viewer.zoomToFeatures fm ["zz"] Viewer.defaultPadding (Viewer.constructor fm)
         = Returns (afterOutcome
                      (Viewer.zoomToFeatures fm ["zz"] Viewer.defaultPadding
                         (Viewer.constructor fm)))
      /\ fitBoundsCalls
           (afterOutcome
              (Viewer.zoomToFeatures fm ["zz"] Viewer.defaultPadding
                 (Viewer.constructor fm)))
         = [mkFitCall BBoxNull 100 false]).
Proof.
  vm_compute. repeat split; eauto.
Qed.

(** ** Click handling in the annotator *)

(** No method assigns [_layerSwitcher]: it stays as the constructor left
    it. *)
Lemma unselect_switcher (reset : bool) (c : Controller) :
  _layerSwitcher (unselectFeatures_ reset c) = _layerSwitcher c.
Proof. unfold unselectFeatures_. by repeat case_match. Qed.

Lemma select_switcher (f : Feature) (c : Controller) :
  _layerSwitcher (selectFeature_ f c) = _layerSwitcher c.
Proof. unfold selectFeature_. simpl. apply unselect_switcher. Qed.

Lemma showTooltip_switcher (fm : Flatmap) (pos : LngLat) (f : Feature)
    (c : Controller) :
  _layerSwitcher (snd (Annotator.showTooltip_ fm pos f c)) = _layerSwitcher c.
Proof.
  unfold Annotator.showTooltip_. cbn [snd fst].
  repeat case_match; simpl; apply unselect_switcher.
Qed.


Lemma clear_switcher (c1 : Controller) :
  _layerSwitcher
    (unselectFeatures_ true
       (Annotator.tooltip_hide
          (if negb (_inQuery c1) then set_cursor "" c1 else c1)))
  = _layerSwitcher c1.
Proof. rewrite unselect_switcher. by destruct (negb (_inQuery c1)). Qed.

Lemma mouseMove_switcher (fm : Flatmap) (e : MapEvent) (c : Controller) :
  _layerSwitcher (Annotator.mouseMoveEvent_ fm e c) = _layerSwitcher c.
Proof.
  unfold Annotator.mouseMoveEvent_. destruct (_modal c); [done|]. cbv zeta.
  match goal with
  | |- context [match ?x with Some _ => _ | None => _ end] =>
      lazymatch x with
      | match _ with Some _ => _ | None => _ end => destruct x as [f|]
      end
  end.
  - pose proof (showTooltip_switcher fm (lngLat e) f c) as Hs.
    destruct (Annotator.showTooltip_ fm (lngLat e) f c) as [r c1].
    cbn [fst snd] in *. destruct r; [done|]. by rewrite clear_switcher.
  - apply clear_switcher.
Qed.

Lemma showMenu_switcher (pos : LngLat) (items : list MenuEntry) (c : Controller) :
  _layerSwitcher (showMenu pos items c) = _layerSwitcher c.
Proof. unfold showMenu. by destruct (0 <? length items)%nat. Qed.

Lemma contextMenu_switcher (fm : Flatmap) (e : MapEvent) (now : Z)
    (c : Controller) :
  _layerSwitcher (Annotator.contextMenuEvent_ fm e now c) = _layerSwitcher c.
Proof.
  unfold Annotator.contextMenuEvent_.
  destruct (now <? _lastContextTime c + 100)%Z; [done|]. cbv zeta.
  destruct (smallestAnnotatedPolygonFeature_ _ _ _) as [f|]; [|done].
  rewrite showMenu_switcher. simpl. by rewrite unselect_switcher.
Qed.

Lemma highlightAll_switcher (fs : list Feature) (c : Controller) :
  _layerSwitcher (highlightAll fs c) = _layerSwitcher c.
Proof.
  revert c. induction fs as [|f fs IH]; intros c; [done|].
  unfold highlightAll in *. simpl. by rewrite IH.
Qed.

Lemma zoomToFeatures_switcher (fm : Flatmap) (ids : list string)
    (c : Controller) :
  _layerSwitcher (afterOutcome (Annotator.zoomToFeatures fm ids c))
  = _layerSwitcher c.
Proof.
  destruct (annotator_zoomToFeatures_state fm ids c) as [fs H].
  destruct (Annotator.zoomToFeatures fm ids c) as [c'|e c']; simpl.
  - destruct H as [-> | [bbox ->]]; simpl; by rewrite highlightAll_switcher.
  - subst c'. by rewrite highlightAll_switcher.
Qed.

Lemma zoomTo_switcher (fm : Flatmap) (f : Feature) (c : Controller) :
  _layerSwitcher (afterOutcome (Annotator.zoomTo_ fm f c)) = _layerSwitcher c.
Proof.
  unfold Annotator.zoomTo_. rewrite contextMenu_hide_eq.
  by destruct (bounds fm f).
Qed.

Lemma query_switcher (fm : Flatmap) (kind featureId : string) (c : Controller) :
  _layerSwitcher (afterOutcome (Annotator.query_ fm kind featureId c))
  = _layerSwitcher c.
Proof.
  unfold Annotator.query_, queryData_. rewrite contextMenu_hide_eq.
  destruct (String.eqb kind "data").
  - by destruct (0 <? length (modelsForFeature fm featureId))%nat.
  - by destruct (getAnnotation fm featureId).
Qed.

Lemma click_switcher (fm : Flatmap) (e : MapEvent) (c : Controller) :
  _layerSwitcher (afterOutcome (Annotator.clickEvent_ fm e c)) = _layerSwitcher c.
Proof.
  unfold Annotator.clickEvent_. destruct (_layerSwitcher c) eqn:E; [|done].
  simpl. destruct (Annotator.smallestAnnotatedPolygonAtEvent_ fm e c) as [f|]; [|done].
  unfold queryData_. case_match; simpl; by rewrite unselect_switcher.
Qed.

Lemma annotatorCall_switcher (fm : Flatmap) (c : Controller)
    (call : AnnotatorCall) :
  _layerSwitcher (annotatorCall fm c call) = _layerSwitcher c.
Proof.
  destruct call; simpl.
  - apply mouseMove_switcher.
  - apply contextMenu_switcher.
  - done.
  - done.
  - unfold Annotator.touchEndEvent, touchEnd. destruct (longTouch now c); [|done].
    apply contextMenu_switcher.
  - apply click_switcher.
  - apply query_switcher.
  - apply zoomTo_switcher.
  - apply zoomToFeatures_switcher.
  - done.
  - by rewrite contextMenu_hide_eq.
Qed.

Lemma annotatorRun_switcher (fm : Flatmap) (calls : list AnnotatorCall) :
  _layerSwitcher (annotatorRun fm calls) = None.
Proof.
  unfold annotatorRun. induction calls as [|call calls IH] using rev_ind; [done|].
  rewrite fold_left_app. simpl. by rewrite annotatorCall_switcher.
Qed.

(** C7 (the code at the failing inputs).  On an annotator, freshly
    constructed or after any sequence of calls, every click raises a
    [TypeError] at the first statement of [clickEvent_], before anything is
    resolved, selected or unhighlighted. *)
Theorem annotator_click_raises (fm : Flatmap) (calls : list AnnotatorCall)
    (event : MapEvent) :
  Annotator.clickEvent_ fm event (annotatorRun fm calls)
  = Throws (TypeError "this._layerSwitcher is undefined") (annotatorRun fm calls).
Proof.
  unfold Annotator.clickEvent_. by rewrite annotatorRun_switcher.
Qed.

(* ===================================================================== *)
(** * Further properties *)
(* ===================================================================== *)

(** ** Who holds a flag, method by method *)

Lemma flagsAgree_refl (flag : string) (c : Controller) : flagsAgree flag c c.
Proof. by intros k. Qed.

Lemma flagsAgree_trans (flag : string) (c1 c2 c3 : Controller) :
  flagsAgree flag c1 c2 -> flagsAgree flag c2 c3 -> flagsAgree flag c1 c3.
Proof. intros H1 H2 k. by rewrite H2, H1. Qed.

Lemma flagsAgree_store (flag : string) (c c' : Controller) :
  featureState c' = featureState c -> flagsAgree flag c c'.
Proof. intros E k. by rewrite E. Qed.

Lemma unselect_flagsAgree (flag : string) (reset : bool) (c : Controller) :
  flag <> "selected" -> flagsAgree flag c (unselectFeatures_ reset c).
Proof.
  intros Hf k. unfold unselectFeatures_.
  destruct (_selectedFeature c) as [g|]; [|done].
  destruct reset; simpl; by rewrite hasFlag_remove_other_flag.
Qed.

Lemma select_flagsAgree (flag : string) (f : Feature) (c : Controller) :
  flag <> "selected" -> flagsAgree flag c (selectFeature_ f c).
Proof.
  intros Hf k. unfold selectFeature_. simpl.
  rewrite hasFlag_set_other_flag by done. by apply unselect_flagsAgree.
Qed.

Lemma unhighlight_flagsAgree (flag : string) (c : Controller) :
  flag <> "highlighted" -> flagsAgree flag c (unhighlightFeatures_ c).
Proof.
  intros Hf k. unfold unhighlightFeatures_. simpl.
  generalize (featureState c).
  induction (_highlightedFeatures c) as [|f fs IH]; intros st; [done|].
  simpl. rewrite IH. by apply hasFlag_remove_other_flag.
Qed.

Lemma highlightAll_flagsAgree (flag : string) (fs : list Feature) (c : Controller) :
  flag <> "highlighted" -> flagsAgree flag c (highlightAll fs c).
Proof.
  intros Hf k. revert c. induction fs as [|f fs IH]; intros c; [done|].
  change (highlightAll (f :: fs) c)
    with (highlightAll fs (Viewer.highlightFeature_ f c)).
  rewrite IH. unfold Viewer.highlightFeature_. simpl.
  by apply hasFlag_set_other_flag.
Qed.

(** ** The flags and the records of them *)

(** [flagsExact] reads the store and the three records only. *)
Lemma flagsExact_ext (c c' : Controller) :
  featureState c' = featureState c ->
  _selectedFeature c' = _selectedFeature c ->
  _highlightedFeatures c' = _highlightedFeatures c ->
  _activeFeature c' = _activeFeature c ->
  flagsExact c -> flagsExact c'.
Proof.
  intros Es Er Eh Ea (Hs & Hh & Ha).
  unfold flagsExact, selectionExact, highlightExact, activeExact.
  rewrite Es, Er, Eh, Ea. done.
Qed.

Lemma unselect_records (reset : bool) (c : Controller) :
  _highlightedFeatures (unselectFeatures_ reset c) = _highlightedFeatures c
  /\ _activeFeature (unselectFeatures_ reset c) = _activeFeature c.
Proof.
  unfold unselectFeatures_. destruct (_selectedFeature c); [|done].
  by destruct reset.
Qed.

Lemma selectionExact_consistent (c : Controller) :
  selectionExact c -> selectionConsistent c.
Proof. intros H k Hk. by apply H. Qed.

Lemma flagsExact_select (f : Feature) (c : Controller) :
  flagsExact c -> flagsExact (selectFeature_ f c).
Proof.
  intros (Hs & Hh & Ha). destruct (unselect_records false c) as [Eh Ea].
  split; [|split]; intros k.
  - rewrite select_flags by by apply selectionExact_consistent.
    rewrite bool_decide_eq_true. simpl. split.
    + intros ->. by exists f.
    + intros (g & Hg & <-). by injection Hg as ->.
  - rewrite (select_flagsAgree "highlighted" f c) by done.
    change (_highlightedFeatures (selectFeature_ f c))
      with (_highlightedFeatures (unselectFeatures_ false c)).
    rewrite Eh. apply Hh.
  - rewrite (select_flagsAgree "active" f c) by done.
    change (_activeFeature (selectFeature_ f c))
      with (_activeFeature (unselectFeatures_ false c)).
    rewrite Ea. apply Ha.
Qed.

Lemma flagsExact_unselect (c : Controller) :
  flagsExact c -> flagsExact (unselectFeatures_ true c).
Proof.
  intros (Hs & Hh & Ha). destruct (unselect_records true c) as [Eh Ea].
  split; [|split]; intros k.
  - rewrite unselect_clears by by apply selectionExact_consistent.
    rewrite unselect_reference. split; [done|]. by intros (g & Hg & _).
  - rewrite (unselect_flagsAgree "highlighted" true c) by done.
    rewrite Eh. apply Hh.
  - rewrite (unselect_flagsAgree "active" true c) by done.
    rewrite Ea. apply Ha.
Qed.

Lemma flagsExact_unhighlight (c : Controller) :
  flagsExact c -> flagsExact (unhighlightFeatures_ c).
Proof.
  intros (Hs & Hh & Ha). split; [|split]; intros k.
  - rewrite (unhighlight_flagsAgree "selected" c) by done. apply Hs.
  - split.
    + intros Hk. exfalso.
      assert (Hbefore : hasFlag k "highlighted" (featureState c) = true)
        by (by apply unhighlight_fold_le in Hk).
      apply Hh in Hbefore as (f & Hf & <-).
      destruct (unhighlightFeatures_clears c) as [_ Hcl].
      rewrite (Hcl f Hf) in Hk. discriminate.
    + intros (f & Hf & _). inversion Hf.
  - rewrite (unhighlight_flagsAgree "active" c) by done. apply Ha.
Qed.

Lemma highlightAll_records (fs : list Feature) (c : Controller) :
  _selectedFeature (highlightAll fs c) = _selectedFeature c
  /\ _activeFeature (highlightAll fs c) = _activeFeature c.
Proof.
  revert c. induction fs as [|f fs IH]; intros c; [done|].
  change (highlightAll (f :: fs) c)
    with (highlightAll fs (Viewer.highlightFeature_ f c)).
  destruct (IH (Viewer.highlightFeature_ f c)) as [-> ->]. done.
Qed.

Lemma flagsExact_highlightAll (fs : list Feature) (c : Controller) :
  flagsExact c -> flagsExact (highlightAll fs c).
Proof.
  intros (Hs & Hh & Ha). destruct (highlightAll_records fs c) as [Er Ea].
  split; [|split]; intros k.
  - rewrite (highlightAll_flagsAgree "selected" fs c) by done.
    rewrite Er. apply Hs.
  - rewrite highlightAll_flag, highlightAll_list, orb_true_iff.
    rewrite bool_decide_eq_true, list_elem_of_fmap. split.
    + intros [Hk|(f & -> & Hf)].
      * apply Hh in Hk as (f & Hf & <-). exists f. split; [|done].
        apply elem_of_app. by left.
      * exists f. split; [|done]. apply elem_of_app. by right.
    + intros (f & [Hf|Hf]%elem_of_app & <-).
      * left. apply Hh. by exists f.
      * right. by exists f.
  - rewrite (highlightAll_flagsAgree "active" fs c) by done.
    rewrite Ea. apply Ha.
Qed.

Lemma flagsExact_highlight (f : Feature) (c : Controller) :
  flagsExact c -> flagsExact (Viewer.highlightFeature_ f c).
Proof. exact (flagsExact_highlightAll [f] c). Qed.

(** A step of the proofs below: take the outermost operation off a
    controller expression. *)
Ltac flags_step :=
  lazymatch goal with
  | |- flagsExact (selectFeature_ _ _) => apply flagsExact_select
  | |- flagsExact (unselectFeatures_ true _) => apply flagsExact_unselect
  | |- flagsExact (unhighlightFeatures_ _) => apply flagsExact_unhighlight
  | |- flagsExact (Viewer.highlightFeature_ _ _) => apply flagsExact_highlight
  | |- flagsExact (highlightAll _ _) => apply flagsExact_highlightAll
  | |- flagsExact (if ?b then _ else _) => destruct b
  | |- flagsExact (match ?x with _ => _ end) => destruct x
  | |- flagsExact (?f ?c) => apply (flagsExact_ext c); [reflexivity..|]
  | |- flagsExact (?f _ ?c) => apply (flagsExact_ext c); [reflexivity..|]
  | |- flagsExact (?f _ _ ?c) => apply (flagsExact_ext c); [reflexivity..|]
  | |- flagsExact (?f _ _ _ ?c) => apply (flagsExact_ext c); [reflexivity..|]
  end.

Lemma flagsExact_showTooltip (fm : Flatmap) (pos : LngLat) (f : Feature)
    (c : Controller) :
  flagsExact c -> flagsExact (snd (Annotator.showTooltip_ fm pos f c)).
Proof.
  intros H. unfold Annotator.showTooltip_. cbn [fst snd].
  set (c1 := selectFeature_ f c).
  assert (H1 : flagsExact c1) by by apply flagsExact_select.
  clearbody c1. unfold Annotator.tooltip_show.
  destruct (annotating c1);
    destruct (getAnnotationOf fm (p_id (properties f))) as [ann|];
    cbn [fst snd]; try (destruct (ann_models ann));
    try (destruct (layerQueryable fm (ann_layer ann)));
    cbn [fst snd andb]; repeat flags_step; done.
Qed.

Lemma flagsExact_annotator_mouseMove (fm : Flatmap) (e : MapEvent) (c : Controller) :
  flagsExact c -> flagsExact (Annotator.mouseMoveEvent_ fm e c).
Proof.
  intros H. unfold Annotator.mouseMoveEvent_.
  destruct (_modal c); [done|]. cbv zeta.
  match goal with
  | |- context [match ?x with Some _ => _ | None => _ end] =>
      lazymatch x with
      | match _ with Some _ => _ | None => _ end => destruct x as [f|]
      end
  end.
  - pose proof (flagsExact_showTooltip fm (lngLat e) f c H) as Hs.
    destruct (Annotator.showTooltip_ fm (lngLat e) f c) as [r c1].
    cbn [fst snd] in *. destruct r; [done|].
    unfold Annotator.tooltip_hide. repeat flags_step; done.
  - unfold Annotator.tooltip_hide. repeat flags_step; done.
Qed.

Lemma flagsExact_showMenu (pos : LngLat) (items : list MenuEntry) (c : Controller) :
  flagsExact c -> flagsExact (showMenu pos items c).
Proof. intros H. unfold showMenu. repeat flags_step; done. Qed.

Lemma flagsExact_annotator_contextMenu (fm : Flatmap) (e : MapEvent) (now : Z)
    (c : Controller) :
  flagsExact c -> flagsExact (Annotator.contextMenuEvent_ fm e now c).
Proof.
  intros H. unfold Annotator.contextMenuEvent_.
  destruct (now <? _lastContextTime c + 100)%Z; [done|]. cbv zeta.
  destruct (smallestAnnotatedPolygonFeature_ _ _ _) as [f|].
  - apply flagsExact_showMenu. unfold Annotator.tooltip_hide.
    repeat flags_step; done.
  - repeat flags_step; done.
Qed.

Lemma flagsExact_viewer_contextMenu (fm : Flatmap) (e : MapEvent) (now : Z)
    (c : Controller) :
  flagsExact c -> flagsExact (Viewer.contextMenuEvent_ fm e now c).
Proof.
  intros H. unfold Viewer.contextMenuEvent_.
  destruct (now <? _lastContextTime c + 100)%Z; [done|]. cbv zeta.
  destruct (smallestAnnotatedPolygonFeature_ _ _ _) as [f|].
  - apply flagsExact_showMenu. repeat flags_step; done.
  - repeat flags_step; done.
Qed.

Lemma flagsExact_queryData (models : list string) (c : Controller) :
  flagsExact c -> flagsExact (queryData_ models c).
Proof. intros H. unfold queryData_. repeat flags_step; done. Qed.

Lemma flagsExact_annotator_query (fm : Flatmap) (kind featureId : string)
    (c : Controller) :
  flagsExact c -> flagsExact (afterOutcome (Annotator.query_ fm kind featureId c)).
Proof.
  intros H. unfold Annotator.query_. rewrite contextMenu_hide_eq.
  destruct (String.eqb kind "data"); cbn [afterOutcome].
  - flags_step. apply flagsExact_queryData. repeat flags_step; done.
  - destruct (getAnnotation fm featureId); cbn [afterOutcome];
      repeat flags_step; done.
Qed.

Lemma flagsExact_viewer_query (fm : Flatmap) (kind featureId : string)
    (c : Controller) :
  flagsExact c -> flagsExact (Viewer.query_ fm kind featureId c).
Proof.
  intros H. unfold Viewer.query_. rewrite contextMenu_hide_eq.
  destruct (String.eqb kind "data").
  - flags_step. apply flagsExact_queryData. repeat flags_step; done.
  - repeat flags_step; done.
Qed.

Lemma flagsExact_annotator_click (fm : Flatmap) (e : MapEvent) (c : Controller) :
  flagsExact c -> flagsExact (afterOutcome (Annotator.clickEvent_ fm e c)).
Proof.
  intros H. unfold Annotator.clickEvent_.
  destruct (_layerSwitcher c); cbn [afterOutcome]; [|done].
  apply flagsExact_unhighlight.
  destruct (Annotator.smallestAnnotatedPolygonAtEvent_ fm e c) as [f|]; [|done].
  apply flagsExact_queryData. by apply flagsExact_select.
Qed.

Lemma flagsExact_annotator_zoomToFeatures (fm : Flatmap) (ids : list string)
    (c : Controller) :
  flagsExact c -> flagsExact (afterOutcome (Annotator.zoomToFeatures fm ids c)).
Proof.
  intros H. destruct (annotator_zoomToFeatures_state fm ids c) as [fs Hst].
  destruct (Annotator.zoomToFeatures fm ids c) as [c'|e c']; cbn [afterOutcome].
  - destruct Hst as [-> | [bbox ->]]; unfold map_fitBounds;
      repeat flags_step; done.
  - subst c'. repeat flags_step; done.
Qed.

Lemma flagsExact_viewer_zoomToFeatures (fm : Flatmap) (ids : list string)
    (padding : Q) (c : Controller) :
  flagsExact c ->
  flagsExact (afterOutcome (Viewer.zoomToFeatures fm ids padding c)).
Proof.
  intros H. destruct (viewer_zoomToFeatures_state fm ids padding c) as [fs Hst].
  destruct (Viewer.zoomToFeatures fm ids padding c) as [c'|e c'];
    cbn [afterOutcome].
  - destruct Hst as [-> | [bbox ->]]; unfold map_fitBounds;
      repeat flags_step; done.
  - subst c'. repeat flags_step; done.
Qed.

Lemma flagsExact_viewer_zoomTo (fm : Flatmap) (f : Feature) (c : Controller) :
  flagsExact c -> flagsExact (afterOutcome (Viewer.zoomTo_ fm f c)).
Proof.
  intros H. unfold Viewer.zoomTo_, map_fitBounds. rewrite contextMenu_hide_eq.
  destruct (bounds fm f); cbn [afterOutcome]; repeat flags_step; done.
Qed.

(** The viewer's mouse move takes the [active] flag from the recorded
    feature and gives it to the new one, if any. *)
Lemma flagsExact_activate (f : Feature) (c : Controller) :
  flagsExact c -> _activeFeature c = None ->
  flagsExact
    (set_featureState (setFeatureState f "active" (featureState c))
                      (set_activeFeature (Some f) c)).
Proof.
  intros (Hs & Hh & Ha) Hn. split; [|split]; intros k; simpl.
  - rewrite hasFlag_set_other_flag by done. apply Hs.
  - rewrite hasFlag_set_other_flag by done. apply Hh.
  - destruct (decide (k = featureKey f)) as [->|Hk].
    + rewrite hasFlag_set_same. split; [|done]. intros _. by exists f.
    + rewrite hasFlag_set_other_key by done. split.
      * intros (g & Hg & _)%Ha. congruence.
      * intros (g & Hg & <-). by injection Hg as ->.
Qed.

Lemma flagsExact_deactivate (c : Controller) :
  flagsExact c ->
  flagsExact
    match _activeFeature c with
    | Some f =>
        set_activeFeature None
          (set_featureState (removeFeatureState f "active" (featureState c)) c)
    | None => c
    end
  /\ _activeFeature
       match _activeFeature c with
       | Some f =>
           set_activeFeature None
             (set_featureState (removeFeatureState f "active" (featureState c)) c)
       | None => c
       end = None.
Proof.
  intros (Hs & Hh & Ha). destruct (_activeFeature c) as [f|] eqn:Hf; [|done].
  split; [|done]. split; [|split]; intros k; simpl.
  - rewrite hasFlag_remove_other_flag by done. apply Hs.
  - rewrite hasFlag_remove_other_flag by done. apply Hh.
  - split; [|by intros (g & Hg & _)]. intros Hk. exfalso.
    destruct (decide (k = featureKey f)) as [->|Hne].
    + by rewrite hasFlag_remove_same in Hk.
    + rewrite hasFlag_remove_other_key in Hk by done.
      apply Ha in Hk as (g & Hg & <-). congruence.
Qed.

Lemma flagsExact_viewer_mouseMove (fm : Flatmap) (e : MapEvent) (c : Controller) :
  flagsExact c -> flagsExact (Viewer.mouseMoveEvent_ fm e c).
Proof.
  intros H. unfold Viewer.mouseMoveEvent_.
  set (c1 := set_cursor "default" (Viewer.removeTooltip_ c)).
  assert (H1 : flagsExact c1).
  { subst c1. unfold Viewer.removeTooltip_. repeat flags_step; done. }
  clearbody c1. cbv zeta.
  destruct (flagsExact_deactivate c1 H1) as [H2 Hn].
  set (c2 := match _activeFeature c1 with Some _ => _ | None => _ end) in *.
  clearbody c2.
  destruct (queryRenderedFeatures fm (point e)) as [|x xs]; [done|].
  set (html := match _infoControl c2 with Some _ => _ | None => _ end).
  clearbody html.
  destruct (String.eqb html ""); cbn [fst snd].
  - destruct (Viewer.sortByArea _) as [|f fs]; cbn [fst snd].
    + repeat flags_step; done.
    + pose proof (flagsExact_activate f c2 H2 Hn) as H3.
      destruct (String.eqb (layer_type (layer f)) "symbol"); cbn [fst snd].
      * repeat flags_step; done.
      * destruct (opt_tooltips fm); cbn [fst snd]; repeat flags_step; done.
  - repeat flags_step; done.
Qed.

Lemma flagsExact_constructor (fm : Flatmap) (c : Controller) :
  c = Annotator.constructor fm \/ c = Viewer.constructor fm -> flagsExact c.
Proof.
  intros [-> | ->]; (split; [|split]); intros k; simpl;
    (rewrite flagAnnotations_other by done); rewrite hasFlag_empty;
    (split; [done|]); intros (f & Hf & _); by inversion Hf.
Qed.

Lemma flagsExact_annotatorCall (fm : Flatmap) (c : Controller) (call : AnnotatorCall) :
  flagsExact c -> flagsExact (annotatorCall fm c call).
Proof.
  intros H. destruct call; cbn [annotatorCall].
  - by apply flagsExact_annotator_mouseMove.
  - by apply flagsExact_annotator_contextMenu.
  - unfold contextMenuClosed_. repeat flags_step; done.
  - unfold Annotator.touchStartEvent, touchStart. repeat flags_step; done.
  - unfold Annotator.touchEndEvent, touchEnd. destruct (longTouch now c); [|done].
    by apply flagsExact_annotator_contextMenu.
  - by apply flagsExact_annotator_click.
  - by apply flagsExact_annotator_query.
  - unfold Annotator.zoomTo_, map_fitBounds. rewrite contextMenu_hide_eq.
    destruct (bounds fm feature); cbn [afterOutcome]; repeat flags_step; done.
  - by apply flagsExact_annotator_zoomToFeatures.
  - by apply flagsExact_unhighlight.
  - rewrite contextMenu_hide_eq. repeat flags_step; done.
Qed.

Lemma annotatorRun_flagsExact (fm : Flatmap) (calls : list AnnotatorCall) :
  flagsExact (annotatorRun fm calls).
Proof.
  unfold annotatorRun.
  induction calls as [|call calls IH] using rev_ind.
  - apply (flagsExact_constructor fm). by left.
  - rewrite fold_left_app. by apply flagsExact_annotatorCall.
Qed.

Lemma featureEvents_fold (name : string) (fs : list Feature) (s : Viewer.State) :
  let s' := fold_left (fun s feature => Viewer.flatmap_featureEvent name feature s)
                      fs s in
  Viewer.controller s' = Viewer.controller s
  /\ Viewer._lastClickedLocation s' = Viewer._lastClickedLocation s
  /\ Viewer._currentPopup s' = Viewer._currentPopup s
  /\ Viewer.popupsOnMap s' = Viewer.popupsOnMap s
  /\ Viewer.popupsCreated s' = Viewer.popupsCreated s
  /\ Viewer.panToCalls s' = Viewer.panToCalls s
  /\ Viewer.featureEvents s'
     = rev (map (fun f => (name, f)) fs) ++ Viewer.featureEvents s.
Proof.
  revert s. induction fs as [|f fs IH]; intros s; [done|].
  cbn [fold_left]. destruct (IH (Viewer.flatmap_featureEvent name f s))
    as (-> & -> & -> & -> & -> & -> & ->).
  repeat split. simpl. by rewrite <- app_assoc.
Qed.

Lemma viewer_click_controller (fm : Flatmap) (e : MapEvent) (s : Viewer.State) :
  Viewer.controller (Viewer.clickEvent_ fm e s) = Viewer.controller s
  /\ Viewer._currentPopup (Viewer.clickEvent_ fm e s) = Viewer._currentPopup s
  /\ Viewer.popupsOnMap (Viewer.clickEvent_ fm e s) = Viewer.popupsOnMap s
  /\ Viewer.popupsCreated (Viewer.clickEvent_ fm e s) = Viewer.popupsCreated s
  /\ Viewer.panToCalls (Viewer.clickEvent_ fm e s) = Viewer.panToCalls s.
Proof.
  unfold Viewer.clickEvent_.
  destruct (0 <? length _)%nat; [|done].
  match goal with
  | |- context [fold_left _ ?l ?s0] =>
      destruct (featureEvents_fold "click" l s0) as (-> & _ & -> & -> & -> & -> & _)
  end. done.
Qed.

Lemma viewer_showPopup_controller (fm : Flatmap) (inView : LngLat -> bool)
    (featureId : string) (content : Viewer.JsContent) (options : string)
    (s : Viewer.State) :
  Viewer.controller (Viewer.showPopup fm inView featureId content options s)
  = match annotation fm featureId with
    | Some properties =>
        Viewer.highlightFeature_ (mapFeature fm (ap_layer properties) featureId)
          (unhighlightFeatures_ (Viewer.controller s))
    | None => Viewer.controller s
    end.
Proof.
  unfold Viewer.showPopup. destruct (annotation fm featureId) as [p|]; [|done].
  destruct (Viewer._currentPopup s); cbn;
    match goal with |- context [if ?b then _ else _] => destruct b end; done.
Qed.

Lemma flagsExact_viewerCall (fm : Flatmap) (s : Viewer.State) (call : ViewerCall) :
  flagsExact (Viewer.controller s) ->
  flagsExact (Viewer.controller (viewerCall fm s call)).
Proof.
  intros H. destruct call; cbn [viewerCall Viewer.onController Viewer.controller Viewer.mouseMoveEvent].
  - by apply flagsExact_viewer_mouseMove.
  - by apply flagsExact_viewer_contextMenu.
  - unfold contextMenuClosed_. repeat flags_step; done.
  - unfold Viewer.touchStartEvent, touchStart. repeat flags_step; done.
  - unfold Viewer.touchEndEvent, touchEnd.
    destruct (longTouch now (Viewer.controller s)); [|done].
    by apply flagsExact_viewer_contextMenu.
  - by rewrite (proj1 (viewer_click_controller fm e s)).
  - by apply flagsExact_viewer_query.
  - by apply flagsExact_viewer_zoomTo.
  - by apply flagsExact_viewer_zoomToFeatures.
  - by apply flagsExact_unhighlight.
  - rewrite viewer_showPopup_controller.
    destruct (annotation fm featureId); [|done].
    apply flagsExact_highlight. by apply flagsExact_unhighlight.
  - done.
  - rewrite contextMenu_hide_eq. repeat flags_step; done.
Qed.

Lemma viewerRun_flagsExact (fm : Flatmap) (calls : list ViewerCall) :
  flagsExact (Viewer.controller (viewerRun fm calls)).
Proof.
  unfold viewerRun.
  induction calls as [|call calls IH] using rev_ind.
  - apply (flagsExact_constructor fm). by right.
  - rewrite fold_left_app. by apply flagsExact_viewerCall.
Qed.

(** X1.  After construction and any sequence of handler, menu-action and
    public calls, in either version, the features holding the [selected]
    flag are exactly the recorded selection: none when [_selectedFeature] is
    [null], and otherwise the feature recorded there and only it. *)
Theorem selection_exact_after_calls (fm : Flatmap)
    (acalls : list AnnotatorCall) (vcalls : list ViewerCall) (k : FeatureKey) :
  (hasFlag k "selected" (featureState (annotatorRun fm acalls)) = true
   <-> exists f, _selectedFeature (annotatorRun fm acalls) = Some f
                 /\ featureKey f = k)
  /\ (hasFlag k "selected"
        (featureState (Viewer.controller (viewerRun fm vcalls))) = true
      <-> exists f, _selectedFeature (Viewer.controller (viewerRun fm vcalls)) = Some f
                    /\ featureKey f = k).
Proof.
  split.
  - apply (annotatorRun_flagsExact fm acalls).
  - apply (viewerRun_flagsExact fm vcalls).
Qed.

(** X2.  After construction and any sequence of calls, in either version,
    the features holding the [highlighted] flag are exactly those of
    [_highlightedFeatures]; and after [clearResults()] in such a state no
    feature at all holds the flag and the list is empty. *)
Theorem highlight_exact_after_calls (fm : Flatmap)
    (acalls : list AnnotatorCall) (vcalls : list ViewerCall) (k : FeatureKey) :
  (hasFlag k "highlighted" (featureState (annotatorRun fm acalls)) = true
   <-> exists f, f ∈ _highlightedFeatures (annotatorRun fm acalls)
                 /\ featureKey f = k)
  /\ (hasFlag k "highlighted"
        (featureState (Viewer.controller (viewerRun fm vcalls))) = true
      <-> exists f, f ∈ _highlightedFeatures (Viewer.controller (viewerRun fm vcalls))
                    /\ featureKey f = k)
  /\ hasFlag k "highlighted"
       (featureState (unhighlightFeatures_ (annotatorRun fm acalls))) = false
  /\ hasFlag k "highlighted"
       (featureState (unhighlightFeatures_ (Viewer.controller (viewerRun fm vcalls))))
     = false
  /\ _highlightedFeatures (unhighlightFeatures_ (annotatorRun fm acalls)) = []
  /\ _highlightedFeatures
       (unhighlightFeatures_ (Viewer.controller (viewerRun fm vcalls))) = [].
Proof.
  pose proof (annotatorRun_flagsExact fm acalls) as Ha.
  pose proof (viewerRun_flagsExact fm vcalls) as Hv.
  assert (Hclear : forall c, flagsExact c ->
            hasFlag k "highlighted" (featureState (unhighlightFeatures_ c)) = false).
  { intros c Hc. apply flagsExact_unhighlight in Hc as (_ & Hh & _).
    destruct (hasFlag k "highlighted" _) eqn:E; [|done].
    apply Hh in E as (f & Hf & _). inversion Hf. }
  split; [apply Ha|]. split; [apply Hv|].
  split; [by apply Hclear|]. split; [by apply Hclear|]. done.
Qed.

(** X3.  In the viewer, after construction and any sequence of calls, the
    features holding the [active] flag are exactly the recorded
    [_activeFeature]: at most one feature is active, and none when the field
    is [null]. *)
Theorem active_exact_after_calls (fm : Flatmap) (vcalls : list ViewerCall)
    (k : FeatureKey) :
  hasFlag k "active" (featureState (Viewer.controller (viewerRun fm vcalls))) = true
  <-> exists f, _activeFeature (Viewer.controller (viewerRun fm vcalls)) = Some f
                /\ featureKey f = k.
Proof. apply (viewerRun_flagsExact fm vcalls). Qed.

(** ** Duplicate context-menu events *)

Lemma unselect_times (reset : bool) (c : Controller) :
  _lastContextTime (unselectFeatures_ reset c) = _lastContextTime c
  /\ _inQuery (unselectFeatures_ reset c) = _inQuery c
  /\ cursor (unselectFeatures_ reset c) = cursor c.
Proof.
  unfold unselectFeatures_. destruct (_selectedFeature c); [|done].
  by destruct reset.
Qed.

Lemma showMenu_times (pos : LngLat) (items : list MenuEntry) (c : Controller) :
  _lastContextTime (showMenu pos items c) = _lastContextTime c
  /\ _inQuery (showMenu pos items c) = _inQuery c
  /\ cursor (showMenu pos items c) = cursor c.
Proof. unfold showMenu. by destruct (0 <? length items)%nat. Qed.

(** An accepted event leaves its time in [_lastContextTime]. *)
Lemma contextMenu_accepted (fm : Flatmap) (e : MapEvent) (now : Z) (c : Controller) :
  (_lastContextTime c + 100 <= now)%Z ->
  _lastContextTime (Annotator.contextMenuEvent_ fm e now c) = now
  /\ _lastContextTime (Viewer.contextMenuEvent_ fm e now c) = now.
Proof.
  intros H. unfold Annotator.contextMenuEvent_, Viewer.contextMenuEvent_.
  assert (E : (now <? _lastContextTime c + 100)%Z = false) by (apply Z.ltb_ge; lia).
  rewrite E. cbv zeta.
  destruct (smallestAnnotatedPolygonFeature_ _ _ _) as [f|]; [|done].
  rewrite !(proj1 (showMenu_times _ _ _)). simpl.
  by rewrite !(proj1 (unselect_times _ _)).
Qed.

(** X4.  Once a [contextmenu] event has been accepted at time [t1], a
    further one before [t1 + 100] changes nothing at all, in either version
    and whatever the two events resolve; one at [t1 + 100] or later is
    accepted in turn and leaves its own time. *)
Theorem contextMenu_debounce (fm : Flatmap) (e1 e2 : MapEvent) (t1 t2 : Z)
    (c : Controller) :
  (_lastContextTime c + 100 <= t1)%Z ->
  ((t2 < t1 + 100)%Z ->
   Annotator.contextMenuEvent_ fm e2 t2 (Annotator.contextMenuEvent_ fm e1 t1 c)
   = Annotator.contextMenuEvent_ fm e1 t1 c
   /\ Viewer.contextMenuEvent_ fm e2 t2 (Viewer.contextMenuEvent_ fm e1 t1 c)
      = Viewer.contextMenuEvent_ fm e1 t1 c)
  /\ ((t1 + 100 <= t2)%Z ->
      _lastContextTime
        (Annotator.contextMenuEvent_ fm e2 t2 (Annotator.contextMenuEvent_ fm e1 t1 c))
      = t2
      /\ _lastContextTime
           (Viewer.contextMenuEvent_ fm e2 t2 (Viewer.contextMenuEvent_ fm e1 t1 c))
         = t2).
Proof.
  intros H1. destruct (contextMenu_accepted fm e1 t1 c H1) as [Ea Ev].
  split; intros H2.
  - split.
    + unfold Annotator.contextMenuEvent_ at 1. rewrite Ea.
      assert (E : (t2 <? t1 + 100)%Z = true) by (apply Z.ltb_lt; lia).
      by rewrite E.
    + unfold Viewer.contextMenuEvent_ at 1. rewrite Ev.
      assert (E : (t2 <? t1 + 100)%Z = true) by (apply Z.ltb_lt; lia).
      by rewrite E.
  - split.
    + apply contextMenu_accepted. rewrite Ea. lia.
    + apply contextMenu_accepted. rewrite Ev. lia.
Qed.

Lemma contextMenu_debounce_witness :
  let c := Annotator.constructor Examples.flatmap in
  let c1 := Annotator.contextMenuEvent_ Examples.flatmap Examples.overRegions 1000 c in
  (_lastContextTime c + 100 <= 1000)%Z
  /\ ((1099 < 1000 + 100)%Z
      /\ Annotator.contextMenuEvent_ Examples.flatmap Examples.overMarker 1099 c1 = c1)
  /\ ((1000 + 100 <= 1100)%Z
      /\ _lastContextTime
           (Annotator.contextMenuEvent_ Examples.flatmap Examples.overMarker 1100 c1)
         = 1100%Z).
Proof.
  intros c c1.
  assert (H1 : (_lastContextTime c + 100 <= 1000)%Z) by (vm_compute; discriminate).
  assert (H2 : (1099 < 1000 + 100)%Z) by lia.
  assert (H3 : (1000 + 100 <= 1100)%Z) by lia.
  split; [exact H1|]. split.
  - split; [exact H2|].
    exact (proj1 (proj1 (contextMenu_debounce Examples.flatmap Examples.overRegions
                           Examples.overMarker 1000 1099 c H1) H2)).
  - split; [exact H3|].
    exact (proj1 (proj2 (contextMenu_debounce Examples.flatmap Examples.overRegions
                           Examples.overMarker 1000 1100 c H1) H3)).
Defined.

(** ** An outstanding query *)

Lemma busy_ext (c c' : Controller) :
  _inQuery c' = _inQuery c -> cursor c' = cursor c -> busy c -> busy c'.
Proof. unfold busy. by intros -> ->. Qed.

Ltac busy_step :=
  lazymatch goal with
  | |- busy (unselectFeatures_ ?r ?c) =>
      apply (busy_ext c);
      [exact (proj1 (proj2 (unselect_times r c)))
      |exact (proj2 (proj2 (unselect_times r c)))|]
  | |- busy (showMenu ?p ?i ?c) =>
      apply (busy_ext c);
      [exact (proj1 (proj2 (showMenu_times p i c)))
      |exact (proj2 (proj2 (showMenu_times p i c)))|]
  | |- busy (if ?b then _ else _) => destruct b
  | |- busy (match ?x with _ => _ end) => destruct x
  | |- busy (?f ?c) => apply (busy_ext c); [reflexivity..|]
  | |- busy (?f _ ?c) => apply (busy_ext c); [reflexivity..|]
  | |- busy (?f _ _ ?c) => apply (busy_ext c); [reflexivity..|]
  | |- busy (?f _ _ _ ?c) => apply (busy_ext c); [reflexivity..|]
  end.

Lemma busy_showTooltip (fm : Flatmap) (pos : LngLat) (f : Feature) (c : Controller) :
  busy c -> busy (snd (Annotator.showTooltip_ fm pos f c)).
Proof.
  intros H. unfold Annotator.showTooltip_. cbn [fst snd].
  set (c1 := selectFeature_ f c).
  assert (H1 : busy c1) by (subst c1; unfold selectFeature_; repeat busy_step; done).
  clearbody c1. unfold Annotator.tooltip_show.
  assert (Hq : forall v, _inQuery (set_tooltipShown v c1) = true)
    by (intros v; apply H1).
  destruct (annotating c1);
    destruct (getAnnotationOf fm (p_id (properties f))) as [ann|];
    cbn [fst snd]; try (destruct (ann_models ann));
    try (destruct (layerQueryable fm (ann_layer ann)));
    cbn [fst snd andb]; rewrite ?Hq, ?(proj1 H1); cbn [negb andb];
    repeat busy_step; done.
Qed.

Lemma busy_annotator_mouseMove (fm : Flatmap) (e : MapEvent) (c : Controller) :
  busy c -> busy (Annotator.mouseMoveEvent_ fm e c).
Proof.
  intros H. unfold Annotator.mouseMoveEvent_.
  destruct (_modal c); [done|]. cbv zeta.
  match goal with
  | |- context [match ?x with Some _ => _ | None => _ end] =>
      lazymatch x with
      | match _ with Some _ => _ | None => _ end => destruct x as [f|]
      end
  end.
  - pose proof (busy_showTooltip fm (lngLat e) f c H) as Hs.
    destruct (Annotator.showTooltip_ fm (lngLat e) f c) as [r c1].
    cbn [fst snd] in *. destruct r; [done|].
    rewrite (proj1 Hs). cbn [negb]. unfold Annotator.tooltip_hide.
    repeat busy_step; done.
  - rewrite (proj1 H). cbn [negb]. unfold Annotator.tooltip_hide.
    repeat busy_step; done.
Qed.

Lemma busy_annotator_contextMenu (fm : Flatmap) (e : MapEvent) (now : Z)
    (c : Controller) :
  busy c -> busy (Annotator.contextMenuEvent_ fm e now c).
Proof.
  intros H. unfold Annotator.contextMenuEvent_, Annotator.tooltip_hide, selectFeature_.
  repeat busy_step; done.
Qed.

Lemma busy_unhighlight (c : Controller) : busy c -> busy (unhighlightFeatures_ c).
Proof. intros H. by apply (busy_ext c). Qed.

Lemma busy_highlightAll (fs : list Feature) (c : Controller) :
  busy c -> busy (highlightAll fs c).
Proof.
  revert c. induction fs as [|f fs IH]; intros c H; [done|].
  change (highlightAll (f :: fs) c)
    with (highlightAll fs (Viewer.highlightFeature_ f c)).
  apply IH. by apply (busy_ext c).
Qed.

Lemma busy_annotatorCall (fm : Flatmap) (c : Controller) (call : AnnotatorCall) :
  busy c -> busy (annotatorCall fm c call).
Proof.
  intros H. destruct call; cbn [annotatorCall].
  - by apply busy_annotator_mouseMove.
  - by apply busy_annotator_contextMenu.
  - by apply (busy_ext c).
  - by apply (busy_ext c).
  - unfold Annotator.touchEndEvent, touchEnd. destruct (longTouch now c); [|done].
    by apply busy_annotator_contextMenu.
  - unfold Annotator.clickEvent_.
    destruct (_layerSwitcher c); cbn [afterOutcome]; [|done].
    apply busy_unhighlight.
    destruct (Annotator.smallestAnnotatedPolygonAtEvent_ fm e c) as [f|]; [|done].
    unfold queryData_, selectFeature_. repeat busy_step; done.
  - unfold Annotator.query_, queryData_. rewrite contextMenu_hide_eq.
    destruct (String.eqb kind "data"); cbn [afterOutcome].
    + destruct (0 <? length _)%nat; by apply (busy_ext c).
    + destruct (getAnnotation fm featureId); cbn [afterOutcome]; [done|].
      by apply (busy_ext c).
  - unfold Annotator.zoomTo_. rewrite contextMenu_hide_eq.
    destruct (bounds fm feature); by apply (busy_ext c).
  - destruct (annotator_zoomToFeatures_state fm featureIds c) as [fs Hst].
    destruct (Annotator.zoomToFeatures fm featureIds c) as [c'|e c'];
      cbn [afterOutcome].
    + destruct Hst as [-> | [bbox ->]].
      * by apply busy_highlightAll, busy_unhighlight.
      * apply (busy_ext (highlightAll fs (unhighlightFeatures_ c))); [done|done|].
        by apply busy_highlightAll, busy_unhighlight.
    + subst c'. by apply busy_highlightAll, busy_unhighlight.
  - by apply busy_unhighlight.
  - rewrite contextMenu_hide_eq. by apply (busy_ext c).
Qed.

(** X5.  In the annotator, once an edge or node query has been dispatched
    for a feature that has an annotation, no later call of any handler, menu
    action or public method clears the in-query flag or takes the
    ['progress'] cursor away: mouse moves leave the cursor alone while the
    flag is up, and nothing resets the flag. *)
Theorem annotator_query_stays_busy (fm : Flatmap) (before after : list AnnotatorCall)
    (kind featureId : string) (ann : Annotation) :
  kind <> "data" ->
  getAnnotation fm featureId = Some ann ->
  let c := annotatorRun fm (before ++ MenuQuery kind featureId :: after) in
  _inQuery c = true /\ cursor c = "progress".
Proof.
  intros Hk Hann. cbv zeta. unfold annotatorRun.
  rewrite fold_left_app. cbn [fold_left].
  set (c0 := fold_left (annotatorCall fm) before (Annotator.constructor fm)).
  assert (H0 : busy (annotatorCall fm c0 (MenuQuery kind featureId))).
  { cbn [annotatorCall]. unfold Annotator.query_.
    assert (E : String.eqb kind "data" = false) by by apply String.eqb_neq.
    rewrite E, Hann. done. }
  clearbody c0. revert H0.
  generalize (annotatorCall fm c0 (MenuQuery kind featureId)).
  induction after as [|call calls IH]; intros c H; [done|].
  cbn [fold_left]. apply IH. by apply busy_annotatorCall.
Qed.

Lemma annotator_query_stays_busy_witness :
  let c := annotatorRun Examples.flatmap
             ([ContextMenu Examples.overRegions 1000]
                ++ MenuQuery "edges" "A"
                   :: [MouseMove Examples.overMarker; ContextMenuClosed;
                       MouseMove Examples.overRegions]) in
  "edges" <> "data"
  /\ getAnnotation Examples.flatmap "A" = Some Examples.annA
  /\ _inQuery c = true /\ cursor c = "progress".
Proof.
  intros c.
  assert (H1 : "edges" <> "data") by discriminate.
  assert (H2 : getAnnotation Examples.flatmap "A" = Some Examples.annA) by reflexivity.
  split; [exact H1|]. split; [exact H2|].
  exact (annotator_query_stays_busy Examples.flatmap
           [ContextMenu Examples.overRegions 1000]
           [MouseMove Examples.overMarker; ContextMenuClosed;
            MouseMove Examples.overRegions]
           "edges" "A" Examples.annA H1 H2).
Defined.

Lemma inQuery_highlightAll (fs : list Feature) (c : Controller) :
  _inQuery (highlightAll fs c) = _inQuery c.
Proof.
  revert c. induction fs as [|f fs IH]; intros c; [done|].
  change (highlightAll (f :: fs) c)
    with (highlightAll fs (Viewer.highlightFeature_ f c)).
  by rewrite IH.
Qed.

Lemma inQuery_viewer_contextMenu (fm : Flatmap) (e : MapEvent) (now : Z)
    (c : Controller) :
  _inQuery (Viewer.contextMenuEvent_ fm e now c) = _inQuery c.
Proof.
  unfold Viewer.contextMenuEvent_.
  destruct (now <? _lastContextTime c + 100)%Z; [done|]. cbv zeta.
  destruct (smallestAnnotatedPolygonFeature_ _ _ _) as [f|]; [|done].
  rewrite (proj1 (proj2 (showMenu_times _ _ _))). simpl.
  by rewrite (proj1 (proj2 (unselect_times _ _))).
Qed.

Lemma inQuery_viewer_mouseMove (fm : Flatmap) (e : MapEvent) (c : Controller) :
  _inQuery (Viewer.mouseMoveEvent_ fm e c) = _inQuery c.
Proof.
  unfold Viewer.mouseMoveEvent_, Viewer.removeTooltip_.
  destruct (_tooltip c); cbn;
    repeat (match goal with
            | |- context [match ?x with _ => _ end] => destruct x
            end; cbn); done.
Qed.

(** The cursor a viewer's mouse move leaves. *)
Lemma viewer_mouseMove_cursor (fm : Flatmap) (e : MapEvent) (c : Controller) :
  cursor (Viewer.mouseMoveEvent_ fm e c) = "default"
  \/ cursor (Viewer.mouseMoveEvent_ fm e c) = "pointer".
Proof.
  unfold Viewer.mouseMoveEvent_, Viewer.removeTooltip_.
  destruct (_tooltip c); cbn;
    repeat (match goal with
            | |- context [match ?x with _ => _ end] => destruct x
            end; cbn); auto.
Qed.

Lemma inQuery_viewerCall (fm : Flatmap) (s : Viewer.State) (call : ViewerCall) :
  _inQuery (Viewer.controller s) = true ->
  _inQuery (Viewer.controller (viewerCall fm s call)) = true.
Proof.
  intros H. destruct call; cbn [viewerCall Viewer.onController Viewer.controller Viewer.mouseMoveEvent].
  - by rewrite inQuery_viewer_mouseMove.
  - by rewrite inQuery_viewer_contextMenu.
  - done.
  - done.
  - unfold Viewer.touchEndEvent, touchEnd.
    destruct (longTouch now (Viewer.controller s)); [|done].
    by rewrite inQuery_viewer_contextMenu.
  - by rewrite (proj1 (viewer_click_controller fm e s)).
  - unfold Viewer.query_, queryData_. rewrite contextMenu_hide_eq.
    destruct (String.eqb kind "data"); [|done].
    by destruct (0 <? length _)%nat.
  - unfold Viewer.zoomTo_. rewrite contextMenu_hide_eq.
    by destruct (bounds fm feature).
  - destruct (viewer_zoomToFeatures_state fm featureIds padding (Viewer.controller s))
      as [fs Hst].
    destruct (Viewer.zoomToFeatures fm featureIds padding (Viewer.controller s))
      as [c'|e c']; cbn [afterOutcome].
    + destruct Hst as [-> | [bbox ->]]; simpl; by rewrite inQuery_highlightAll.
    + subst c'. by rewrite inQuery_highlightAll.
  - done.
  - rewrite viewer_showPopup_controller. by destruct (annotation fm featureId).
  - done.
  - by rewrite contextMenu_hide_eq.
Qed.

(** X6.  In the viewer, once an edge or node query has been dispatched the
    in-query flag stays up through every later call; yet each mouse move
    after it sets the cursor to ['default'] or ['pointer'], so the
    ['progress'] cursor is gone with the first one. *)
Theorem viewer_query_flag_and_cursor (fm : Flatmap) (before after : list ViewerCall)
    (kind featureId : string) (e : MapEvent) :
  kind <> "data" ->
  let s := viewerRun fm (before ++ VMenuQuery kind featureId :: after) in
  _inQuery (Viewer.controller s) = true
  /\ _inQuery (Viewer.controller (viewerCall fm s (VMouseMove e))) = true
  /\ (cursor (Viewer.controller (viewerCall fm s (VMouseMove e))) = "default"
      \/ cursor (Viewer.controller (viewerCall fm s (VMouseMove e))) = "pointer").
Proof.
  intros Hk. cbv zeta.
  assert (H : _inQuery (Viewer.controller
                (viewerRun fm (before ++ VMenuQuery kind featureId :: after))) = true).
  { unfold viewerRun. rewrite fold_left_app. cbn [fold_left].
    set (s0 := fold_left (viewerCall fm) before (Viewer.construct fm)).
    assert (H0 : _inQuery (Viewer.controller
                    (viewerCall fm s0 (VMenuQuery kind featureId))) = true).
    { cbn [viewerCall Viewer.onController Viewer.controller Viewer.mouseMoveEvent]. unfold Viewer.query_.
      assert (E : String.eqb kind "data" = false) by by apply String.eqb_neq.
      by rewrite E. }
    clearbody s0. revert H0.
    generalize (viewerCall fm s0 (VMenuQuery kind featureId)).
    induction after as [|call calls IH]; intros s H; [done|].
    cbn [fold_left]. apply IH. by apply inQuery_viewerCall. }
  split; [exact H|]. split; [by apply inQuery_viewerCall|].
  apply viewer_mouseMove_cursor.
Qed.

Lemma viewer_query_flag_and_cursor_witness :
  let s := viewerRun Examples.flatmap
             ([VContextMenu Examples.overRegions 1000]
                ++ VMenuQuery "edges" "A" :: []) in
  "edges" <> "data"
  /\ cursor (Viewer.controller s) = "progress"
  /\ _inQuery (Viewer.controller (viewerCall Examples.flatmap s
                                    (VMouseMove Examples.overRegions))) = true
  /\ cursor (Viewer.controller (viewerCall Examples.flatmap s
                                  (VMouseMove Examples.overRegions))) = "default".
Proof.
  intros s.
  assert (H1 : "edges" <> "data") by discriminate.
  destruct (viewer_query_flag_and_cursor Examples.flatmap
              [VContextMenu Examples.overRegions 1000] [] "edges" "A"
              Examples.overRegions H1) as (_ & Hq & _).
  split; [exact H1|]. split; [reflexivity|]. split; [exact Hq|].
  vm_compute. reflexivity.
Defined.

(** ** Enclosing boxes *)

Lemma encloses_refl (a : BBox) : encloses a a.
Proof. unfold encloses. repeat split; apply Qle_refl. Qed.

Lemma encloses_trans (a b c : BBox) :
  encloses a b -> encloses b c -> encloses a c.
Proof.
  unfold encloses. intros (H0 & H1 & H2 & H3) (K0 & K1 & K2 & K3).
  repeat split; eapply Qle_trans; eauto.
Qed.

Lemma expandBounds_encloses (a b : BBox) :
  encloses (expandBounds a b) a /\ encloses (expandBounds a b) b.
Proof.
  unfold encloses, expandBounds; simpl.
  repeat split;
    first [ apply Q.le_min_l | apply Q.le_min_r
          | apply Q.le_max_l | apply Q.le_max_r ].
Qed.

Lemma expandBounds_least (a b c : BBox) :
  encloses c a -> encloses c b -> encloses c (expandBounds a b).
Proof.
  unfold encloses, expandBounds; simpl.
  intros (H0 & H1 & H2 & H3) (K0 & K1 & K2 & K3).
  repeat split;
    first [ by apply Q.min_glb | by apply Q.max_lub ].
Qed.

(** X7.  [expandBounds(a, b)] is the least box enclosing both: it encloses
    [a] and [b], and every box that encloses both encloses it. *)
Theorem expandBounds_least_enclosing (a b c : BBox) :
  encloses (expandBounds a b) a
  /\ encloses (expandBounds a b) b
  /\ (encloses c a -> encloses c b -> encloses c (expandBounds a b)).
Proof.
  destruct (expandBounds_encloses a b) as [Ha Hb].
  split; [exact Ha|]. split; [exact Hb|]. apply expandBounds_least.
Qed.

Lemma expandBounds_least_enclosing_witness :
  let a := mkBBox 0 0 10 10 in
  let b := mkBBox 5 5 20 20 in
  let c := mkBBox (-1) (-1) 30 30 in
  encloses c a /\ encloses c b /\ encloses c (expandBounds a b).
Proof.
  intros a b c.
  assert (Ha : encloses c a) by (vm_compute; repeat split; discriminate).
  assert (Hb : encloses c b) by (vm_compute; repeat split; discriminate).
  split; [exact Ha|]. split; [exact Hb|].
  exact (proj2 (proj2 (expandBounds_least_enclosing a b c)) Ha Hb).
Defined.

(** The merge of a list of boxes, started from one of them. *)
Lemma merge_encloses (bs : list BBox) (b : BBox) :
  encloses (fold_left expandBounds bs b) b
  /\ (forall x, x ∈ bs -> encloses (fold_left expandBounds bs b) x)
  /\ (forall c, encloses c b -> (forall x, x ∈ bs -> encloses c x) ->
                encloses c (fold_left expandBounds bs b)).
Proof.
  revert b. induction bs as [|y ys IH]; intros b.
  - split; [apply encloses_refl|]. split; [intros x Hx; inversion Hx|]. auto.
  - cbn [fold_left]. destruct (IH (expandBounds b y)) as (H1 & H2 & H3).
    destruct (expandBounds_encloses b y) as [Hb Hy].
    split; [by eapply encloses_trans|]. split.
    + intros x [->|Hx]%elem_of_cons; [by eapply encloses_trans|by apply H2].
    + intros c Hc Hall. apply H3.
      * apply expandBounds_least; [done|]. apply Hall, list_elem_of_here.
      * intros x Hx. by apply Hall, list_elem_of_further.
Qed.

(** X8.  When every annotation record the ids resolve to carries its box
    (viewer), or [bounds] gives the box of every rendered feature the id
    filter selects (annotator), [zoomToFeatures] returns and the box it fits
    the camera to encloses each of these boxes and is the least box that
    does.  When [zoomToFeatures] raises instead, on a record without box or
    on a box that does not parse, it has not called [fitBounds]. *)
Theorem zoomToFeatures_fit_encloses (fm : Flatmap) (featureIds : list string)
    (padding : Q) (c : Controller) :
  (forall boxes,
     resolved fm featureIds <> [] ->
     map (fun r => ap_bounds (snd r)) (resolved fm featureIds) = map Some boxes ->
     exists box c',
       Viewer.zoomToFeatures fm featureIds padding c = Returns c'
       /\ fitBoundsCalls c' = mkFitCall (BBoxOf box) padding false :: fitBoundsCalls c
       /\ (forall b, b ∈ boxes -> encloses box b)
       /\ (forall outer, (forall b, b ∈ boxes -> encloses outer b) ->
                         encloses outer box))
  /\ (forall boxes,
        featureIds <> [] -> queryRenderedFeaturesIn fm featureIds <> [] ->
        map (bounds fm) (queryRenderedFeaturesIn fm featureIds) = map Some boxes ->
        exists box c',
          Annotator.zoomToFeatures fm featureIds c = Returns c'
          /\ fitBoundsCalls c' = mkFitCall (BBoxOf box) 100 false :: fitBoundsCalls c
          /\ (forall b, b ∈ boxes -> encloses box b)
          /\ (forall outer, (forall b, b ∈ boxes -> encloses outer b) ->
                            encloses outer box))
  /\ (forall e c', Viewer.zoomToFeatures fm featureIds padding c = Throws e c' ->
                   fitBoundsCalls c' = fitBoundsCalls c)
  /\ (forall e c', Annotator.zoomToFeatures fm featureIds c = Throws e c' ->
                   fitBoundsCalls c' = fitBoundsCalls c).
Proof.
  split; [|split; [|split]].
  - intros boxes Hrs Hboxes. unfold Viewer.zoomToFeatures.
    destruct featureIds as [|id ids]; [done|].
    change (0 <? length (id :: ids))%nat with true. cbv iota zeta.
    rewrite (viewer_zoom_loop fm (id :: ids) boxes _ None Hboxes).
    destruct boxes as [|b bs].
    { destruct (resolved fm (id :: ids)); [done|discriminate]. }
    rewrite mergeInto_cons.
    destruct (merge_encloses bs b) as (H1 & H2 & H3).
    do 2 eexists. split; [reflexivity|]. split.
    + unfold map_fitBounds. cbn [fitBoundsCalls set_fitBoundsCalls boxValue].
      rewrite highlightAll_fit. reflexivity.
    + split.
      * intros b' [->|Hb']%elem_of_cons; [done|by apply H2].
      * intros outer Hall. apply H3; [apply Hall, list_elem_of_here|].
        intros x Hx. by apply Hall, list_elem_of_further.
  - intros boxes Hids Hfs Hboxes. unfold Annotator.zoomToFeatures.
    destruct featureIds as [|id ids]; [done|].
    change (0 <? length (id :: ids))%nat with true. cbv iota zeta.
    destruct (queryRenderedFeaturesIn fm (id :: ids)) as [|f fs] eqn:E; [done|].
    change (0 <? length (f :: fs))%nat with true. cbv iota.
    rewrite (annotator_zoom_loop fm (f :: fs) boxes _ None Hboxes).
    destruct boxes as [|b bs]; [discriminate|].
    rewrite mergeInto_cons.
    destruct (merge_encloses bs b) as (H1 & H2 & H3).
    do 2 eexists. split; [reflexivity|]. split.
    + unfold map_fitBounds. cbn [fitBoundsCalls set_fitBoundsCalls].
      rewrite highlightAll_fit. reflexivity.
    + split.
      * intros b' [->|Hb']%elem_of_cons; [done|by apply H2].
      * intros outer Hall. apply H3; [apply Hall, list_elem_of_here|].
        intros x Hx. by apply Hall, list_elem_of_further.
  - intros e c' E.
    destruct (viewer_zoomToFeatures_state fm featureIds padding c) as [fs Hst].
    rewrite E in Hst. subst c'. by rewrite highlightAll_fit.
  - intros e c' E.
    destruct (annotator_zoomToFeatures_state fm featureIds c) as [fs Hst].
    rewrite E in Hst. subst c'. by rewrite highlightAll_fit.
Qed.

Lemma zoomToFeatures_fit_encloses_witness :
  let fm := Examples.flatmap in
  let c := Viewer.constructor fm in
  resolved fm ["f1"; "zz"; "f3"] <> []
  /\ map (fun r => ap_bounds (snd r)) (resolved fm ["f1"; "zz"; "f3"])
     = map Some [mkBBox 0 0 10 10; mkBBox 5 5 20 20]
  /\ exists box c',
       Viewer.zoomToFeatures fm ["f1"; "zz"; "f3"] 50 c = Returns c'
       /\ fitBoundsCalls c' = mkFitCall (BBoxOf box) 50 false :: fitBoundsCalls c
       /\ encloses box (mkBBox 0 0 10 10) /\ encloses box (mkBBox 5 5 20 20).
Proof.
  intros fm c.
  assert (H : resolved fm ["f1"; "zz"; "f3"] <> []) by (vm_compute; discriminate).
  assert (Hb : map (fun r => ap_bounds (snd r)) (resolved fm ["f1"; "zz"; "f3"])
               = map Some [mkBBox 0 0 10 10; mkBBox 5 5 20 20])
    by (vm_compute; reflexivity).
  split; [exact H|]. split; [exact Hb|].
  destruct (proj1 (zoomToFeatures_fit_encloses fm ["f1"; "zz"; "f3"] 50 c) _ H Hb)
    as (box & c' & E & Hfit & Hall & _).
  exists box, c'. split; [exact E|]. split; [exact Hfit|]. split.
  - apply Hall, list_elem_of_here.
  - apply Hall, list_elem_of_further, list_elem_of_here.
Defined.

(** ** What a pointer event resolves *)

Lemma smallest_fold_member (fm : Flatmap) (c : Controller) (features : list Feature)
    (acc : Q * option Feature) (f : Feature) :
  snd (fold_left (smallestStep fm c) features acc) = Some f ->
  snd acc = Some f \/ (f ∈ features /\ annotatedPolygon c f = true).
Proof.
  revert acc. induction features as [|x xs IH]; intros acc H; [by left|].
  cbn [fold_left] in H. apply IH in H as [H|[H1 H2]].
  - unfold smallestStep in H. destruct (annotatedPolygon c x) eqn:Hx; [|by left].
    destruct acc as [a [g|]]; cbn [fst snd] in *.
    + destruct (negb (Qle_bool a (turfArea fm (geometry x)))); cbn [snd] in H.
      * injection H as <-. right. split; [apply list_elem_of_here|done].
      * by left.
    + injection H as <-. right. split; [apply list_elem_of_here|done].
  - right. split; [by apply list_elem_of_further|done].
Qed.

(** X9.  The feature a pointer event resolves is one of the features
    rendered at the event's pixel, lies in an active layer, carries an [id]
    property, has a polygon geometry and holds the [annotated] flag; so every
    item of the context menu built for it carries a defined id, that of the
    feature. *)
Theorem resolved_feature_properties (fm : Flatmap) (c : Controller)
    (event : MapEvent) (f : Feature) :
  smallestAnnotatedPolygonFeature_ fm c (activeFeaturesAtEvent_ fm event) = Some f ->
  f ∈ queryRenderedFeatures fm (point event)
  /\ sourceLayer f ∈ activeLayerNames fm
  /\ (exists id, p_id (properties f) = Some id
                 /\ forall i prompt action,
                      Item i prompt action ∈ menuItems fm f -> i = Some id)
  /\ includes "Polygon" (gtype (geometry f)) = true
  /\ "annotated" ∈ getFeatureState f (featureState c).
Proof.
  intros H. unfold smallestAnnotatedPolygonFeature_ in H.
  apply smallest_fold_member in H as [H|[Hin Hap]]; [done|].
  unfold activeFeaturesAtEvent_ in Hin.
  apply list_elem_of_In, filter_In in Hin as [Hin Hcond].
  apply andb_prop in Hcond as [Hl Hid].
  apply bool_decide_eq_true in Hl, Hid. destruct Hid as [id Hid].
  unfold annotatedPolygon in Hap. apply andb_prop in Hap as [Hp Ha].
  apply bool_decide_eq_true in Ha.
  split; [by apply list_elem_of_In|]. split; [done|]. split; [|done].
  exists id. split; [done|]. intros i prompt action.
  rewrite menuItems_closed_form. unfold expectedItems. rewrite Hid.
  rewrite !elem_of_app. intros Hitem.
  repeat match goal with
         | H : _ \/ _ |- _ => destruct H
         | H : _ ∈ (if ?b then _ else _) |- _ => destruct b
         | H : _ ∈ _ :: _ |- _ => apply elem_of_cons in H
         | H : _ ∈ [] |- _ => inversion H
         | H : Item _ _ _ = Item _ _ _ |- _ => by injection H
         | H : Item _ _ _ = Separator |- _ => discriminate H
         end.
Qed.

Lemma resolved_feature_properties_witness :
  let fm := Examples.flatmap in
  let c := Annotator.constructor fm in
  smallestAnnotatedPolygonFeature_ fm c (activeFeaturesAtEvent_ fm Examples.overRegions)
  = Some Examples.featureB
  /\ sourceLayer Examples.featureB ∈ activeLayerNames fm.
Proof.
  intros fm c.
  assert (H : smallestAnnotatedPolygonFeature_ fm c
                (activeFeaturesAtEvent_ fm Examples.overRegions)
              = Some Examples.featureB) by (vm_compute; reflexivity).
  split; [exact H|].
  exact (proj1 (proj2 (resolved_feature_properties fm c Examples.overRegions
                         Examples.featureB H))).
Defined.

(** ** The viewer's hover target *)

Lemma areaAfter_declared (x y : Feature) :
  is_Some (p_area (properties x)) -> is_Some (p_area (properties y)) ->
  Viewer.areaAfter x y = negb (Qle_bool (declaredArea x) (declaredArea y)).
Proof.
  intros [a Ha] [b Hb]. unfold Viewer.areaAfter, declaredArea.
  by rewrite Ha, Hb.
Qed.

(** With every area declared, the sorted list starts with the first feature
    of least area. *)
Lemma sortByArea_head (l : list Feature) :
  (forall x, x ∈ l -> is_Some (p_area (properties x))) ->
  l <> [] ->
  exists f l1 l2 rest,
    l = l1 ++ f :: l2
    /\ Viewer.sortByArea l = f :: rest
    /\ (forall h, h ∈ l1 -> (declaredArea f < declaredArea h)%Q)
    /\ (forall h, h ∈ l2 -> (declaredArea f <= declaredArea h)%Q).
Proof.
  induction l as [|x xs IH]; intros Hall Hne; [done|].
  assert (Hx : is_Some (p_area (properties x))) by apply Hall, list_elem_of_here.
  assert (Hxs : forall y, y ∈ xs -> is_Some (p_area (properties y)))
    by (intros y Hy; by apply Hall, list_elem_of_further).
  change (Viewer.sortByArea (x :: xs))
    with (Viewer.insertByArea x (Viewer.sortByArea xs)).
  destruct xs as [|y ys].
  - exists x, [], [], []. repeat split; intros h Hh; inversion Hh.
  - destruct (IH Hxs) as (f & l1 & l2 & rest & E & Hs & H1 & H2); [done|].
    rewrite Hs. cbn [Viewer.insertByArea].
    assert (Hf : is_Some (p_area (properties f))).
    { apply Hxs. rewrite E. apply elem_of_app. right. apply list_elem_of_here. }
    rewrite areaAfter_declared by done.
    destruct (Qle_bool (declaredArea x) (declaredArea f)) eqn:Hle; cbn [negb].
    + apply Qle_bool_iff in Hle.
      exists x, [], (y :: ys), (f :: rest). split; [done|]. split; [done|].
      split; [intros h Hh; inversion Hh|].
      intros h Hh. rewrite E in Hh.
      apply elem_of_app in Hh as [Hh|[->|Hh]%elem_of_cons].
      * specialize (H1 h Hh). lra.
      * done.
      * specialize (H2 h Hh). lra.
    + assert (Hgt : (declaredArea f < declaredArea x)%Q).
      { apply Qnot_le_lt. intros H%Qle_bool_iff. congruence. }
      exists f, (x :: l1), l2, (Viewer.insertByArea x rest).
      split; [by rewrite E|]. split; [done|]. split; [|done].
      intros h [->|Hh]%elem_of_cons; [done|by apply H1].
Qed.

(** X10.  A viewer's mouse move over features of which some carry a label,
    each with a declared [area], and for which the info control gives no
    text, makes the first labelled feature of least area the active one and
    gives it the [active] flag; the cursor becomes a pointer exactly when
    that feature lies in a symbol layer. *)
Theorem viewer_hover_target (fm : Flatmap) (e : MapEvent) (c : Controller) :
  let features := queryRenderedFeatures fm (point e) in
  let c' := Viewer.mouseMoveEvent_ fm e c in
  (_infoControl c = None \/ featureInformation fm features = "") ->
  (forall x, x ∈ labelled features -> is_Some (p_area (properties x))) ->
  labelled features <> [] ->
  exists f l1 l2,
    labelled features = l1 ++ f :: l2
    /\ (forall h, h ∈ l1 -> (declaredArea f < declaredArea h)%Q)
    /\ (forall h, h ∈ l2 -> (declaredArea f <= declaredArea h)%Q)
    /\ _activeFeature c' = Some f
    /\ hasFlag (featureKey f) "active" (featureState c') = true
    /\ (cursor c' = "pointer" <-> layer_type (layer f) = "symbol").
Proof.
  intros features c' Hinfo Hareas Hne.
  destruct (sortByArea_head (labelled features) Hareas Hne)
    as (f & l1 & l2 & rest & E & Hs & H1 & H2).
  exists f, l1, l2. split; [done|]. split; [done|]. split; [done|].
  subst c'. unfold Viewer.mouseMoveEvent_. fold features.
  set (c1 := set_cursor "default" (Viewer.removeTooltip_ c)).
  assert (Hi1 : _infoControl c1 = _infoControl c)
    by (subst c1; unfold Viewer.removeTooltip_; by destruct (_tooltip c)).
  cbv zeta.
  set (c2 := match _activeFeature c1 with Some _ => _ | None => _ end).
  assert (Hi2 : _infoControl c2 = _infoControl c)
    by (subst c2; by destruct (_activeFeature c1)).
  assert (Hc2 : cursor c2 = "default")
    by (subst c2; by destruct (_activeFeature c1)).
  clearbody c2. clear c1 Hi1.
  destruct features as [|x xs] eqn:Ef; [done|].
  assert (Hhtml : match _infoControl c2 with
                  | Some _ => featureInformation fm (x :: xs)
                  | None => ""
                  end = "").
  { rewrite Hi2. destruct Hinfo as [-> | ->]; [done|]. by destruct (_infoControl c). }
  rewrite Hhtml. cbn [String.eqb fst snd].
  fold (labelled (x :: xs)). rewrite Hs.
  destruct (String.eqb_spec (layer_type (layer f)) "symbol") as [Hsym|Hsym];
    cbn [fst snd String.eqb negb].
  - cbn. split; [done|]. split; [apply hasFlag_set_same|]. done.
  - destruct (opt_tooltips fm); cbn [fst snd].
    + assert (Hn : String.eqb
                     ("<div class='flatmap-feature-label'>"
                        +:+ default "undefined" (p_label (properties f))
                        +:+ "</div>") "" = false) by done.
      rewrite Hn. cbn. split; [done|]. split; [apply hasFlag_set_same|].
      rewrite Hc2. split; [discriminate|done].
    + cbn. split; [done|]. split; [apply hasFlag_set_same|].
      rewrite Hc2. split; [discriminate|done].
Qed.

Lemma viewer_hover_target_witness :
  let fm := Examples.flatmap in
  let c := Viewer.constructor fm in
  let features := queryRenderedFeatures fm (point Examples.overRegions) in
  (_infoControl c = None \/ featureInformation fm features = "")
  /\ (forall x, x ∈ labelled features -> is_Some (p_area (properties x)))
  /\ labelled features <> []
  /\ exists f, _activeFeature (Viewer.mouseMoveEvent_ fm Examples.overRegions c) = Some f
               /\ hasFlag (featureKey f) "active"
                    (featureState (Viewer.mouseMoveEvent_ fm Examples.overRegions c))
                  = true.
Proof.
  intros fm c features.
  assert (H1 : _infoControl c = None \/ featureInformation fm features = "")
    by (left; reflexivity).
  assert (H2 : forall x, x ∈ labelled features -> is_Some (p_area (properties x))).
  { intros x Hx. vm_compute in Hx.
    apply elem_of_cons in Hx as [->|Hx]; [by eexists|].
    apply list_elem_of_singleton in Hx as ->. by eexists. }
  assert (H3 : labelled features <> []) by (vm_compute; discriminate).
  split; [exact H1|]. split; [exact H2|]. split; [exact H3|].
  destruct (viewer_hover_target fm Examples.overRegions c H1 H2 H3)
    as (f & _ & _ & _ & _ & _ & Ha & Hf & _).
  exists f. split; [exact Ha|exact Hf].
Defined.

(** ** The annotator's hover *)

Lemma unselect_display (reset : bool) (c : Controller) :
  annotating (unselectFeatures_ reset c) = annotating c
  /\ tooltipShown (unselectFeatures_ reset c) = tooltipShown c
  /\ _modal (unselectFeatures_ reset c) = _modal c.
Proof.
  unfold unselectFeatures_. destruct (_selectedFeature c); [|done].
  by destruct reset.
Qed.

(** What the annotator's [mouseMoveEvent_] does when it finds nothing to
    show: nothing is selected, the tooltip is hidden, the cursor is reset
    unless a query is outstanding. *)
Lemma annotator_hover_clear (c1 : Controller) (k : FeatureKey) :
  selectionConsistent c1 ->
  let c' := unselectFeatures_ true
              (Annotator.tooltip_hide
                 (if negb (_inQuery c1) then set_cursor "" c1 else c1)) in
  _selectedFeature c' = None
  /\ hasFlag k "selected" (featureState c') = false
  /\ tooltipShown c' = None
  /\ cursor c' = (if _inQuery c1 then cursor c1 else "").
Proof.
  intros Hc c'. subst c'.
  set (c2 := Annotator.tooltip_hide _).
  assert (Hc2 : selectionConsistent c2).
  { subst c2. intros k'. simpl. destruct (negb (_inQuery c1)); apply Hc. }
  split; [by rewrite unselect_reference|].
  split; [by apply unselect_clears|].
  rewrite (proj1 (proj2 (unselect_display true c2))).
  rewrite (proj2 (proj2 (unselect_times true c2))).
  subst c2. split; [done|]. simpl. by destruct (_inQuery c1).
Qed.

(** X11.  Outside annotation mode and with no menu open, a mouse move in
    the annotator ends in one of two ways.  If it resolves a feature whose
    annotation has models or whose layer is queryable, that feature is
    selected and alone holds the [selected] flag, the tooltip shows its label
    (or first model) when it has models and is left as it was otherwise, and
    the cursor becomes a pointer.  In every other case nothing is selected,
    no feature holds the flag, the tooltip is hidden and the cursor is reset.
    While a query is outstanding the cursor is not touched. *)
Theorem annotator_hover_outcome (fm : Flatmap) (e : MapEvent) (c : Controller)
    (k : FeatureKey) :
  _modal c = false -> annotating c = false -> selectionExact c ->
  let c' := Annotator.mouseMoveEvent_ fm e c in
  match smallestAnnotatedPolygonFeature_ fm c (activeFeaturesAtEvent_ fm e) with
  | Some f =>
      if hoverable fm f then
        _selectedFeature c' = Some f
        /\ hasFlag k "selected" (featureState c') = bool_decide (k = featureKey f)
        /\ tooltipShown c'
           = match getAnnotationOf fm (p_id (properties f)) ≫= hoverText with
             | Some text => Some (lngLat e, [JsString text])
             | None => tooltipShown c
             end
        /\ cursor c' = (if _inQuery c then cursor c else "pointer")
      else
        _selectedFeature c' = None
        /\ hasFlag k "selected" (featureState c') = false
        /\ tooltipShown c' = None
        /\ cursor c' = (if _inQuery c then cursor c else "")
  | None =>
      _selectedFeature c' = None
      /\ hasFlag k "selected" (featureState c') = false
      /\ tooltipShown c' = None
      /\ cursor c' = (if _inQuery c then cursor c else "")
  end.
Proof.
  intros Hm Ha Hsel c'. subst c'.
  pose proof (selectionExact_consistent c Hsel) as Hc.
  unfold Annotator.mouseMoveEvent_. rewrite Hm, Ha. cbv zeta.
  destruct (smallestAnnotatedPolygonFeature_ fm c (activeFeaturesAtEvent_ fm e))
    as [f|]; [|by apply annotator_hover_clear].
  unfold Annotator.showTooltip_, hoverable. cbn [fst snd].
  set (c1 := selectFeature_ f c).
  assert (Hc1 : selectionConsistent c1) by by apply select_consistent.
  assert (Ha1 : annotating c1 = false).
  { subst c1. unfold selectFeature_. simpl.
    by rewrite (proj1 (unselect_display false c)). }
  assert (Hq1 : _inQuery c1 = _inQuery c).
  { subst c1. unfold selectFeature_. simpl.
    by rewrite (proj1 (proj2 (unselect_times false c))). }
  assert (Hcur1 : cursor c1 = cursor c).
  { subst c1. unfold selectFeature_. simpl.
    by rewrite (proj2 (proj2 (unselect_times false c))). }
  assert (Ht1 : tooltipShown c1 = tooltipShown c).
  { subst c1. unfold selectFeature_. simpl.
    by rewrite (proj1 (proj2 (unselect_display false c))). }
  assert (Hr1 : _selectedFeature c1 = Some f) by done.
  assert (Hf1 : hasFlag k "selected" (featureState c1) = bool_decide (k = featureKey f))
    by by apply select_flags.
  assert (Hclear := annotator_hover_clear c1 k Hc1). cbv zeta in Hclear.
  rewrite Hq1, Hcur1 in Hclear.
  clearbody c1. rewrite Ha1.
  destruct (getAnnotationOf fm (p_id (properties f))) as [ann|];
    cbn [fst snd mbind option_bind andb]; [|rewrite ?Hq1; exact Hclear].
  unfold hoverText. destruct (ann_models ann) as [|m0 ms]; cbn [fst snd].
  - cbn [orb]. rewrite bool_decide_eq_false_2 by (intros H; by apply H).
    cbn [orb]. destruct (layerQueryable fm (ann_layer ann)); cbn [fst snd andb].
    + rewrite Hq1. destruct (_inQuery c); cbn [negb]; simpl; by rewrite ?Hcur1.
    + rewrite ?Hq1. exact Hclear.
  - rewrite bool_decide_eq_true_2 by done. cbn [orb fst snd andb].
    unfold Annotator.tooltip_show. simpl. rewrite Hq1.
    destruct (_inQuery c); cbn [negb]; simpl; by rewrite ?Hcur1.
Qed.

Lemma annotator_hover_outcome_witness :
  let fm := Examples.flatmap in
  let c := Annotator.constructor fm in
  let c' := Annotator.mouseMoveEvent_ fm Examples.overRegions c in
  _modal c = false /\ annotating c = false /\ selectionExact c
  /\ _selectedFeature c' = None /\ tooltipShown c' = None /\ cursor c' = "".
Proof.
  intros fm c c'.
  assert (H1 : _modal c = false) by reflexivity.
  assert (H2 : annotating c = false) by reflexivity.
  assert (H3 : selectionExact c).
  { apply (flagsExact_constructor fm). by left. }
  pose proof (annotator_hover_outcome fm Examples.overRegions c
                (featureKey Examples.featureB) H1 H2 H3) as H.
  assert (E : smallestAnnotatedPolygonFeature_ fm c
                (activeFeaturesAtEvent_ fm Examples.overRegions)
              = Some Examples.featureB) by (vm_compute; reflexivity).
  cbv zeta in H. rewrite E in H.
  assert (Hh : hoverable fm Examples.featureB = false) by (vm_compute; reflexivity).
  rewrite Hh in H. destruct H as (Hr & _ & Ht & Hcur).
  split; [exact H1|]. split; [exact H2|]. split; [exact H3|].
  split; [exact Hr|]. split; [exact Ht|]. exact Hcur.
Defined.

(** ** Query actions at the edges *)

(** X12.  In the annotator an edge or node action for an id without
    annotation raises a [TypeError]; by then the highlights are cleared and
    the menu is hidden.  The statement that lowers the modal flag at the end
    of [query_] is not reached: the flag is down if a menu was open, lowered
    by the menu's close callback, and has the value it had otherwise.
    Nothing reaches the query interface and the cursor and the in-query flag
    are as before. *)
Theorem annotator_query_unannotated (fm : Flatmap) (kind featureId : string)
    (c : Controller) :
  kind <> "data" ->
  getAnnotation fm featureId = None ->
  exists msg c',
    Annotator.query_ fm kind featureId c = Throws (TypeError msg) c'
    /\ contextMenu c' = None
    /\ _highlightedFeatures c' = []
    /\ _modal c' = match contextMenu c with
                   | Some _ => false
                   | None => _modal c
                   end
    /\ queryCalls c' = queryCalls c
    /\ _inQuery c' = _inQuery c
    /\ cursor c' = cursor c.
Proof.
  intros Hk Hann. unfold Annotator.query_.
  assert (E : String.eqb kind "data" = false) by by apply String.eqb_neq.
  rewrite E, Hann, contextMenu_hide_eq.
  eexists _, _. split; [reflexivity|]. done.
Qed.

Lemma annotator_query_unannotated_witness :
  let fm := Examples.flatmap in
  let c := Annotator.contextMenuEvent_ fm Examples.overRegions 1000
             (Annotator.constructor fm) in
  "nodes" <> "data" /\ getAnnotation fm "zz" = None
  /\ _modal c = true /\ is_Some (contextMenu c)
  /\ exists msg c', Annotator.query_ fm "nodes" "zz" c = Throws (TypeError msg) c'
                    /\ contextMenu c' = None /\ _modal c' = false.
Proof.
  intros fm c.
  assert (H1 : "nodes" <> "data") by discriminate.
  assert (H2 : getAnnotation fm "zz" = None) by reflexivity.
  split; [exact H1|]. split; [exact H2|]. split; [reflexivity|].
  split; [by eexists|].
  destruct (annotator_query_unannotated fm "nodes" "zz" c H1 H2)
    as (msg & c' & Hq & Hmenu & _ & Hmodal & _).
  exists msg, c'. split; [exact Hq|]. split; [exact Hmenu|].
  rewrite Hmodal. reflexivity.
Defined.

(** X13.  A ['data'] action, in either version, calls the host's
    [query-data] callback exactly when the feature has models, with the model
    list, and not at all for an empty list; it never raises, also for an id
    without annotation, sends nothing to the query interface, and leaves the
    cursor and the in-query flag alone. *)
Theorem data_query_callback (fm : Flatmap) (featureId : string) (c : Controller) :
  let models := modelsForFeature fm featureId in
  let expected := match models with
                  | [] => hostCallbacks c
                  | _ :: _ => models :: hostCallbacks c
                  end in
  (exists c', Annotator.query_ fm "data" featureId c = Returns c'
              /\ hostCallbacks c' = expected
              /\ queryCalls c' = queryCalls c
              /\ cursor c' = cursor c /\ _inQuery c' = _inQuery c)
  /\ (let c' := Viewer.query_ fm "data" featureId c in
      hostCallbacks c' = expected
      /\ queryCalls c' = queryCalls c
      /\ cursor c' = cursor c /\ _inQuery c' = _inQuery c).
Proof.
  cbv zeta. unfold Annotator.query_, Viewer.query_, queryData_.
  rewrite !contextMenu_hide_eq.
  cbn [String.eqb Ascii.eqb Bool.eqb].
  destruct (modelsForFeature fm featureId) as [|m ms]; cbn [length Nat.ltb Nat.leb].
  - split; [eexists; split; [reflexivity|]|]; done.
  - split; [eexists; split; [reflexivity|]|]; done.
Qed.

(** ** The viewer's click and popup *)

(** X14.  A click in the viewer touches neither the controller's selection,
    highlights, cursor or flags, nor the popups or the camera.  It forwards
    one ['click'] feature event per symbol feature under the pointer, in render
    order, and records the click's coordinate when there is at least one; a
    click that hits no symbol forwards nothing and keeps the coordinate of the
    last click that did. *)
Theorem viewer_click_spec (fm : Flatmap) (e : MapEvent) (s : Viewer.State) :
  let symbols := List.filter (fun f => String.eqb (layer_type (layer f)) "symbol")
                             (queryRenderedFeatures fm (point e)) in
  let s' := Viewer.clickEvent_ fm e s in
  Viewer.controller s' = Viewer.controller s
  /\ Viewer._currentPopup s' = Viewer._currentPopup s
  /\ Viewer.popupsOnMap s' = Viewer.popupsOnMap s
  /\ Viewer.panToCalls s' = Viewer.panToCalls s
  /\ Viewer.featureEvents s'
     = rev (map (fun f => ("click", f)) symbols) ++ Viewer.featureEvents s
  /\ Viewer._lastClickedLocation s'
     = match symbols with
       | [] => Viewer._lastClickedLocation s
       | _ :: _ => Some (lngLat e)
       end.
Proof.
  cbv zeta. unfold Viewer.clickEvent_.
  set (symbols := List.filter _ _).
  destruct symbols as [|f fs] eqn:E; [done|].
  change (0 <? length (f :: fs))%nat with true. cbv iota.
  match goal with
  | |- context [fold_left _ ?l ?s0] =>
      destruct (featureEvents_fold "click" l s0)
        as (-> & -> & -> & -> & _ & -> & ->)
  end. done.
Qed.











(** X15.  [showPopup] does nothing at all for an id without annotation
    record.  For an id with one it leaves exactly the feature's handle
    highlighted, makes a new popup the current one, placed at the last clicked
    location if there is one and at the feature's centroid otherwise, with the
    content set as DOM content when it is an object and as text when not, and
    pans the map to that place exactly when it lies outside the view; the last
    clicked location is kept. *)
Theorem showPopup_spec (fm : Flatmap) (inView : LngLat -> bool)
    (featureId : string) (content : Viewer.JsContent) (options : string)
    (s : Viewer.State) :
  let s' := Viewer.showPopup fm inView featureId content options s in
  match annotation fm featureId with
  | None => s' = s
  | Some properties =>
      let location := default (ap_centroid properties) (Viewer._lastClickedLocation s) in
      Viewer._currentPopup s'
      = Some (Viewer.mkPopup (Viewer.popupsCreated s) options location
                match content with
                | Viewer.ContentObject node => Viewer.DOMContent node
                | Viewer.ContentOther text => Viewer.Text text
                end)
      /\ Viewer.popupsCreated s' = S (Viewer.popupsCreated s)
      /\ Viewer.panToCalls s'
         = (if inView location then Viewer.panToCalls s
            else location :: Viewer.panToCalls s)
      /\ _highlightedFeatures (Viewer.controller s')
         = [mapFeature fm (ap_layer properties) featureId]
      /\ Viewer._lastClickedLocation s' = Viewer._lastClickedLocation s
  end.
Proof.
  cbv zeta. unfold Viewer.showPopup.
  destruct (annotation fm featureId) as [p|]; [|done].
  destruct (Viewer._currentPopup s) as [old|];
    destruct (Viewer._lastClickedLocation s) as [l|] eqn:El; cbn;
    rewrite ?El; cbn;
    match goal with |- context [inView ?x] => destruct (inView x) end; cbn;
    by rewrite ?El.
Qed.



(** ** The constructor's layer registration *)

Lemma positioned_snoc (layers : list LayerDesc) (x : LayerDesc) :
  positioned (layers ++ [x]) = positioned layers ++ [(length layers, x)].
Proof. unfold positioned. rewrite imap_app. simpl. by rewrite Nat.add_0_r. Qed.

Lemma positioned_elem (layers : list LayerDesc) (i : nat) (l : LayerDesc) :
  (i, l) ∈ positioned layers <-> layers !! i = Some l.
Proof.
  unfold positioned. rewrite elem_of_lookup_imap. split.
  - intros (j & y & E & Hy). by injection E as -> ->.
  - intros H. by exists i, l.
Qed.

Lemma filter_positioned (P : LayerDesc -> bool) (layers : list LayerDesc) :
  map snd (List.filter (fun il => P (snd il)) (positioned layers))
  = List.filter P layers.
Proof.
  induction layers as [|x ls IH] using rev_ind; [done|].
  rewrite positioned_snoc, !List.filter_app, map_app, IH. simpl.
  by destruct (P x).
Qed.

Lemma layersById_snoc (layers : list LayerDesc) (x : LayerDesc) :
  layersById (layers ++ [x]) = <[ld_id x := length layers]> (layersById layers).
Proof. unfold layersById. by rewrite positioned_snoc, fold_left_app. Qed.

(** [layersById] knows exactly the ids that occur, and gives for an id the
    last layer that has it. *)
Lemma layersById_None (layers : list LayerDesc) (b : string) :
  layersById layers !! b = None <-> b ∉ map ld_id layers.
Proof.
  induction layers as [|x ls IH] using rev_ind.
  - split; [intros _ H; inversion H|done].
  - rewrite layersById_snoc, map_app, not_elem_of_app. simpl.
    destruct (decide (ld_id x = b)) as [<-|Hne].
    + rewrite lookup_insert_eq. split; [done|].
      intros [_ H]. exfalso. apply H, list_elem_of_here.
    + rewrite lookup_insert_ne by done. rewrite IH. split.
      * intros H. split; [done|]. by intros ->%list_elem_of_singleton.
      * by intros [H _].
Qed.

Lemma layersById_Some (layers : list LayerDesc) (b : string) (j : nat) :
  layersById layers !! b = Some j ->
  exists t, layers !! j = Some t /\ ld_id t = b
            /\ forall j' t', layers !! j' = Some t' -> ld_id t' = b -> j' <= j.
Proof.
  revert j. induction layers as [|x ls IH] using rev_ind; intros j; [done|].
  rewrite layersById_snoc.
  destruct (decide (ld_id x = b)) as [<-|Hne].
  - rewrite lookup_insert_eq. intros [= <-]. exists x.
    split; [by rewrite lookup_app_r, Nat.sub_diag|]. split; [done|].
    intros j' t' H _. apply lookup_lt_Some in H. rewrite length_app in H.
    simpl in H. lia.
  - rewrite lookup_insert_ne by done. intros H.
    destruct (IH j H) as (t & Ht & Hid & Hlast). exists t.
    split; [by apply lookup_app_l_Some|]. split; [done|].
    intros j' t' Hj' Hid'. apply lookup_app_Some in Hj' as [Hj'|[Hge Hj']].
    + by apply (Hlast j' t').
    + destruct (j' - length ls) as [|n]; [|done].
      injection Hj' as <-. done.
Qed.

Lemma attach_from_None (byId : gmap string nat) (pl : list (nat * LayerDesc)) :
  fold_left (attachBackground byId) pl None = None.
Proof. induction pl as [|il pl IH]; [done|]. exact IH. Qed.

(** The second loop: it raises exactly on a [background_for] that
    [layersById] does not know; otherwise every background layer has been
    pushed onto the [backgroundLayers] of the layer found for it, and its id
    onto [layerBackgroundIds]. *)
Lemma attach_fold (byId : gmap string nat) (pl : list (nat * LayerDesc))
    (bg0 : gmap nat (list nat)) (ids0 : list string) :
  match fold_left (attachBackground byId) pl (Some (bg0, ids0)) with
  | None => exists il b, il ∈ pl /\ backgroundFor (snd il) = Some b
                         /\ byId !! b = None
  | Some (bg, ids) =>
      (forall il b, il ∈ pl -> backgroundFor (snd il) = Some b ->
                    exists j, byId !! b = Some j /\ fst il ∈ default [] (bg !! j))
      /\ ids = ids0 ++ map (fun il => ld_id (snd il))
                           (List.filter (fun il => isBackground (snd il)) pl)
      /\ (forall j i, i ∈ default [] (bg0 !! j) -> i ∈ default [] (bg !! j))
  end.
Proof.
  revert bg0 ids0. induction pl as [|il pl IH]; intros bg0 ids0.
  - simpl. split; [intros il b H; inversion H|]. split; [by rewrite app_nil_r|done].
  - cbn [fold_left]. unfold attachBackground at 2, isBackground.
    cbn [List.filter]. unfold isBackground.
    destruct (backgroundFor (snd il)) as [b|] eqn:Eb.
    + destruct (byId !! b) as [l|] eqn:El.
      * specialize (IH (<[l := default [] (bg0 !! l) ++ [fst il]]> bg0)
                       (ids0 ++ [ld_id (snd il)])).
        destruct (fold_left _ pl _) as [[bg ids]|].
        -- destruct IH as (H1 & H2 & H3). split; [|split].
           ++ intros il' b' [->|Hin]%elem_of_cons Hb'; [|by apply H1].
              rewrite Eb in Hb'. injection Hb' as <-. exists l. split; [done|].
              apply H3. rewrite lookup_insert_eq. simpl.
              apply elem_of_app. right. apply list_elem_of_here.
           ++ rewrite H2. cbn [map]. by rewrite <- app_assoc.
           ++ intros j i Hi. apply H3.
              destruct (decide (l = j)) as [->|Hne].
              ** rewrite lookup_insert_eq. simpl. apply elem_of_app. by left.
              ** by rewrite lookup_insert_ne.
        -- destruct IH as (il' & b' & Hin & Hb' & Hn).
           exists il', b'. split; [by apply list_elem_of_further|done].
      * rewrite attach_from_None. exists il, b.
        split; [apply list_elem_of_here|done].
    + specialize (IH bg0 ids0).
      destruct (fold_left _ pl _) as [[bg ids]|].
      * destruct IH as (H1 & H2 & H3). split; [|done].
        intros il' b' [->|Hin]%elem_of_cons Hb'; [congruence|by apply H1].
      * destruct IH as (il' & b' & Hin & Hb' & Hn).
        exists il', b'. split; [by apply list_elem_of_further|done].
Qed.

(** X17.  The constructor's layer loops raise exactly when some layer has a
    truthy [background_for] that is the id of no layer of the flatmap; with
    every [background_for] naming a layer they complete. *)
Theorem registerLayers_raises (layers : list LayerDesc) :
  registerLayers layers = None
  <-> exists l b, l ∈ layers /\ backgroundFor l = Some b /\ b ∉ map ld_id layers.
Proof.
  unfold registerLayers.
  pose proof (attach_fold (layersById layers) (positioned layers) ∅ []) as H.
  destruct (fold_left _ (positioned layers) _) as [[bg ids]|].
  - split; [done|]. intros (l & b & Hl & Hb & Hn). exfalso.
    apply list_elem_of_lookup in Hl as [i Hi].
    destruct H as (H1 & _).
    destruct (H1 (i, l) b) as (j & Hj & _); [by apply positioned_elem|done|].
    apply layersById_None in Hn. congruence.
  - split; [|done]. intros _.
    destruct H as ([i l] & b & Hin & Hb & Hn).
    exists l, b. split; [|split; [done|by apply layersById_None]].
    apply positioned_elem in Hin. by eapply list_elem_of_lookup_2.
Qed.

(** X18.  When the layer loops complete, the layers handed to
    [layerManager.addLayer] are, in declaration order, exactly those whose id
    is not the id of a background layer; no background layer is among them;
    and every background layer sits in the [backgroundLayers] of the last
    layer that has the id its [background_for] names.  When the ids are all
    different, the layers added are exactly those that are not background
    layers. *)
Theorem registerLayers_partition (layers : list LayerDesc) (r : Registration) :
  registerLayers layers = Some r ->
  map snd (addLayerCalls r)
  = List.filter (fun l => negb (indexOf_ge0 (backgroundIds layers) (ld_id l))) layers
  /\ (forall i l, (i, l) ∈ addLayerCalls r ->
                  layers !! i = Some l /\ backgroundFor l = None)
  /\ (forall i l b, layers !! i = Some l -> backgroundFor l = Some b ->
        ((i, l) ∉ addLayerCalls r)
        /\ exists j t, layers !! j = Some t /\ ld_id t = b
                       /\ (forall j' t', layers !! j' = Some t' -> ld_id t' = b -> j' <= j)
                       /\ i ∈ default [] (backgroundLayers r !! j))
  /\ (NoDup (map ld_id layers) ->
      forall i l, layers !! i = Some l -> backgroundFor l = None ->
                  (i, l) ∈ addLayerCalls r).
Proof.
  unfold registerLayers.
  pose proof (attach_fold (layersById layers) (positioned layers) ∅ []) as H.
  destruct (fold_left _ (positioned layers) _) as [[bg ids]|]; [|done].
  intros [= <-]. destruct H as (H1 & H2 & _). cbn [addLayerCalls backgroundLayers].
  assert (Hids : ids = backgroundIds layers).
  { rewrite H2. unfold backgroundIds. cbn [app].
    rewrite <- (filter_positioned isBackground layers).
    by rewrite <- list_fmap_compose. }
  clear H2. subst ids.
  assert (Hbgid : forall i l b, layers !! i = Some l -> backgroundFor l = Some b ->
                                ld_id l ∈ backgroundIds layers).
  { intros i l b Hi Hb. unfold backgroundIds. apply list_elem_of_fmap.
    exists l. split; [done|]. apply list_elem_of_In, filter_In.
    split; [apply list_elem_of_In; by eapply list_elem_of_lookup_2|].
    unfold isBackground. by rewrite Hb. }
  assert (Hadded : forall i l,
            (i, l) ∈ List.filter
                       (fun il => negb (indexOf_ge0 (backgroundIds layers) (ld_id (snd il))))
                       (positioned layers)
            <-> layers !! i = Some l /\ ld_id l ∉ backgroundIds layers).
  { intros i l. rewrite list_elem_of_In, filter_In, <- list_elem_of_In.
    rewrite positioned_elem. unfold indexOf_ge0. cbn [snd].
    rewrite negb_true_iff, bool_decide_eq_false. done. }
  split; [|split; [|split]].
  - apply (filter_positioned
             (fun l => negb (indexOf_ge0 (backgroundIds layers) (ld_id l)))).
  - intros i l [Hi Hn]%Hadded. split; [done|].
    destruct (backgroundFor l) as [b|] eqn:Hb; [|done].
    exfalso. apply Hn. by eapply Hbgid.
  - intros i l b Hi Hb. split.
    + intros [_ Hn]%Hadded. apply Hn. by eapply Hbgid.
    + destruct (H1 (i, l) b) as (j & Hj & Hin); [by apply positioned_elem|done|].
      destruct (layersById_Some layers b j Hj) as (t & Ht & Hid & Hlast).
      by exists j, t.
  - intros Hnd i l Hi Hb. apply Hadded. split; [done|].
    unfold backgroundIds. intros (l' & Hid & Hl')%list_elem_of_fmap.
    apply list_elem_of_In, filter_In in Hl' as [Hl' Hbg].
    apply list_elem_of_In, list_elem_of_lookup in Hl' as [i' Hi'].
    assert (i = i').
    { eapply NoDup_lookup; [exact Hnd| |].
      - rewrite list_lookup_fmap, Hi. reflexivity.
      - rewrite list_lookup_fmap, Hi'. simpl. by rewrite Hid. }
    subst i'. rewrite Hi in Hi'. injection Hi' as <-.
    unfold isBackground in Hbg. by rewrite Hb in Hbg.
Qed.

Lemma registerLayers_partition_witness :
  let layers := [mkLayerDesc "organs" None;
                 mkLayerDesc "organs-bg" (Some "organs");
                 mkLayerDesc "nerves" (Some "")] in
  exists r, registerLayers layers = Some r
            /\ map snd (addLayerCalls r)
               = [mkLayerDesc "organs" None; mkLayerDesc "nerves" (Some "")]
            /\ backgroundLayers r !! 0%nat = Some [1%nat].
Proof.
  intros layers.
  assert (H : registerLayers layers
              = Some (mkRegistration
                        [(0%nat, mkLayerDesc "organs" None);
                         (2%nat, mkLayerDesc "nerves" (Some ""))]
                        {[0%nat := [1%nat]]})) by (vm_compute; reflexivity).
  eexists. split; [exact H|]. split.
  - rewrite (proj1 (registerLayers_partition layers _ H)). vm_compute. reflexivity.
  - vm_compute. reflexivity.
Defined.

(** ** The load callback *)

Lemma notifyLoaded_after (n : LoadNotice) :
  _userInterfaceLoadedCallback n = None -> notifyLoaded n = n.
Proof. unfold notifyLoaded. by intros ->. Qed.

(** X19.  The user-interface-loaded callback is called by the constructor,
    once, when one was given, and the field is then [null]: however many times
    [layerSwitcherActiveCallback_] runs afterwards, it calls nothing. *)
Theorem loaded_callback_once (callback : option string) (times : nat) :
  let n := Nat.iter times layerSwitcherActiveCallback_ (constructor_notice callback) in
  callbackCalls n = match callback with Some f => [f] | None => [] end
  /\ _userInterfaceLoadedCallback n = None.
Proof.
  cbv zeta. induction times as [|k IH].
  - by destruct callback.
  - destruct IH as [IH1 IH2].
    change (Nat.iter (S k) layerSwitcherActiveCallback_ (constructor_notice callback))
      with (notifyLoaded
              (Nat.iter k layerSwitcherActiveCallback_ (constructor_notice callback))).
    by rewrite notifyLoaded_after.
Qed.

(** ** Saving and restoring the view *)

(** X20.  [setState] calls [jumpTo] at most once, and not at all for a state
    with neither [center] nor [zoom]; the call carries the state's center and
    zoom, and [around: [0, 0]] exactly when a zoom is given.  The [layers] of
    a state are never read: restoring what [getState] saved jumps to the saved
    center and zoom and activates no layer. *)
Theorem setState_spec (fm : Flatmap) (state : SavedState) (cam : Camera) :
  jumpToCalls (setState state cam)
  = match state_center state, state_zoom state with
    | None, None => jumpToCalls cam
    | center, zoom =>
        mkJumpOptions center zoom
                      match zoom with Some _ => Some (0, 0)%Q | None => None end
          :: jumpToCalls cam
    end
  /\ setState state cam
     = setState (mkSavedState (state_center state) (state_zoom state) None) cam
  /\ jumpToCalls (setState (getState fm cam) cam)
     = mkJumpOptions (Some (camera_center cam)) (Some (camera_zoom cam))
                     (Some (0, 0)%Q)
         :: jumpToCalls cam.
Proof.
  unfold setState, getState.
  destruct (state_center state), (state_zoom state); done.
Qed.

(** ** The viewer's mouse move over nothing *)

(** X21.  In a viewer whose [active] flags are as recorded (as they are
    after any sequence of calls), a mouse move over a pixel with no rendered
    feature leaves no tooltip, no active feature and no feature holding the
    [active] flag, and the cursor at ['default']; the selection and the
    highlights are not touched. *)
Theorem viewer_mouseMove_nothing (fm : Flatmap) (e : MapEvent) (c : Controller)
    (k : FeatureKey) :
  queryRenderedFeatures fm (point e) = [] ->
  activeExact c ->
  let c' := Viewer.mouseMoveEvent_ fm e c in
  _tooltip c' = None
  /\ _activeFeature c' = None
  /\ hasFlag k "active" (featureState c') = false
  /\ cursor c' = "default"
  /\ _selectedFeature c' = _selectedFeature c
  /\ _highlightedFeatures c' = _highlightedFeatures c
  /\ hasFlag k "selected" (featureState c') = hasFlag k "selected" (featureState c)
  /\ hasFlag k "highlighted" (featureState c')
     = hasFlag k "highlighted" (featureState c).
Proof.
  intros Hnone Hact. cbv zeta. unfold Viewer.mouseMoveEvent_.
  rewrite Hnone.
  set (c1 := set_cursor "default" (Viewer.removeTooltip_ c)).
  assert (H1 : _tooltip c1 = None /\ cursor c1 = "default"
               /\ featureState c1 = featureState c
               /\ _activeFeature c1 = _activeFeature c
               /\ _selectedFeature c1 = _selectedFeature c
               /\ _highlightedFeatures c1 = _highlightedFeatures c).
  { subst c1. unfold Viewer.removeTooltip_. by destruct (_tooltip c) eqn:E. }
  clearbody c1. destruct H1 as (Ht & Hcur & Hst & Ha & Hs & Hh). cbv zeta.
  destruct (_activeFeature c1) as [f|] eqn:Hf; simpl; rewrite ?Hst.
  - repeat split; try done.
    + destruct (decide (k = featureKey f)) as [->|Hne];
        [apply hasFlag_remove_same|].
      rewrite hasFlag_remove_other_key by done.
      destruct (hasFlag k "active" (featureState c)) eqn:E; [|done].
      apply Hact in E as (g & Hg & <-). congruence.
    + by apply hasFlag_remove_other_flag.
    + by apply hasFlag_remove_other_flag.
  - repeat split; try done.
    destruct (hasFlag k "active" (featureState c)) eqn:E; [|done].
    apply Hact in E as (g & Hg & _). congruence.
Qed.

Lemma viewer_mouseMove_nothing_witness :
  let fm := Examples.flatmap in
  let c := Viewer.mouseMoveEvent_ fm Examples.overRegions (Viewer.constructor fm) in
  let nowhere := mkMapEvent (5, 5)%Z (5, 5)%Q in
  queryRenderedFeatures fm (point nowhere) = []
  /\ activeExact c
  /\ _activeFeature c = Some Examples.featureB
  /\ _activeFeature (Viewer.mouseMoveEvent_ fm nowhere c) = None
  /\ hasFlag (featureKey Examples.featureB) "active"
       (featureState (Viewer.mouseMoveEvent_ fm nowhere c)) = false.
Proof.
  intros fm c nowhere.
  assert (H1 : queryRenderedFeatures fm (point nowhere) = []) by reflexivity.
  assert (H2 : activeExact c).
  { apply flagsExact_viewer_mouseMove, (flagsExact_constructor fm). by right. }
  destruct (viewer_mouseMove_nothing fm nowhere c (featureKey Examples.featureB) H1 H2)
    as (_ & Ha & Hf & _).
  split; [exact H1|]. split; [exact H2|]. split; [vm_compute; reflexivity|].
  split; [exact Ha|exact Hf].
Defined.

(** ** Moving the mouse twice *)

(** Setting and removing one flag of one feature, composed. *)
Lemma set_remove_set (f : Feature) (flag : string) (st : Store) :
  setFeatureState f flag (removeFeatureState f flag (setFeatureState f flag st))
  = setFeatureState f flag st.
Proof.
  unfold setFeatureState, removeFeatureState, getFeatureState.
  rewrite !lookup_insert_eq, !insert_insert_eq. simpl. f_equal.
  apply set_eq. intros x. destruct (decide (x = flag)); set_solver.
Qed.

Lemma remove_set_remove_set (f : Feature) (flag : string) (st : Store) :
  removeFeatureState f flag
    (setFeatureState f flag (removeFeatureState f flag (setFeatureState f flag st)))
  = removeFeatureState f flag (setFeatureState f flag st).
Proof.
  unfold setFeatureState, removeFeatureState, getFeatureState.
  rewrite !lookup_insert_eq, !insert_insert_eq. simpl. f_equal.
  apply set_eq. intros x. destruct (decide (x = flag)); set_solver.
Qed.

(** [unselectFeatures_] and [selectFeature_] as field updates. *)
Lemma unselect_eq (reset : bool) (c : Controller) :
  unselectFeatures_ reset c
  = set_selectedFeature (if reset then None else _selectedFeature c)
      (set_featureState
         match _selectedFeature c with
         | Some g => removeFeatureState g "selected" (featureState c)
         | None => featureState c
         end c).
Proof.
  unfold unselectFeatures_. destruct (_selectedFeature c) eqn:E.
  - destruct reset; apply controller_ext; simpl; congruence.
  - destruct reset; apply controller_ext; simpl; congruence.
Qed.

Lemma select_eq (f : Feature) (c : Controller) :
  selectFeature_ f c
  = set_selectedFeature (Some f)
      (set_featureState
         (setFeatureState f "selected"
            match _selectedFeature c with
            | Some g => removeFeatureState g "selected" (featureState c)
            | None => featureState c
            end) c).
Proof. unfold selectFeature_. rewrite unselect_eq. by apply controller_ext. Qed.

(** [showTooltip_] through [tooltipFor]. *)
Lemma showTooltip_eq (fm : Flatmap) (pos : LngLat) (f : Feature) (c : Controller) :
  Annotator.showTooltip_ fm pos f c
  = let c1 := selectFeature_ f c in
    let rt := tooltipFor fm f c1 in
    let c2 := match snd rt with
              | Some lines => set_tooltipShown (Some (pos, lines)) c1
              | None => c1
              end in
    (fst rt, if fst rt && negb (_inQuery c) then set_cursor "pointer" c2 else c2).
Proof.
  unfold Annotator.showTooltip_, tooltipFor, hoverText, Annotator.tooltip_show.
  cbv zeta.
  assert (Hq : _inQuery (selectFeature_ f c) = _inQuery c).
  { unfold selectFeature_. simpl. apply unselect_times. }
  set (c1 := selectFeature_ f c) in *. clearbody c1.
  destruct (annotating c1);
    destruct (getAnnotationOf fm (p_id (properties f))) as [ann|];
    cbn [fst snd]; try (destruct (ann_models ann));
    try (destruct (layerQueryable fm (ann_layer ann)));
    cbn [fst snd andb]; simpl; rewrite ?Hq; done.
Qed.

Lemma sameMode_refl (c : Controller) : sameMode c c.
Proof. repeat split. Qed.

Lemma hoverTarget_sameMode (fm : Flatmap) (e : MapEvent) (c c' : Controller) :
  sameMode c c' -> hoverTarget fm e c' = hoverTarget fm e c.
Proof.
  intros (_ & Ha & _ & Hf). unfold hoverTarget. rewrite Ha.
  assert (E : smallestAnnotatedPolygonFeature_ fm c' (activeFeaturesAtEvent_ fm e)
              = smallestAnnotatedPolygonFeature_ fm c (activeFeaturesAtEvent_ fm e)).
  { unfold smallestAnnotatedPolygonFeature_. f_equal.
    assert (Hstep : forall acc x, smallestStep fm c' acc x = smallestStep fm c acc x).
    { intros acc x. unfold smallestStep, annotatedPolygon.
      change (bool_decide ("annotated" ∈ getFeatureState x (featureState c')))
        with (hasFlag (featureKey x) "annotated" (featureState c')).
      change (bool_decide ("annotated" ∈ getFeatureState x (featureState c)))
        with (hasFlag (featureKey x) "annotated" (featureState c)).
      by rewrite (Hf (featureKey x)). }
    generalize (0%Q, @None Feature).
    induction (activeFeaturesAtEvent_ fm e) as [|x xs IH]; intros acc; [done|].
    simpl. by rewrite IH, Hstep. }
  by rewrite E.
Qed.

Lemma tooltipFor_sameMode (fm : Flatmap) (f : Feature) (c c' : Controller) :
  sameMode c c' -> tooltipFor fm f c' = tooltipFor fm f c.
Proof.
  intros (_ & Ha & _ & Hf). unfold tooltipFor. by rewrite Ha, (Hf (featureKey f)).
Qed.

Lemma annotator_mouseMove_eq (fm : Flatmap) (e : MapEvent) (c : Controller) :
  Annotator.mouseMoveEvent_ fm e c
  = if _modal c then c
    else match hoverTarget fm e c with
         | None => hoverClear c
         | Some f =>
             let rt := tooltipFor fm f (selectFeature_ f c) in
             let c2 := match snd rt with
                       | Some lines =>
                           set_tooltipShown (Some (lngLat e, lines)) (selectFeature_ f c)
                       | None => selectFeature_ f c
                       end in
             if fst rt
             then (if negb (_inQuery c) then set_cursor "pointer" c2 else c2)
             else hoverClear c2
         end.
Proof.
  unfold Annotator.mouseMoveEvent_, hoverTarget. destruct (_modal c); [done|].
  cbv zeta.
  assert (E : forall f,
    (if fst (Annotator.showTooltip_ fm (lngLat e) f c)
     then snd (Annotator.showTooltip_ fm (lngLat e) f c)
     else hoverClear (snd (Annotator.showTooltip_ fm (lngLat e) f c)))
    = if fst (tooltipFor fm f (selectFeature_ f c))
      then (if negb (_inQuery c)
            then set_cursor "pointer"
                   match snd (tooltipFor fm f (selectFeature_ f c)) with
                   | Some lines =>
                       set_tooltipShown (Some (lngLat e, lines)) (selectFeature_ f c)
                   | None => selectFeature_ f c
                   end
            else match snd (tooltipFor fm f (selectFeature_ f c)) with
                 | Some lines =>
                     set_tooltipShown (Some (lngLat e, lines)) (selectFeature_ f c)
                 | None => selectFeature_ f c
                 end)
      else hoverClear
             match snd (tooltipFor fm f (selectFeature_ f c)) with
             | Some lines =>
                 set_tooltipShown (Some (lngLat e, lines)) (selectFeature_ f c)
             | None => selectFeature_ f c
             end).
  { intros f. rewrite showTooltip_eq. cbv zeta. cbn [fst snd].
    by destruct (fst (tooltipFor fm f (selectFeature_ f c))). }
  destruct (smallestAnnotatedPolygonFeature_ fm c (activeFeaturesAtEvent_ fm e))
    as [f|]; [apply E|].
  destruct (annotating c); [|done].
  destruct (head (activeFeaturesAtEvent_ fm e)) as [f|]; [apply E|done].
Qed.

Lemma sameMode_annotator_mouseMove (fm : Flatmap) (e : MapEvent) (c : Controller) :
  sameMode c (Annotator.mouseMoveEvent_ fm e c).
Proof.
  rewrite annotator_mouseMove_eq. destruct (_modal c); [apply sameMode_refl|].
  unfold hoverClear, Annotator.tooltip_hide.
  destruct (hoverTarget fm e c) as [f|]; cbv zeta;
    rewrite ?unselect_eq, ?select_eq;
    repeat match goal with
           | |- context [if ?b then _ else _] => destruct b
           | |- context [match snd ?x with _ => _ end] => destruct (snd x)
           | |- context [match _selectedFeature ?x with _ => _ end] =>
               destruct (_selectedFeature x)
           end;
    repeat split; simpl; try done; intros k; simpl;
    repeat first [ rewrite hasFlag_set_other_flag by discriminate
                 | rewrite hasFlag_remove_other_flag by discriminate ];
    done.
Qed.

Lemma tooltipFor_select (fm : Flatmap) (f : Feature) (c c' : Controller) :
  sameMode c c' ->
  tooltipFor fm f (selectFeature_ f c') = tooltipFor fm f (selectFeature_ f c).
Proof.
  intros (Hm & Ha & Hq & Hf). apply tooltipFor_sameMode.
  rewrite !select_eq. repeat split; simpl; try done. intros k. simpl.
  rewrite !hasFlag_set_other_flag by discriminate.
  destruct (_selectedFeature c'), (_selectedFeature c);
    rewrite ?hasFlag_remove_other_flag by discriminate; apply Hf.
Qed.

(** X22.  In the annotator, a second mouse move at the same place changes
    nothing: handling a move event again in the state the first handling
    left gives that very state, whatever the controller's state was. *)
Theorem annotator_mouseMove_idempotent (fm : Flatmap) (e : MapEvent) (c : Controller) :
  Annotator.mouseMoveEvent_ fm e (Annotator.mouseMoveEvent_ fm e c)
  = Annotator.mouseMoveEvent_ fm e c.
Proof.
  set (c' := Annotator.mouseMoveEvent_ fm e c).
  assert (Hs : sameMode c c') by apply sameMode_annotator_mouseMove.
  rewrite (annotator_mouseMove_eq fm e c').
  rewrite (hoverTarget_sameMode fm e c c' Hs).
  destruct (Hs) as (Hm & _ & Hq & _). rewrite Hm, Hq.
  destruct (_modal c) eqn:Em; [done|].
  destruct (hoverTarget fm e c) as [f|] eqn:Et; cbv zeta.
  - rewrite (tooltipFor_select fm f c c' Hs). clear Hs Hm Hq.
    subst c'. rewrite annotator_mouseMove_eq, Em, Et. cbv zeta.
    destruct (tooltipFor fm f (selectFeature_ f c)) as [r tip]. cbn [fst snd].
    unfold hoverClear, Annotator.tooltip_hide. rewrite !select_eq.
    destruct r, tip, (_inQuery c) eqn:Eq; cbn [negb];
      repeat (progress (simpl; rewrite ?Eq, ?unselect_eq));
      apply controller_ext; simpl; try done;
      destruct (_selectedFeature c);
      rewrite ?set_remove_set, ?remove_set_remove_set; done.
  - clear Hs Hm Hq. subst c'. rewrite annotator_mouseMove_eq, Em, Et.
    unfold hoverClear, Annotator.tooltip_hide.
    destruct (_inQuery c) eqn:Eq; cbn [negb];
      repeat (progress (simpl; rewrite ?Eq, ?unselect_eq));
      apply controller_ext; simpl; try done;
      destruct (_selectedFeature c); done.
Qed.

Lemma removeTooltip_eq (c : Controller) :
  Viewer.removeTooltip_ c = set_tooltip None c.
Proof.
  unfold Viewer.removeTooltip_. destruct (_tooltip c) eqn:E; [done|].
  by apply controller_ext.
Qed.

(** X23.  In the viewer too a second mouse move at the same place changes
    nothing: the tooltip, the cursor, the active feature and its [active]
    flag that the first handling left are what the second one leaves. *)
Theorem viewer_mouseMove_idempotent (fm : Flatmap) (e : MapEvent) (c : Controller) :
  Viewer.mouseMoveEvent_ fm e (Viewer.mouseMoveEvent_ fm e c)
  = Viewer.mouseMoveEvent_ fm e c.
Proof.
  remember (Viewer.mouseMoveEvent_ fm e c) as c' eqn:Hc'.
  unfold Viewer.mouseMoveEvent_ in *. rewrite !removeTooltip_eq in *.
  cbv zeta in *.
  destruct (queryRenderedFeatures fm (point e)) as [|f0 fs] eqn:Efs.
  - destruct (_activeFeature c) eqn:Ea;
      repeat (progress (simpl in Hc'; rewrite ?Ea in Hc')); subst c';
      repeat (progress (simpl; rewrite ?Ea)); by apply controller_ext.
  - set (html := featureInformation fm (f0 :: fs)) in *.
    set (labelled := Viewer.sortByArea _) in *.
    clearbody html labelled.
    destruct (html =? "")%string eqn:Eh, labelled as [|f l],
      (_activeFeature c) as [a|] eqn:Ea, (_infoControl c) as [i|] eqn:Ei;
      try destruct (layer_type (layer f) =? "symbol")%string eqn:Es;
      try destruct (opt_tooltips fm) eqn:Eo;
      try (set (tip := ("<div class='flatmap-feature-label'>" +:+ _)%string) in *;
           assert (Hdiv : (tip =? "")%string = false) by reflexivity;
           clearbody tip);
      repeat (progress (cbn [fst snd negb] in Hc'; simpl in Hc';
                        rewrite ?Ea, ?Ei, ?Eh, ?Es, ?Eo, ?Hdiv in Hc'));
      subst c';
      repeat (progress (cbn [fst snd negb]; simpl;
                        rewrite ?Ea, ?Ei, ?Eh, ?Es, ?Eo, ?Hdiv));
      apply controller_ext; simpl; rewrite ?set_remove_set; try done.
Qed.
